(** * Stokvela: contribution/penalty rule engine and period reconciliation

    A shallow embedding of the rule engine of the Stokvela Django project
    (stokvel/models.py, stokvel/services.py, stokvel/utils.py and
    finances/models.py) together with the properties of its specification.

    Conventions of the embedding:
    - a [datetime.date] is a record of year, month and day, compared as
      Python compares dates (lexicographically on the three fields);
    - a [Decimal] is the rational number it denotes ([Q]); a quotient of
      two amounts is rounded to the 28 significant digits of the decimal
      context ([Dec.div]), while sums, products and the shift by a power
      of ten, which stay within 28 digits for the amounts of the models,
      are exact;
    - a database table is the list of its rows; a model instance is a copy
      of a row, written back only by [save];
    - a Python exception is a value of [exn], and code that may raise
      returns a [result]. *)

From Stdlib Require Import ZArith QArith Qround Qabs Qpower Bool List Lia Lqa
  String.
From Stdlib Require Import Sorted Permutation DecimalString.
Import ListNotations.

Local Open Scope Z_scope.

(* ------------------------------------------------------------------ *)
(** ** Python runtime: exceptions and name lookup *)

Module Py.

Inductive exn : Type :=
| ValidationError (msg : string)   (* django.core.exceptions *)
| ValueError (msg : string)
| NameError (name : string)
| IllegalMonthError                (* calendar *)
| ZeroDivisionError.               (* decimal.DivisionByZero, InvalidOperation *)

Inductive result (A : Type) : Type :=
| Ok (a : A)
| Raise (e : exn).
Arguments Ok {A} a.
Arguments Raise {A} e.

Definition bind {A B : Type} (c : result A) (k : A -> result B) : result B :=
  match c with
  | Ok a => k a
  | Raise e => Raise e
  end.

Definition returns {A : Type} (c : result A) : Prop :=
  exists a, c = Ok a.

(** Looking a global name up in a module namespace; an unbound name
    raises [NameError]. *)
Definition lookup_global (globals : list string) (name : string) : result unit :=
  if existsb (String.eqb name) globals then Ok tt else Raise (NameError name).

End Py.
Import Py.

Declare Scope py_scope.
Delimit Scope py_scope with py.
Notation "x <- c ;; k" := (Py.bind c (fun x => k))
  (at level 61, c at next level, right associativity) : py_scope.
Local Open Scope py_scope.

(* ------------------------------------------------------------------ *)
(** ** datetime.date and calendar.monthrange *)

Module Dates.

Record date : Type := mkdate { year : Z; month : Z; day : Z }.

Definition MINYEAR : Z := 1.
Definition MAXYEAR : Z := 9999.

(** calendar.isleap *)
Definition isleap (y : Z) : bool :=
  (y mod 4 =? 0) && (negb (y mod 100 =? 0) || (y mod 400 =? 0)).

(** calendar.mdays *)
Definition mdays (m : Z) : Z :=
  match m with
  | 1 => 31 | 2 => 28 | 3 => 31 | 4 => 30 | 5 => 31 | 6 => 30
  | 7 => 31 | 8 => 31 | 9 => 30 | 10 => 31 | 11 => 30 | 12 => 31
  | _ => 0
  end.

Definition days_in_month (y m : Z) : Z :=
  mdays m + (if (m =? 2) && isleap y then 1 else 0).

(** [calendar.monthrange(year, month)[1]]: the number of days of the
    month; a month outside 1..12 raises. *)
Definition monthrange_ndays (y m : Z) : result Z :=
  if (1 <=? m) && (m <=? 12) then Ok (days_in_month y m)
  else Raise IllegalMonthError.

(** The constructor [date(year, month, day)], which validates its fields. *)
Definition date_new (y m d : Z) : result date :=
  if negb ((MINYEAR <=? y) && (y <=? MAXYEAR)) then
    Raise (ValueError "year is out of range")
  else if negb ((1 <=? m) && (m <=? 12)) then
    Raise (ValueError "month must be in 1..12")
  else if negb ((1 <=? d) && (d <=? days_in_month y m)) then
    Raise (ValueError "day is out of range for month")
  else Ok (mkdate y m d).

(** date.max *)
Definition date_max : date := mkdate 9999 12 31.

Definition date_eqb (a b : date) : bool :=
  (year a =? year b) && (month a =? month b) && (day a =? day b).

Definition date_ltb (a b : date) : bool :=
  (year a <? year b)
  || ((year a =? year b)
      && ((month a <? month b)
          || ((month a =? month b) && (day a <? day b)))).

Definition date_leb (a b : date) : bool := date_ltb a b || date_eqb a b.

End Dates.
Import Dates.

(* ------------------------------------------------------------------ *)
(** ** stokvel/utils.py: DateUtils *)

Module DateUtils.

Definition get_month_end_date (y m : Z) : result date :=
  last_day <- monthrange_ndays y m ;;
  date_new y m last_day.

Definition get_due_date_for_month (y m due_day : Z) : result date :=
  if due_day =? 31 then
    get_month_end_date y m
  else
    last_day <- monthrange_ndays y m ;;
    let actual_day := Z.min due_day last_day in
    date_new y m actual_day.

End DateUtils.

(* ------------------------------------------------------------------ *)
(** ** decimal.Decimal *)

Module Dec.

Local Open Scope Q_scope.

(** A [Decimal] is modelled by its value, a rational.  Sums, differences
    and products are taken exactly: the context rounds them only beyond 28
    significant digits, which the amounts of the models (ten digits) and
    their sums and products with row counts do not reach.  A quotient has
    no such bound, so division rounds. *)

(** [bool(d)]: a Decimal is falsy exactly when it is zero. *)
Definition truthy (d : Q) : bool := negb (Qeq_bool d 0).

Definition leb (a b : Q) : bool := Qle_bool a b.
Definition ltb (a b : Q) : bool := negb (Qle_bool b a).

(** Rounding to an integer, half to even (ROUND_HALF_EVEN). *)
Definition round_half_even (x : Q) : Z :=
  let n := Qfloor x in
  let frac := x - inject_Z n in
  if ltb frac (1 # 2) then n
  else if ltb (1 # 2) frac then (n + 1)%Z
  else if Z.even n then n else (n + 1)%Z.

(** [getcontext().prec] of the default context. *)
Definition prec : Z := 28.

(** The number of decimal digits of a positive integer. *)
Fixpoint ndigits_aux (fuel : nat) (n : Z) : Z :=
  match fuel with
  | O => 1
  | S fuel' => if (n <? 10)%Z then 1 else (1 + ndigits_aux fuel' (n / 10))%Z
  end.

Definition ndigits (n : Z) : Z := ndigits_aux (Z.to_nat (Z.log2 n)) n.

Definition pow10 (e : Z) : Q := (10 # 1) ^ e.

(** [Decimal.adjusted()]: the exponent of the leading digit of a value
    other than zero.  The digit counts of numerator and denominator give
    it up to one, the comparison settles it. *)
Definition adjusted (x : Q) : Z :=
  let k := (ndigits (Z.abs (Qnum x)) - ndigits (Zpos (Qden x)))%Z in
  if Qle_bool (pow10 k) (Qabs x) then k else (k - 1)%Z.

(** The rounding of the context: to [prec] significant digits, half to
    even.  (The exponent limits of the context, 999999 either way, are out
    of reach of the amounts and are not modelled.) *)
Definition round_prec (x : Q) : Q :=
  if Qeq_bool x 0 then 0
  else
    let e := (adjusted x - (prec - 1))%Z in
    let c := round_half_even (Qabs x / pow10 e) in
    (if Qle_bool 0 x then inject_Z c else - inject_Z c) * pow10 e.

(** Division: the exact quotient rounded by the context; a zero divisor
    raises. *)
Definition div (a b : Q) : result Q :=
  if Qeq_bool b 0 then Raise ZeroDivisionError else Ok (round_prec (a / b)).

(** [sum(xs)] over Decimals. *)
Definition sum (xs : list Q) : Q := fold_left Qplus xs 0.

(** [round(d, 2)]: quantize to two places, rounding half to even. *)
Definition round2 (d : Q) : Q :=
  inject_Z (round_half_even (d * 100)) / 100.

End Dec.

(* ------------------------------------------------------------------ *)
(** ** Django ORM: field lookups and querysets over a table *)

Module Django.

(** A lookup other than [exact] refuses [None] as its value. *)
Definition query_value {A : Type} (v : option A) : result A :=
  match v with
  | Some a => Ok a
  | None => Raise (ValueError "Cannot use None as a query value")
  end.

(** [field__lte=v] on a non-null date column. *)
Definition lte (field v : date) : bool := date_leb field v.

(** [field__gte=v] on a nullable date column: a NULL never compares. *)
Definition gte_null (field : option date) (v : date) : bool :=
  match field with
  | Some u => date_leb v u
  | None => false
  end.

(** [field__isnull=True] *)
Definition isnull {A : Type} (field : option A) : bool :=
  match field with
  | Some _ => false
  | None => true
  end.

(** [qs.exists()] *)
Definition exists_ {A : Type} (qs : list A) : bool :=
  match qs with
  | [] => false
  | _ :: _ => true
  end.

(** [qs.first()] on a queryset whose rows are already in query order. *)
Definition first {A : Type} (qs : list A) : option A := hd_error qs.

End Django.

(* ------------------------------------------------------------------ *)
(** ** stokvel/models.py *)

Inductive ContributionType : Type :=
| regular | registration | special | emergency.

Definition ContributionType_eqb (a b : ContributionType) : bool :=
  match a, b with
  | regular, regular | registration, registration
  | special, special | emergency, emergency => true
  | _, _ => false
  end.

Definition ContributionType_str (c : ContributionType) : string :=
  match c with
  | regular => "regular"
  | registration => "registration"
  | special => "special"
  | emergency => "emergency"
  end.

Inductive Frequency : Type :=
| once_off | weekly | monthly | quarterly | annually.

Inductive PenaltyType : Type :=
| late_payment | insufficient_payment | no_payment
| missed_meeting | early_exit | breach_of_rules.

Definition PenaltyType_eqb (a b : PenaltyType) : bool :=
  match a, b with
  | late_payment, late_payment
  | insufficient_payment, insufficient_payment
  | no_payment, no_payment
  | missed_meeting, missed_meeting
  | early_exit, early_exit
  | breach_of_rules, breach_of_rules => true
  | _, _ => false
  end.

Definition PenaltyType_str (p : PenaltyType) : string :=
  match p with
  | late_payment => "late_payment"
  | insufficient_payment => "insufficient_payment"
  | no_payment => "no_payment"
  | missed_meeting => "missed_meeting"
  | early_exit => "early_exit"
  | breach_of_rules => "breach_of_rules"
  end.

Inductive CalculationMethod : Type :=
| fixed | percentage | daily | tiered.

Module ContributionRule.

Record t : Type := mk {
  stokvel : Z;
  name : string;
  contribution_type : ContributionType;
  amount : Q;
  frequency : Frequency;
  effective_from : date;
  effective_until : option date;
  is_active : bool;
  is_mandatory : bool;
  description : string
}.

Definition is_active_for_date (self : t) (target_date : date) : bool :=
  if negb (is_active self) then false
  else if date_ltb target_date (effective_from self) then false
  else match effective_until self with
       | Some u => if date_ltb u target_date then false else true
       | None => true
       end.

End ContributionRule.

Module PenaltyRule.

Record t : Type := mk {
  stokvel : Z;
  name : string;
  penalty_type : PenaltyType;
  calculation_method : CalculationMethod;
  amount : Q;
  grace_period_days : Z;
  maximum_amount : option Q;
  effective_from : date;
  effective_until : option date;
  is_active : bool;
  description : string
}.

Definition calculate_penalty (self : t) (base_amount : Q) (days_late : Z) : Q :=
  if days_late <=? grace_period_days self then 0%Q
  else
    let penalty :=
      match calculation_method self with
      | fixed => amount self
      | percentage => (base_amount * (amount self / 100))%Q
      | daily => (amount self * inject_Z (days_late - grace_period_days self))%Q
      | tiered => amount self
      end in
    (* Apply maximum if set *)
    match maximum_amount self with
    | Some m => if Dec.truthy m && Dec.ltb m penalty then m else penalty
    | None => penalty
    end.

Definition is_active_for_date (self : t) (target_date : date) : bool :=
  if negb (is_active self) then false
  else if date_ltb target_date (effective_from self) then false
  else match effective_until self with
       | Some u => if date_ltb u target_date then false else true
       | None => true
       end.

End PenaltyRule.

Module StokvelBankAccount.

Record t : Type := mk {
  pk : Z;
  stokvel : Z;
  bank_name : string;
  account_name : string;
  account_number : string;
  branch_code : string;
  account_type : string;
  is_primary : bool;
  is_active : bool
}.

Definition with_is_primary (b : bool) (a : t) : t :=
  mk (pk a) (stokvel a) (bank_name a) (account_name a) (account_number a)
     (branch_code a) (account_type a) b (is_active a).

Definition with_is_active (b : bool) (a : t) : t :=
  mk (pk a) (stokvel a) (bank_name a) (account_name a) (account_number a)
     (branch_code a) (account_type a) (is_primary a) b.

(** [qs.update(is_primary=False)] over the rows selected by [sel]. *)
Definition update_is_primary_false (sel : t -> bool) (table : list t) : list t :=
  map (fun r => if sel r then with_is_primary false r else r) table.

(** [Model.save]: UPDATE the row with this primary key, INSERT when
    there is none. *)
Fixpoint super_save (table : list t) (self : t) : list t :=
  match table with
  | [] => [self]
  | r :: rest =>
      if pk r =? pk self then self :: rest
      else r :: super_save rest self
  end.

Definition save (table : list t) (self : t) : list t :=
  (* Ensure only one primary account per stokvel *)
  let table1 :=
    if is_primary self then
      update_is_primary_false
        (fun r => (stokvel r =? stokvel self) && is_primary r
                  && negb (pk r =? pk self))
        table
    else table in
  super_save table1 self.

(** [qs.first()] of an unordered queryset orders by primary key. *)
Fixpoint first_by_pk (qs : list t) : option t :=
  match qs with
  | [] => None
  | r :: rest =>
      match first_by_pk rest with
      | Some r' => if pk r' <? pk r then Some r' else Some r
      | None => Some r
      end
  end.

(** The primary key the database gives to a new row. *)
Definition next_pk (table : list t) : Z :=
  1 + fold_right (fun r acc => Z.max (pk r) acc) 0 table.

End StokvelBankAccount.

(* ------------------------------------------------------------------ *)
(** ** stokvel/services.py *)

Module ContributionRuleService.

Import ContributionRule.

Definition overlap_message (contribution_type : ContributionType) : string :=
  "Overlapping " ++ ContributionType_str contribution_type
    ++ " rule already exists for this period".

(** The rows selected by the overlap query, once its lookup values are
    known: [lo] is the value given to [effective_until__gte] and [hi] the
    one given to [effective_from__lte]. *)
Definition overlapping_rules (table : list t) (stokvel_ : Z)
    (contribution_type_ : ContributionType) (hi lo : date) : list t :=
  filter (fun r =>
            (stokvel r =? stokvel_)
            && ContributionType_eqb (contribution_type r) contribution_type_
            && Bool.eqb (is_active r) true
            && Django.lte (effective_from r) hi
            && Django.gte_null (effective_until r) lo)
         table.

(** Returns the created rule and the table after the insert.  [today]
    stands for [timezone.now().date()]. *)
Definition create_contribution_rule (today : date) (table : list t)
    (stokvel_ : Z) (name_ : string) (contribution_type_ : ContributionType)
    (amount_ : Q) (frequency_ : Frequency)
    (effective_from_ effective_until_ : option date)
    (is_mandatory_ : bool) (description_ : string) : result (t * list t) :=
  let effective_from_ :=
    match effective_from_ with Some d => d | None => today end in
  (* Validate amount *)
  if Dec.leb amount_ 0 then
    Raise (ValidationError "Contribution amount must be greater than 0")
  else
    (* Check for overlapping rules of same type *)
    let hi := match effective_until_ with Some u => u | None => date_max end in
    lo <- Django.query_value
            (match effective_until_ with
             | Some _ => Some effective_from_
             | None => None
             end) ;;
    if Django.exists_
         (overlapping_rules table stokvel_ contribution_type_ hi lo)
    then Raise (ValidationError (overlap_message contribution_type_))
    else
      let rule := mk stokvel_ name_ contribution_type_ amount_ frequency_
                     effective_from_ effective_until_ true is_mandatory_
                     description_ in
      Ok (rule, table ++ [rule]).

End ContributionRuleService.

Module PenaltyRuleService.

Import PenaltyRule.

Definition create_penalty_rule (today : date) (table : list t)
    (stokvel_ : Z) (name_ : string) (penalty_type_ : PenaltyType)
    (calculation_method_ : CalculationMethod) (amount_ : Q)
    (grace_period_days_ : Z) (maximum_amount_ : option Q)
    (effective_from_ : option date) (description_ : string)
    : result (t * list t) :=
  let effective_from_ :=
    match effective_from_ with Some d => d | None => today end in
  (* Validate amount based on calculation method *)
  if (match calculation_method_ with percentage => true | _ => false end)
     && Dec.ltb 100 amount_ then
    Raise (ValidationError "Percentage penalty cannot exceed 100%")
  else if Dec.ltb amount_ 0 then
    Raise (ValidationError "Penalty amount cannot be negative")
  else
    (* Check for existing active rule of same type *)
    let existing_rule :=
      Django.first
        (filter (fun r =>
                   (stokvel r =? stokvel_)
                   && PenaltyType_eqb (penalty_type r) penalty_type_
                   && Bool.eqb (is_active r) true
                   && Django.lte (effective_from r) today
                   && Django.gte_null (effective_until r) today)
                table) in
    match existing_rule with
    | Some _ =>
        Raise (ValidationError
                 ("Active " ++ PenaltyType_str penalty_type_
                  ++ " rule already exists. "
                  ++ "Deactivate existing rule before creating new one."))
    | None =>
        let rule := mk stokvel_ name_ penalty_type_ calculation_method_
                       amount_ grace_period_days_ maximum_amount_
                       effective_from_ None true description_ in
        Ok (rule, table ++ [rule])
    end.

Definition calculate_penalty_amount (penalty_rule : t) (base_amount : Q)
    (days_late : Z) : Q :=
  calculate_penalty penalty_rule base_amount days_late.

(** The two querysets of the resolver.  Both filter on one stokvel and one
    penalty type, so the model ordering (stokvel, penalty_type) leaves the
    selected rows in the order the database yields them, which is the
    order of [table]. *)
Definition closed_rules_for (table : list t) (stokvel_ : Z)
    (penalty_type_ : PenaltyType) (as_of_date : date) : list t :=
  filter (fun r =>
            (stokvel r =? stokvel_)
            && PenaltyType_eqb (penalty_type r) penalty_type_
            && Bool.eqb (is_active r) true
            && Django.lte (effective_from r) as_of_date
            && Django.gte_null (effective_until r) as_of_date)
         table.

Definition open_rules_for (table : list t) (stokvel_ : Z)
    (penalty_type_ : PenaltyType) (as_of_date : date) : list t :=
  filter (fun r =>
            (stokvel r =? stokvel_)
            && PenaltyType_eqb (penalty_type r) penalty_type_
            && Bool.eqb (is_active r) true
            && Django.lte (effective_from r) as_of_date
            && Django.isnull (effective_until r))
         table.

Definition get_applicable_penalty_rules (today : date) (table : list t)
    (stokvel_ : Z) (penalty_type_ : PenaltyType) (as_of_date : option date)
    : option t :=
  let as_of_date :=
    match as_of_date with Some d => d | None => today end in
  match Django.first (closed_rules_for table stokvel_ penalty_type_ as_of_date) with
  | Some r => Some r
  | None => Django.first (open_rules_for table stokvel_ penalty_type_ as_of_date)
  end.

End PenaltyRuleService.

Module BankAccountService.

Import StokvelBankAccount.

(** [c.isspace()] on a [str] of characters below 256: the space, the
    controls U+0009 to U+000D and U+001C to U+001F, the next-line control
    U+0085 and the no-break space U+00A0. *)
Definition is_space (c : Ascii.ascii) : bool :=
  let n := Ascii.nat_of_ascii c in
  (Nat.eqb n 32 || (Nat.leb 9 n && Nat.leb n 13)
   || (Nat.leb 28 n && Nat.leb n 31) || Nat.eqb n 133 || Nat.eqb n 160)%bool.

(** [not s.strip()]: [strip] removes the characters that [isspace], so
    nothing is left exactly when every character is one of them. *)
Fixpoint blank (s : string) : bool :=
  match s with
  | EmptyString => true
  | String c rest => is_space c && blank rest
  end.

Definition add_bank_account (table : list t) (stokvel_ : Z)
    (bank_name_ account_name_ account_number_ branch_code_ account_type_ : string)
    (is_primary_ : bool) : result (t * list t) :=
  (* Validate account number format (basic validation) *)
  if blank account_number_ then
    Raise (ValidationError "Account number is required")
  (* Check for duplicate account *)
  else if Django.exists_
            (filter (fun r => String.eqb (bank_name r) bank_name_
                              && String.eqb (account_number r) account_number_)
                    table) then
    Raise (ValidationError "Bank account already exists")
  else
    (* If this is the first account, make it primary *)
    let is_primary_ :=
      if negb (Django.exists_
                 (filter (fun r => (stokvel r =? stokvel_)
                                   && Bool.eqb (is_active r) true)
                         table))
      then true else is_primary_ in
    let account := mk (next_pk table) stokvel_ bank_name_ account_name_
                      account_number_ branch_code_ account_type_
                      is_primary_ true in
    Ok (account, save table account).

Definition set_primary_account (table : list t) (account : t) : t * list t :=
  (* Deactivate other primary accounts *)
  let table1 :=
    update_is_primary_false
      (fun r => (stokvel r =? stokvel account) && Bool.eqb (is_primary r) true
                && negb (pk r =? pk account))
      table in
  let account := with_is_primary true account in
  (account, save table1 account).

Definition deactivate_account (table : list t) (account : t) : t * list t :=
  let table1 :=
    if is_primary account then
      (* Check if there are other active accounts to promote *)
      let other_accounts (tbl : list t) :=
        filter (fun r => (stokvel r =? stokvel account)
                         && Bool.eqb (is_active r) true
                         && negb (pk r =? pk account))
               tbl in
      if Django.exists_ (other_accounts table) then
        (* [other_accounts.first().is_primary = True]: the flag is set on
           the instance this call returns, which is then dropped.
           [other_accounts.first().save()]: the queryset is evaluated
           again and the instance it returns now is the one saved. *)
        match first_by_pk (other_accounts table) with
        | Some _dropped =>
            match first_by_pk (other_accounts table) with
            | Some fresh => save table fresh
            | None => table
            end
        | None => table
        end
      else table
    else table in
  let account := with_is_active false account in
  let account := with_is_primary false account in
  (account, save table1 account).

End BankAccountService.

(* ------------------------------------------------------------------ *)
(** ** stokvel/utils.py: PenaltyCalculator *)

Module PenaltyCalculator.

Import PenaltyRule.

(** The names bound at module level in stokvel/utils.py: its imports
    ([from datetime import date, timedelta], [from decimal import Decimal],
    [from typing import List, Dict, Tuple, Optional], [import calendar],
    [from django.utils import timezone],
    [from .models import Stokvel, ContributionRule, PenaltyRule]) and the
    classes it defines. *)
Definition utils_globals : list string :=
  ["date"; "timedelta"; "Decimal"; "List"; "Dict"; "Tuple"; "Optional";
   "calendar"; "timezone"; "Stokvel"; "ContributionRule"; "PenaltyRule";
   "DateUtils"; "ContributionCalculator"; "PenaltyCalculator";
   "StokvelReportUtils"; "ValidationUtils"]%string.

(** The rule lookup of the penalty calculators:
    [filter(stokvel, penalty_type, is_active=True, effective_from__lte=d)
     .filter(Q(effective_until__gte=d) | Q(effective_until__isnull=True))
     .first()]. *)
Definition applicable_rule (table : list t) (stokvel_ : Z)
    (penalty_type_ : PenaltyType) (d : date) : option t :=
  Django.first
    (filter (fun r => Django.gte_null (effective_until r) d
                      || Django.isnull (effective_until r))
       (filter (fun r =>
                  (stokvel r =? stokvel_)
                  && PenaltyType_eqb (penalty_type r) penalty_type_
                  && Bool.eqb (is_active r) true
                  && Django.lte (effective_from r) d)
               table)).

(** [globals] is the namespace in which the body runs; the source runs it
    in [utils_globals].  The body refers to [models.Q]. *)
Definition calculate_insufficient_payment_penalty (globals : list string)
    (table : list t) (stokvel_ : Z) (paid_amount expected_amount : Q)
    (payment_date : date) : result (Q * option t) :=
  if Dec.leb expected_amount paid_amount then Ok (0%Q, None)
  else
    let shortage := (expected_amount - paid_amount)%Q in
    (* Get applicable penalty rule *)
    _ <- lookup_global globals "models" ;;
    match applicable_rule table stokvel_ insufficient_payment payment_date with
    | None => Ok (0%Q, None)
    | Some penalty_rule =>
        let penalty_amount := calculate_penalty penalty_rule shortage 0 in
        Ok (penalty_amount, Some penalty_rule)
    end.

End PenaltyCalculator.

(* ------------------------------------------------------------------ *)
(** ** finances/models.py and stokvel/utils.py: StokvelReportUtils *)

Inductive MemberStatus : Type :=
| ms_active | ms_pending | ms_probation | ms_suspended | ms_inactive | ms_exited.

Inductive VerificationStatus : Type :=
| pending | verified | rejected | reversed.

Module Finances.

Record Member : Type := mkMember {
  member_stokvel : Z;
  status : MemberStatus
}.

Record Contribution : Type := mkContribution {
  payment_period : Z;
  amount : Q;
  verification_status : VerificationStatus
}.

Record PaymentPeriod : Type := mkPaymentPeriod {
  id : Z;
  stokvel : Z;
  due_date : date;
  expected_amount_per_member : Q
}.

Record Database : Type := mkDatabase {
  members : list Member;
  contributions : list Contribution;
  payment_periods : list PaymentPeriod
}.

(** [self.stokvel.members.filter(status='active').count()] *)
Definition active_members_count (db : Database) (self : PaymentPeriod) : Z :=
  Z.of_nat
    (List.length
       (filter (fun m => (member_stokvel m =? stokvel self)
                         && match status m with ms_active => true | _ => false end)
               (members db))).

Definition total_expected_amount (db : Database) (self : PaymentPeriod) : Q :=
  (expected_amount_per_member self * inject_Z (active_members_count db self))%Q.

(** [aggregate(total=Sum('amount'))['total']]: NULL when no row is summed. *)
Definition aggregate_sum (rows : list Contribution) : option Q :=
  match rows with
  | [] => None
  | _ => Some (Dec.sum (map amount rows))
  end.

Definition total_received_amount (db : Database) (self : PaymentPeriod) : Q :=
  let total :=
    aggregate_sum
      (filter (fun c => (payment_period c =? id self)
                        && match verification_status c with
                           | verified => true
                           | _ => false
                           end)
              (contributions db)) in
  match total with
  | Some v => if Dec.truthy v then v else 0%Q
  | None => 0%Q
  end.

Definition collection_percentage (db : Database) (self : PaymentPeriod)
    : result Q :=
  let expected := total_expected_amount db self in
  if Dec.ltb 0 expected then
    q <- Dec.div (total_received_amount db self) expected ;;
    Ok (q * 100)%Q
  else Ok 0%Q.

End Finances.

Module StokvelReportUtils.

Import Finances.

Record Stats : Type := mkStats {
  total_expected : Q;
  total_received : Q;
  total_outstanding : Q;
  collection_rate : Q;
  periods_count : Z
}.

(** [timezone.now().date().replace(day=1)] *)
Definition first_of_month (d : date) : date := mkdate (year d) (month d) 1.

Definition periods_in_range (db : Database) (stokvel_ : Z)
    (start_date end_date : date) : list PaymentPeriod :=
  filter (fun p => (stokvel p =? stokvel_)
                   && date_leb start_date (due_date p)
                   && date_leb (due_date p) end_date)
         (payment_periods db).

Definition calculate_contribution_statistics (today : date) (db : Database)
    (stokvel_ : Z) (start_date end_date : option date) : result Stats :=
  let start_date :=
    match start_date with Some d => d | None => first_of_month today end in
  let end_date :=
    match end_date with Some d => d | None => today end in
  (* Get payment periods in range *)
  let periods := periods_in_range db stokvel_ start_date end_date in
  let total_expected_ := Dec.sum (map (total_expected_amount db) periods) in
  let total_received_ := Dec.sum (map (total_received_amount db) periods) in
  rate <- (if Dec.ltb 0 total_expected_ then
             q <- Dec.div total_received_ total_expected_ ;;
             Ok (Dec.round2 (q * 100))
           else Ok 0%Q) ;;
  Ok (mkStats total_expected_ total_received_
              (total_expected_ - total_received_)%Q rate
              (Z.of_nat (List.length periods))).

End StokvelReportUtils.

(* ------------------------------------------------------------------ *)
(** ** The specification's interval predicate *)

Module Spec.

(** The half-open intersection test of the specification:
    [new.from < existing.until_or_inf AND existing.from < new.until_or_inf],
    an absent end standing for +infinity. *)
Definition lt_until_or_inf (d : date) (until : option date) : bool :=
  match until with
  | Some u => date_ltb d u
  | None => true
  end.

Definition half_open_intersect (new_from : date) (new_until : option date)
    (existing_from : date) (existing_until : option date) : bool :=
  lt_until_or_inf new_from existing_until
  && lt_until_or_inf existing_from new_until.

(** The resolver's match condition of the specification. *)
Definition rule_matches (stokvel_ : Z) (penalty_type_ : PenaltyType)
    (as_of_date : date) (r : PenaltyRule.t) : bool :=
  (PenaltyRule.stokvel r =? stokvel_)
  && PenaltyType_eqb (PenaltyRule.penalty_type r) penalty_type_
  && PenaltyRule.is_active r
  && date_leb (PenaltyRule.effective_from r) as_of_date
  && match PenaltyRule.effective_until r with
     | None => true
     | Some u => date_leb as_of_date u
     end.

(** The matching rules with an end date, and those without. *)
Definition closed_match (s : Z) (pt : PenaltyType) (dd : date)
    (r : PenaltyRule.t) : bool :=
  rule_matches s pt dd r
  && negb (Django.isnull (PenaltyRule.effective_until r)).

Definition open_match (s : Z) (pt : PenaltyType) (dd : date)
    (r : PenaltyRule.t) : bool :=
  rule_matches s pt dd r && Django.isnull (PenaltyRule.effective_until r).

End Spec.

(* ------------------------------------------------------------------ *)
(** ** Scenario data *)

Module Scenarios.

Definition d (y m dd : Z) : date := mkdate y m dd.

(** A penalty rule of stokvel 1 for late payments, in force from
    2025-01-01 with no end date. *)
Definition penalty_rule (method : CalculationMethod) (amount_ : Q)
    (grace : Z) (maximum : option Q) : PenaltyRule.t :=
  PenaltyRule.mk 1 "Late payment" late_payment method amount_ grace maximum
                 (d 2025 1 1) None true "".

Definition with_calculation_method (method : CalculationMethod)
    (r : PenaltyRule.t) : PenaltyRule.t :=
  PenaltyRule.mk (PenaltyRule.stokvel r) (PenaltyRule.name r)
    (PenaltyRule.penalty_type r) method (PenaltyRule.amount r)
    (PenaltyRule.grace_period_days r) (PenaltyRule.maximum_amount r)
    (PenaltyRule.effective_from r) (PenaltyRule.effective_until r)
    (PenaltyRule.is_active r) (PenaltyRule.description r).

(** The value a penalty [p] takes under a cap [m]. *)
Definition clamp (p m : Q) : Q := if Dec.ltb m p then m else p.

(** The contribution rules of the specification's scenario, stokvel 1,
    category regular. *)
Definition contribution_rule (name_ : string) (from_ : date)
    (until_ : option date) : ContributionRule.t :=
  ContributionRule.mk 1 name_ regular 200 monthly from_ until_ true true "".

Definition rule_A : ContributionRule.t :=
  contribution_rule "A" (d 2025 1 1) (Some (d 2025 6 30)).

Definition rule_B : ContributionRule.t :=
  contribution_rule "B" (d 2025 7 1) None.

(** Creating a regular rule of stokvel 1 through the service. *)
Definition create_regular (today : date) (table : list ContributionRule.t)
    (name_ : string) (from_ : date) (until_ : option date)
    : result (ContributionRule.t * list ContributionRule.t) :=
  ContributionRuleService.create_contribution_rule
    today table 1 name_ regular 200 monthly (Some from_) until_ true "".

(** Two late-payment rules of stokvel 1 that are both in force on
    2025-07-01: one closed, one open-ended and starting later. *)
Definition closed_rule : PenaltyRule.t :=
  PenaltyRule.mk 1 "Closed" late_payment fixed 50 0 None
                 (d 2025 1 1) (Some (d 2025 12 31)) true "".

Definition open_rule : PenaltyRule.t :=
  PenaltyRule.mk 1 "Open" late_payment fixed 75 0 None
                 (d 2025 6 1) None true "".

(** The payment period of the specification's scenario: R200 expected per
    member, ten active members, seven verified contributions of R200. *)
Definition march_period : Finances.PaymentPeriod :=
  Finances.mkPaymentPeriod 1 1 (d 2025 3 31) 200.

Definition scenario_db : Finances.Database :=
  Finances.mkDatabase
    (repeat (Finances.mkMember 1 ms_active) 10)
    (repeat (Finances.mkContribution 1 200 verified) 7)
    [march_period].

(** The same period when no contribution has been received. *)
Definition unpaid_db : Finances.Database :=
  Finances.mkDatabase
    (repeat (Finances.mkMember 1 ms_active) 10) [] [march_period].

(** The same period in a stokvel without active members. *)
Definition empty_db : Finances.Database :=
  Finances.mkDatabase [] [] [march_period].

(** An insufficient-payment rule of stokvel 1: ten percent of the
    shortage, no grace period. *)
Definition shortfall_rule : PenaltyRule.t :=
  PenaltyRule.mk 1 "Short payment" insufficient_payment percentage 10 0 None
                 (d 2025 1 1) None true "".

(** Bank accounts of stokvel 1: A is the primary account, B another
    active account. *)
Definition account_A : StokvelBankAccount.t :=
  StokvelBankAccount.mk 1 1 "FNB" "Stokvel main" "62000000001" "250655"
                        "cheque" true true.

Definition account_B : StokvelBankAccount.t :=
  StokvelBankAccount.mk 2 1 "Capitec" "Stokvel savings" "1400000002" "470010"
                        "savings" false true.

(** The number of active primary accounts of a stokvel. *)
Definition active_primary (s : Z) (r : StokvelBankAccount.t) : bool :=
  (StokvelBankAccount.stokvel r =? s)
  && StokvelBankAccount.is_primary r
  && StokvelBankAccount.is_active r.

Definition active_primary_count (table : list StokvelBankAccount.t) (s : Z)
    : nat :=
  List.length (filter (active_primary s) table).

(** Rules whose cap is set to [Decimal('0.00')]. *)
Definition zero_cap_daily_rule : PenaltyRule.t :=
  penalty_rule daily 500 5 (Some 0%Q).

Definition zero_cap_fixed_rule : PenaltyRule.t :=
  penalty_rule fixed 50 0 (Some 0%Q).

End Scenarios.
Import Scenarios.

(* ------------------------------------------------------------------ *)
(** ** datetime.date: ordinals and differences *)

Module Ordinal.

(** A [date] object only exists with fields in range. *)
Definition valid_date (x : date) : Prop :=
  1 <= year x <= 9999 /\ 1 <= month x <= 12
  /\ 1 <= day x <= days_in_month (year x) (month x).

(** [_days_before_year] *)
Definition days_before_year (y : Z) : Z :=
  let y1 := y - 1 in
  y1 * 365 + y1 / 4 - y1 / 100 + y1 / 400.

(** [_DAYS_BEFORE_MONTH] *)
Definition DAYS_BEFORE_MONTH (m : Z) : Z :=
  match m with
  | 1 => 0 | 2 => 31 | 3 => 59 | 4 => 90 | 5 => 120 | 6 => 151
  | 7 => 181 | 8 => 212 | 9 => 243 | 10 => 273 | 11 => 304 | 12 => 334
  | _ => -1
  end.

(** [_days_before_month] *)
Definition days_before_month (y m : Z) : Z :=
  DAYS_BEFORE_MONTH m + (if (2 <? m) && isleap y then 1 else 0).

(** [date.toordinal()] *)
Definition toordinal (x : date) : Z :=
  days_before_year (year x) + days_before_month (year x) (month x) + day x.

(** [(a - b).days] *)
Definition days_between (a b : date) : Z := toordinal a - toordinal b.

End Ordinal.

(* ------------------------------------------------------------------ *)
(** ** stokvel/utils.py: quarters *)

Module QuarterUtils.

(** [DateUtils.get_quarter_dates] *)
Definition get_quarter_dates (y quarter_ : Z) : result (date * date) :=
  if quarter_ =? 1 then
    s <- date_new y 1 1 ;; e <- date_new y 3 31 ;; Ok (s, e)
  else if quarter_ =? 2 then
    s <- date_new y 4 1 ;; e <- date_new y 6 30 ;; Ok (s, e)
  else if quarter_ =? 3 then
    s <- date_new y 7 1 ;; e <- date_new y 9 30 ;; Ok (s, e)
  else if quarter_ =? 4 then
    s <- date_new y 10 1 ;; e <- date_new y 12 31 ;; Ok (s, e)
  else Raise (ValueError "Quarter must be 1, 2, 3, or 4").

End QuarterUtils.

(* ------------------------------------------------------------------ *)
(** ** finances/models.py: Contribution and Penalty *)

Module ContributionModel.

(** [payment_period] is the related period object. *)
Record t : Type := mk {
  payment_period : Finances.PaymentPeriod;
  amount : Q;
  payment_date : date;
  verification_status : VerificationStatus
}.

Definition is_late_payment (self : t) : bool :=
  date_ltb (Finances.due_date (payment_period self)) (payment_date self).

Definition is_full_payment (self : t) : bool :=
  Dec.leb (Finances.expected_amount_per_member (payment_period self))
          (amount self).

Definition shortage_amount (self : t) : Q :=
  if Dec.ltb (amount self)
             (Finances.expected_amount_per_member (payment_period self))
  then (Finances.expected_amount_per_member (payment_period self)
        - amount self)%Q
  else 0%Q.

Definition days_late (self : t) : Z :=
  if is_late_payment self then
    Ordinal.days_between (payment_date self)
                         (Finances.due_date (payment_period self))
  else 0.

End ContributionModel.

Inductive PenaltyStatus : Type :=
| ps_applied | ps_waived | ps_paid | ps_outstanding.

Module PenaltyModel.

(** [waived_by] is the primary key of the user. *)
Record t : Type := mk {
  penalty_amount : Q;
  status : PenaltyStatus;
  waived_by : option Z;
  waived_date : option date;
  waived_reason : string;
  paid_date : option date;
  paid_amount : Q
}.

Definition outstanding_amount (self : t) : Q :=
  (penalty_amount self - paid_amount self)%Q.

(** The instance after [waive]; [save] then writes it to its row. *)
Definition waive (today : date) (self : t) (waived_by_user : Z)
    (reason : string) : t :=
  mk (penalty_amount self) ps_waived (Some waived_by_user) (Some today)
     reason (paid_date self) (paid_amount self).

(** The instance after [mark_as_paid]. *)
Definition mark_as_paid (today : date) (self : t) (amount_ : option Q)
    (payment_date_ : option date) : t :=
  let amount_ :=
    match amount_ with Some a => a | None => penalty_amount self end in
  let payment_date_ :=
    match payment_date_ with Some x => x | None => today end in
  mk (penalty_amount self)
     (if Dec.leb (penalty_amount self) amount_ then ps_paid else ps_outstanding)
     (waived_by self) (waived_date self) (waived_reason self)
     (Some payment_date_) amount_.

End PenaltyModel.

(* ------------------------------------------------------------------ *)
(** ** stokvel/services.py: reading and deactivating contribution rules *)

Module ContributionRuleQueries.

Import ContributionRule.

(** [ORDER BY effective_from DESC], the part of the model ordering
    (stokvel, -effective_from) that is left once the stokvel is fixed;
    rows with equal keys keep the order of the table. *)
Fixpoint insert_by_effective_from_desc (r : t) (l : list t) : list t :=
  match l with
  | [] => [r]
  | x :: rest =>
      if date_leb (effective_from x) (effective_from r) then r :: l
      else x :: insert_by_effective_from_desc r rest
  end.

Definition order_by_effective_from_desc (l : list t) : list t :=
  fold_right insert_by_effective_from_desc [] l.

(** [a] may come before [b] in that order. *)
Definition from_desc (a b : t) : Prop :=
  date_leb (effective_from b) (effective_from a) = true.

(** [ContributionRuleService.get_active_contribution_rules]: the union
    [|] of the two querysets is one query whose condition is the
    disjunction of theirs. *)
Definition get_active_contribution_rules (today : date) (table : list t)
    (stokvel_ : Z) (as_of_date : option date) : list t :=
  let as_of_date :=
    match as_of_date with Some x => x | None => today end in
  order_by_effective_from_desc
    (filter (fun r =>
               ((stokvel r =? stokvel_)
                && Bool.eqb (is_active r) true
                && Django.lte (effective_from r) as_of_date
                && Django.gte_null (effective_until r) as_of_date)
               || ((stokvel r =? stokvel_)
                   && Bool.eqb (is_active r) true
                   && Django.lte (effective_from r) as_of_date
                   && Django.isnull (effective_until r)))
            table).

(** [rule.save()] for a rule whose primary key is its position [pk] in
    the table (rows are appended by [create] and never deleted): UPDATE
    that row, INSERT when there is none. *)
Fixpoint save_at (pk : nat) (rule : t) (table : list t) {struct table}
    : list t :=
  match table, pk with
  | [], _ => [rule]
  | _ :: rest, O => rule :: rest
  | x :: rest, S pk' => x :: save_at pk' rule rest
  end.

(** [ContributionRuleService.deactivate_rule] *)
Definition deactivate_rule (today : date) (table : list t) (pk : nat)
    (rule : t) (end_date : option date) : t * list t :=
  let end_date := match end_date with Some x => x | None => today end in
  let rule := mk (stokvel rule) (name rule) (contribution_type rule)
                 (amount rule) (frequency rule) (effective_from rule)
                 (Some end_date) false (is_mandatory rule)
                 (description rule) in
  (rule, save_at pk rule table).

End ContributionRuleQueries.

(* ------------------------------------------------------------------ *)
(** ** stokvel/models.py and stokvel/services.py: cycles *)

Inductive CycleStatus : Type :=
| cy_planned | cy_active | cy_completed | cy_cancelled.

Definition CycleStatus_eqb (a b : CycleStatus) : bool :=
  match a, b with
  | cy_planned, cy_planned | cy_active, cy_active
  | cy_completed, cy_completed | cy_cancelled, cy_cancelled => true
  | _, _ => false
  end.

Module StokvelCycle.

Record t : Type := mk {
  pk : Z;
  stokvel : Z;
  name : string;
  start_date : date;
  end_date : date;
  expected_total_contributions : Q;
  status : CycleStatus;
  description : string
}.

Definition with_status (st : CycleStatus) (c : t) : t :=
  mk (pk c) (stokvel c) (name c) (start_date c) (end_date c)
     (expected_total_contributions c) st (description c).

Definition is_current (today : date) (self : t) : bool :=
  date_leb (start_date self) today && date_leb today (end_date self).

Definition duration_months (self : t) : Z :=
  (year (end_date self) - year (start_date self)) * 12
  + (month (end_date self) - month (start_date self)).

(** [Model.save]: UPDATE the row with this primary key, INSERT when there
    is none. *)
Fixpoint save (table : list t) (self : t) : list t :=
  match table with
  | [] => [self]
  | r :: rest =>
      if pk r =? pk self then self :: rest else r :: save rest self
  end.

(** The primary key the database gives to a new row. *)
Definition next_pk (table : list t) : Z :=
  1 + fold_right (fun r acc => Z.max (pk r) acc) 0 table.

(** [ORDER BY start_date DESC], what is left of the model ordering
    (stokvel, -start_date) once the stokvel is fixed. *)
Fixpoint insert_by_start_desc (c : t) (l : list t) : list t :=
  match l with
  | [] => [c]
  | x :: rest =>
      if date_leb (start_date x) (start_date c) then c :: l
      else x :: insert_by_start_desc c rest
  end.

Definition order_by_start_desc (l : list t) : list t :=
  fold_right insert_by_start_desc [] l.

(** Two cycles that share no day, a common boundary day apart. *)
Definition apart (a b : t) : Prop :=
  date_leb (end_date a) (start_date b) = true
  \/ date_leb (end_date b) (start_date a) = true.

(** Cycles of one stokvel are apart from each other. *)
Definition apart_in_stokvel (a b : t) : Prop :=
  stokvel a = stokvel b -> apart a b.

End StokvelCycle.

Module CycleService.

Import StokvelCycle.

(** The sum of the amounts of the regular rules active on [start_date],
    as [create_cycle] computes it. *)
Definition regular_rules (today : date) (rules : list ContributionRule.t)
    (stokvel_ : Z) (start_date_ : date) : list ContributionRule.t :=
  filter (fun r => ContributionType_eqb
                     (ContributionRule.contribution_type r) regular)
         (ContributionRuleQueries.get_active_contribution_rules
            today rules stokvel_ (Some start_date_)).

Definition create_cycle (today : date) (cycles : list t)
    (rules : list ContributionRule.t) (members : list Finances.Member)
    (stokvel_ : Z) (name_ : string) (start_date_ end_date_ : date)
    (description_ : string) : result (t * list t) :=
  (* Validate dates *)
  if date_leb end_date_ start_date_ then
    Raise (ValidationError "Start date must be before end date")
  else if date_ltb start_date_ today then
    Raise (ValidationError "Start date cannot be in the past")
  (* Check for overlapping cycles *)
  else if Django.exists_
            (filter (fun c => (stokvel c =? stokvel_)
                              && date_ltb (start_date c) end_date_
                              && date_ltb start_date_ (end_date c))
                    cycles) then
    Raise (ValidationError "Cycle dates overlap with existing cycle")
  else
    (* Calculate expected contributions *)
    let regular_rules_ := regular_rules today rules stokvel_ start_date_ in
    let expected_total :=
      if Django.exists_ regular_rules_ then
        let monthly_contribution :=
          Dec.sum (map ContributionRule.amount regular_rules_) in
        let months_in_cycle :=
          (year end_date_ - year start_date_) * 12
          + month end_date_ - month start_date_ in
        let active_members :=
          Z.of_nat
            (List.length
               (filter (fun m =>
                          (Finances.member_stokvel m =? stokvel_)
                          && match Finances.status m with
                             | ms_active => true
                             | _ => false
                             end)
                       members)) in
        (monthly_contribution * inject_Z months_in_cycle
         * inject_Z active_members)%Q
      else 0%Q in
    let cycle := mk (next_pk cycles) stokvel_ name_ start_date_ end_date_
                    expected_total cy_planned description_ in
    Ok (cycle, save cycles cycle).

Definition activate_cycle (cycles : list t) (cycle : t) : t * list t :=
  (* Deactivate other active cycles *)
  let cycles1 :=
    map (fun c => if (stokvel c =? stokvel cycle)
                     && CycleStatus_eqb (status c) cy_active
                  then with_status cy_completed c else c)
        cycles in
  let cycle := with_status cy_active cycle in
  (cycle, save cycles1 cycle).

Definition get_current_cycle (today : date) (cycles : list t)
    (stokvel_ : Z) : option t :=
  Django.first
    (order_by_start_desc
       (filter (fun c => (stokvel c =? stokvel_)
                         && CycleStatus_eqb (status c) cy_active
                         && date_leb (start_date c) today
                         && date_leb today (end_date c))
               cycles)).

End CycleService.

(* ------------------------------------------------------------------ *)
(** ** Bank accounts: the unique_together key *)

Module BankAccountKeys.

(** The pair that [unique_together = ['bank_name', 'account_number']]
    keeps unique. *)
Definition key (a : StokvelBankAccount.t) : string * string :=
  (StokvelBankAccount.bank_name a, StokvelBankAccount.account_number a).

End BankAccountKeys.

(* ------------------------------------------------------------------ *)
(** ** stokvel/utils.py: ContributionCalculator.calculate_monthly_periods *)

Module PeriodDict.

(** The dict of one generated period. *)
Record t : Type := mk {
  year : Z;
  month : Z;
  period_start : date;
  period_end : date;
  due_date : date;
  name : string
}.

End PeriodDict.

Module MonthlyPeriods.

(** [calendar.month_name] *)
Definition month_name (m : Z) : string :=
  match m with
  | 1 => "January" | 2 => "February" | 3 => "March" | 4 => "April"
  | 5 => "May" | 6 => "June" | 7 => "July" | 8 => "August"
  | 9 => "September" | 10 => "October" | 11 => "November"
  | 12 => "December"
  | _ => ""
  end.

(** [str(n)] *)
Definition str (n : Z) : string := NilZero.string_of_int (Z.to_int n).

(** [max(a, b)] and [min(a, b)] on dates. *)
Definition py_max (a b : date) : date := if date_ltb a b then b else a.
Definition py_min (a b : date) : date := if date_ltb b a then b else a.

(** One pass through the body of the loop: the period to append, if any,
    and the next [current_date]. *)
Definition monthly_step (start_date end_date : date) (due_day : Z)
    (current_date : date) : result (option PeriodDict.t * date) :=
  let y := Dates.year current_date in
  let m := Dates.month current_date in
  (* Calculate period dates *)
  period_start <- date_new y m 1 ;;
  period_end <- DateUtils.get_month_end_date y m ;;
  due_date <- DateUtils.get_due_date_for_month y m due_day ;;
  (* Only include if period overlaps with our date range *)
  let appended :=
    if date_leb start_date period_end && date_leb period_start end_date
    then Some (PeriodDict.mk y m (py_max period_start start_date)
                 (py_min period_end end_date) due_date
                 (month_name m ++ " " ++ str y))
    else None in
  (* Move to next month *)
  next <- (if m =? 12 then date_new (y + 1) 1 1 else date_new y (m + 1) 1) ;;
  Ok (appended, next).

(** The [while current_date <= end_date] loop, run for at most [fuel]
    passes; [None] when the fuel runs out first. *)
Fixpoint monthly_loop (fuel : nat) (start_date end_date : date)
    (due_day : Z) (current_date : date) (periods : list PeriodDict.t)
    : option (result (list PeriodDict.t)) :=
  match fuel with
  | O => None
  | S fuel' =>
      if date_leb current_date end_date then
        match monthly_step start_date end_date due_day current_date with
        | Ok (appended, next) =>
            monthly_loop fuel' start_date end_date due_day next
              (periods ++ match appended with Some p => [p] | None => [] end)
        | Raise e => Some (Raise e)
        end
      else Some (Ok periods)
  end.

Definition calculate_monthly_periods (fuel : nat) (start_date end_date : date)
    (due_day : Z) : option (result (list PeriodDict.t)) :=
  monthly_loop fuel start_date end_date due_day start_date [].

(** The number of a month, counted from year 0, and the first day of the
    month with a given number. *)
Definition month_index (x : date) : Z :=
  Dates.year x * 12 + (Dates.month x - 1).

Definition first_of (i : Z) : date := mkdate (i / 12) (i mod 12 + 1) 1.

(** The day a due day falls on in a month. *)
Definition due_in_month (y m due_day : Z) : date :=
  mkdate y m (if due_day =? 31 then days_in_month y m
              else Z.min due_day (days_in_month y m)).

(** The period of the month numbered [i] within [start_date, end_date]. *)
Definition period_at (start_date end_date : date) (due_day : Z) (i : Z)
    : PeriodDict.t :=
  let y := i / 12 in
  let m := i mod 12 + 1 in
  PeriodDict.mk y m
    (py_max (mkdate y m 1) start_date)
    (py_min (mkdate y m (days_in_month y m)) end_date)
    (due_in_month y m due_day)
    (month_name m ++ " " ++ str y).

(** The month numbers [i, i + 1, ..., i + n - 1]. *)
Definition months_from (i : Z) (n : nat) : list Z :=
  map (fun k => i + Z.of_nat k) (seq 0 n).

End MonthlyPeriods.

(* ------------------------------------------------------------------ *)
(** ** stokvel/utils.py: ValidationUtils.validate_south_african_id *)

Module ValidationUtils.

(** A [str] is modelled by a string of characters below 256. *)

(** [c.isdigit()]: the decimal digits and the superscript digits
    U+00B2, U+00B3 and U+00B9. *)
Definition isdigit_char (c : Ascii.ascii) : bool :=
  let n := Ascii.nat_of_ascii c in
  ((Nat.leb 48 n && Nat.leb n 57)
   || Nat.eqb n 178 || Nat.eqb n 179 || Nat.eqb n 185)%bool.

(** [int(c)] for a character that [isdigit]: a superscript digit is not a
    literal. *)
Definition int_of_char (c : Ascii.ascii) : result Z :=
  let n := Ascii.nat_of_ascii c in
  if (Nat.leb 48 n && Nat.leb n 57)%bool then Ok (Z.of_nat n - 48)
  else Raise (ValueError "invalid literal for int() with base 10").

(** [int(s)] for a slice of two such characters. *)
Definition int_of_pair (a b : Ascii.ascii) : result Z :=
  x <- int_of_char a ;; y <- int_of_char b ;; Ok (10 * x + y).

(** [[int(d) for d in id_number]] *)
Fixpoint ints_of_chars (cs : list Ascii.ascii) : result (list Z) :=
  match cs with
  | [] => Ok []
  | c :: rest =>
      x <- int_of_char c ;; xs <- ints_of_chars rest ;; Ok (x :: xs)
  end.

(** The body of the [try] block: [Ok false] for an early [return False],
    [Ok true] when the block runs to its end. *)
Definition date_check (cs : list Ascii.ascii) : result bool :=
  let ch i := nth i cs Ascii.zero in
  year_ <- int_of_pair (ch 0%nat) (ch 1%nat) ;;
  (* Assume years 00-30 are 2000s, 31-99 are 1900s *)
  let full_year := if year_ <=? 30 then 2000 + year_ else 1900 + year_ in
  month_ <- int_of_pair (ch 2%nat) (ch 3%nat) ;;
  day_ <- int_of_pair (ch 4%nat) (ch 5%nat) ;;
  if (month_ <? 1) || (12 <? month_) then Ok false
  else if (day_ <? 1) || (31 <? day_) then Ok false
  else
    (* Basic date validation *)
    _ <- date_new full_year month_ day_ ;;
    Ok true.

Definition luhn_double (x : Z) : Z :=
  let doubled := x * 2 in
  if doubled <? 10 then doubled else doubled - 9.

(** The [for i in range(12)] loop. *)
Definition checksum (digits : list Z) : Z :=
  fold_left (fun acc i =>
               if Nat.even i then acc + nth i digits 0
               else acc + luhn_double (nth i digits 0))
            (seq 0 12) 0.

Definition check_digit (digits : list Z) : Z :=
  (10 - checksum digits mod 10) mod 10.

Definition validate_south_african_id (id_number : string) : result bool :=
  let cs := list_ascii_of_string id_number in
  if negb (Nat.eqb (List.length cs) 13) then Ok false
  else if negb (forallb isdigit_char cs) then Ok false
  else
    match date_check cs with
    | Raise (ValueError _) => Ok false
    | Raise e => Raise e
    | Ok false => Ok false
    | Ok true =>
        (* Luhn algorithm for checksum *)
        digits <- ints_of_chars cs ;;
        Ok (check_digit digits =? nth 12 digits 0)
    end.

(** The characters '0' to '9'. *)
Definition ascii_digit (c : Ascii.ascii) : Prop :=
  (48 <= Ascii.nat_of_ascii c <= 57)%nat.

(** The character of a digit value. *)
Definition char_of_digit (x : Z) : Ascii.ascii :=
  Ascii.ascii_of_nat (48 + Z.to_nat x).

End ValidationUtils.

(* ================================================================== *)
(** * Properties *)

(* ------------------------------------------------------------------ *)
(** ** Temporal utilities *)

Section DateFacts.

Import DateUtils.

Lemma days_in_month_bounds (y m : Z) :
  1 <= m <= 12 -> 28 <= days_in_month y m <= 31.
Proof.
  intros Hm.
  assert (Hcases : m = 1 \/ m = 2 \/ m = 3 \/ m = 4 \/ m = 5 \/ m = 6 \/
                   m = 7 \/ m = 8 \/ m = 9 \/ m = 10 \/ m = 11 \/ m = 12)
    by lia.
  unfold days_in_month.
  repeat (destruct Hcases as [-> | Hcases]); try subst m; cbn;
    try lia; destruct (isleap y); lia.
Qed.

Lemma monthrange_ndays_valid (y m : Z) :
  1 <= m <= 12 -> monthrange_ndays y m = Ok (days_in_month y m).
Proof.
  intros Hm. unfold monthrange_ndays.
  replace (1 <=? m) with true by (symmetry; apply Z.leb_le; lia).
  replace (m <=? 12) with true by (symmetry; apply Z.leb_le; lia).
  reflexivity.
Qed.

Lemma date_new_valid (y m dd : Z) :
  1 <= y <= 9999 -> 1 <= m <= 12 -> 1 <= dd <= days_in_month y m ->
  date_new y m dd = Ok (mkdate y m dd).
Proof.
  intros Hy Hm Hd. unfold date_new, MINYEAR, MAXYEAR.
  replace (1 <=? y) with true by (symmetry; apply Z.leb_le; lia).
  replace (y <=? 9999) with true by (symmetry; apply Z.leb_le; lia).
  replace (1 <=? m) with true by (symmetry; apply Z.leb_le; lia).
  replace (m <=? 12) with true by (symmetry; apply Z.leb_le; lia).
  replace (1 <=? dd) with true by (symmetry; apply Z.leb_le; lia).
  replace (dd <=? days_in_month y m) with true
    by (symmetry; apply Z.leb_le; lia).
  reflexivity.
Qed.

Lemma get_month_end_date_valid (y m : Z) :
  1 <= y <= 9999 -> 1 <= m <= 12 ->
  get_month_end_date y m = Ok (mkdate y m (days_in_month y m)).
Proof.
  intros Hy Hm. unfold get_month_end_date.
  rewrite monthrange_ndays_valid by assumption. cbn [bind].
  apply date_new_valid; try assumption.
  pose proof (days_in_month_bounds y m Hm). lia.
Qed.

(** C6: with due day 31 the due date is the month end for every year and
    month, February of leap and common years included (2024-02-29 and
    2023-02-28); for a valid year and month, a due day at or past the
    length of the month gives the month end, and a smaller due day (from 1
    upwards) gives that very day of the month. *)
Theorem C6_due_date_is_clamped_to_month_end :
  (forall y m, get_due_date_for_month y m 31 = get_month_end_date y m)
  /\ get_due_date_for_month 2024 2 31 = Ok (mkdate 2024 2 29)
  /\ get_due_date_for_month 2023 2 31 = Ok (mkdate 2023 2 28)
  /\ (forall y m due_day,
        1 <= y <= 9999 -> 1 <= m <= 12 ->
        get_month_end_date y m = Ok (mkdate y m (days_in_month y m))
        /\ (days_in_month y m <= due_day ->
            get_due_date_for_month y m due_day = get_month_end_date y m)
        /\ (1 <= due_day < days_in_month y m ->
            get_due_date_for_month y m due_day = Ok (mkdate y m due_day))).
Proof.
  split; [ reflexivity | ].
  split; [ reflexivity | ].
  split; [ reflexivity | ].
  intros y m due_day Hy Hm.
  pose proof (days_in_month_bounds y m Hm) as Hb.
  split; [ apply get_month_end_date_valid; assumption | ].
  unfold get_due_date_for_month.
  destruct (due_day =? 31) eqn:E31.
  - apply Z.eqb_eq in E31. split; [ reflexivity | lia ].
  - rewrite monthrange_ndays_valid by assumption. cbn [bind].
    split; intros Hcmp.
    + rewrite Z.min_r by lia.
      rewrite get_month_end_date_valid by assumption.
      apply date_new_valid; try assumption; lia.
    + rewrite Z.min_l by lia.
      apply date_new_valid; try assumption; lia.
Qed.

Lemma C6_due_date_witness :
  get_due_date_for_month 2025 4 30 = get_month_end_date 2025 4
  /\ get_due_date_for_month 2025 4 15 = Ok (mkdate 2025 4 15).
Proof.
  pose proof (proj2 (proj2 (proj2 C6_due_date_is_clamped_to_month_end))) as H.
  split.
  - refine (proj1 (proj2 (H 2025 4 30 _ _)) _); try lia.
    vm_compute. intro E. discriminate E.
  - refine (proj2 (proj2 (H 2025 4 15 _ _)) _); try lia.
    vm_compute. split; [ intro E; discriminate E | reflexivity ].
Defined.

End DateFacts.

(* ------------------------------------------------------------------ *)
(** ** Penalty calculator *)

Section PenaltyFacts.

Import PenaltyRule.

Lemma past_grace (r : t) (days_late : Z) :
  grace_period_days r < days_late ->
  (days_late <=? grace_period_days r) = false.
Proof. intros H. apply Z.leb_gt. exact H. Qed.

Lemma truthy_nonzero (m : Q) : ~ (m == 0)%Q -> Dec.truthy m = true.
Proof.
  intros H. unfold Dec.truthy.
  destruct (Qeq_bool m 0) eqn:E; [ | reflexivity ].
  apply Qeq_bool_iff in E. contradiction.
Qed.

Lemma truthy_zero (m : Q) : (m == 0)%Q -> Dec.truthy m = false.
Proof.
  intros H. unfold Dec.truthy.
  apply Qeq_bool_iff in H. rewrite H. reflexivity.
Qed.

Lemma zero_days_late_within_grace (r : t) (base_amount : Q) :
  0 <= grace_period_days r ->
  calculate_penalty r base_amount 0 = 0%Q.
Proof.
  intros H. unfold calculate_penalty.
  replace (0 <=? grace_period_days r) with true
    by (symmetry; apply Z.leb_le; exact H).
  reflexivity.
Qed.

(** C2: within the grace period the penalty is zero, whatever the rule
    and its calculation method. *)
Theorem C2_grace_period_gives_zero (r : t) (base_amount : Q) (days_late : Z) :
  days_late <= grace_period_days r ->
  calculate_penalty r base_amount days_late = 0%Q.
Proof.
  intros H. unfold calculate_penalty.
  destruct (days_late <=? grace_period_days r) eqn:E.
  - reflexivity.
  - apply Z.leb_gt in E. lia.
Qed.

Lemma C2_grace_period_witness :
  calculate_penalty (penalty_rule percentage 10 5 None) 1000 5 = 0%Q.
Proof.
  apply C2_grace_period_gives_zero. cbn. lia.
Defined.

Lemma C2_every_method_in_grace (method : CalculationMethod) (amount_ : Q)
    (maximum : option Q) (base_amount : Q) :
  calculate_penalty (penalty_rule method amount_ 5 maximum) base_amount 3 = 0%Q.
Proof. reflexivity. Qed.

(** The daily method past the grace period, by the state of the cap. *)
Lemma daily_penalty_without_cap (r : t) (base_amount : Q) (days_late : Z) :
  calculation_method r = daily ->
  grace_period_days r < days_late ->
  maximum_amount r = None ->
  calculate_penalty r base_amount days_late
  = (amount r * inject_Z (days_late - grace_period_days r))%Q.
Proof.
  intros Hm Hd Hc. unfold calculate_penalty.
  rewrite past_grace by exact Hd. rewrite Hm, Hc. reflexivity.
Qed.

Lemma daily_penalty_with_nonzero_cap (r : t) (base_amount : Q)
    (days_late : Z) (m : Q) :
  calculation_method r = daily ->
  grace_period_days r < days_late ->
  maximum_amount r = Some m ->
  ~ (m == 0)%Q ->
  calculate_penalty r base_amount days_late
  = clamp (amount r * inject_Z (days_late - grace_period_days r))%Q m.
Proof.
  intros Hm Hd Hc Hnz. unfold calculate_penalty, clamp.
  rewrite past_grace by exact Hd. rewrite Hm, Hc.
  rewrite truthy_nonzero by exact Hnz. reflexivity.
Qed.

Lemma daily_penalty_with_zero_cap (r : t) (base_amount : Q)
    (days_late : Z) (m : Q) :
  calculation_method r = daily ->
  grace_period_days r < days_late ->
  maximum_amount r = Some m ->
  (m == 0)%Q ->
  calculate_penalty r base_amount days_late
  = (amount r * inject_Z (days_late - grace_period_days r))%Q.
Proof.
  intros Hm Hd Hc Hz. unfold calculate_penalty.
  rewrite past_grace by exact Hd. rewrite Hm, Hc.
  rewrite truthy_zero by exact Hz. reflexivity.
Qed.

(** The scenario of the specification: amount 500, five days of grace. *)
Lemma daily_scenario (base_amount : Q) :
  calculate_penalty (penalty_rule daily 500 5 None) base_amount 3 = 0%Q
  /\ (calculate_penalty (penalty_rule daily 500 5 None) base_amount 10
      == 2500)%Q
  /\ calculate_penalty (penalty_rule daily 500 5 (Some 1000%Q)) base_amount 10
     = 1000%Q.
Proof.
  split; [ reflexivity | ].
  split; [ vm_compute; reflexivity | reflexivity ].
Qed.

(** C3: a daily rule of amount 500 with five days of grace and its cap set
    to zero charges 2500 for a payment ten days late; the clamped value
    would be the cap, zero. *)
Theorem C3_daily_penalty_under_zero_cap :
  calculation_method zero_cap_daily_rule = daily
  /\ maximum_amount zero_cap_daily_rule = Some 0%Q
  /\ grace_period_days zero_cap_daily_rule < 10
  /\ (calculate_penalty zero_cap_daily_rule 200 10 == 2500)%Q
  /\ (clamp (amount zero_cap_daily_rule
             * inject_Z (10 - grace_period_days zero_cap_daily_rule)) 0
      == 0)%Q
  /\ ~ (calculate_penalty zero_cap_daily_rule 200 10
        == clamp (amount zero_cap_daily_rule
                  * inject_Z (10 - grace_period_days zero_cap_daily_rule)) 0)%Q.
Proof.
  split; [ reflexivity | ].
  split; [ reflexivity | ].
  split; [ reflexivity | ].
  split; [ vm_compute; reflexivity | ].
  split; [ vm_compute; reflexivity | ].
  vm_compute. intro H. discriminate H.
Qed.

(** A cap above zero bounds every penalty. *)
Lemma penalty_within_positive_cap (r : t) (base_amount : Q) (days_late : Z)
    (m : Q) :
  maximum_amount r = Some m ->
  (0 < m)%Q ->
  (calculate_penalty r base_amount days_late <= m)%Q.
Proof.
  intros Hc Hpos. unfold calculate_penalty.
  destruct (days_late <=? grace_period_days r).
  - apply Qlt_le_weak. exact Hpos.
  - rewrite Hc.
    rewrite truthy_nonzero
      by (intro E; rewrite E in Hpos; exact (Qlt_irrefl 0 Hpos)).
    cbn [andb]. unfold Dec.ltb.
    match goal with
    | |- context [Qle_bool ?p m] => destruct (Qle_bool p m) eqn:E
    end; cbn [negb].
    + apply Qle_bool_iff. exact E.
    + apply Qle_refl.
Qed.

(** C4: a fixed rule of amount 50 whose cap is set to zero charges 50,
    which is above the cap. *)
Theorem C4_penalty_exceeds_zero_cap :
  maximum_amount zero_cap_fixed_rule = Some 0%Q
  /\ (calculate_penalty zero_cap_fixed_rule 100 1 == 50)%Q
  /\ ~ (calculate_penalty zero_cap_fixed_rule 100 1 <= 0)%Q.
Proof.
  split; [ reflexivity | ].
  split; [ vm_compute; reflexivity | ].
  vm_compute. intro H. apply H. reflexivity.
Qed.

(** C9: a tiered rule charges what the same rule with the fixed method
    charges, for every base amount and lateness. *)
Theorem C9_tiered_equals_fixed (r : t) (base_amount : Q) (days_late : Z) :
  calculate_penalty (with_calculation_method tiered r) base_amount days_late
  = calculate_penalty (with_calculation_method fixed r) base_amount days_late.
Proof.
  unfold calculate_penalty, with_calculation_method.
  cbn [grace_period_days calculation_method amount maximum_amount].
  destruct (days_late <=? grace_period_days r); reflexivity.
Qed.

Lemma tiered_rule_as_fixed (r : t) (base_amount : Q) (days_late : Z) :
  calculation_method r = tiered ->
  calculate_penalty r base_amount days_late
  = calculate_penalty (with_calculation_method fixed r) base_amount days_late.
Proof.
  intros H. unfold calculate_penalty. rewrite H. reflexivity.
Qed.

End PenaltyFacts.

(* ------------------------------------------------------------------ *)
(** ** Rule store: the write path *)

Section RuleStoreFacts.

Import ContributionRule ContributionRuleService.

Lemma ContributionType_eqb_refl (c : ContributionType) :
  ContributionType_eqb c c = true.
Proof. destruct c; reflexivity. Qed.

Lemma ContributionType_eqb_eq (a b : ContributionType) :
  ContributionType_eqb a b = true -> a = b.
Proof. destruct a, b; cbn; intros H; congruence. Qed.

Lemma eqb_true_r (b : bool) : Bool.eqb b true = b.
Proof. destruct b; reflexivity. Qed.

Lemma exists_filter_intro {A : Type} (f : A -> bool) (l : list A) (x : A) :
  In x l -> f x = true -> Django.exists_ (filter f l) = true.
Proof.
  intros Hin Hf.
  assert (Hx : In x (filter f l)) by (apply filter_In; split; assumption).
  destruct (filter f l); [ contradiction | reflexivity ].
Qed.

Lemma filter_none {A : Type} (f : A -> bool) (l : list A) :
  (forall x, In x l -> f x = false) -> filter f l = [].
Proof.
  induction l as [ | a l IH ]; intros H; cbn; [ reflexivity | ].
  rewrite (H a) by (left; reflexivity).
  apply IH. intros x Hx. apply H. right. exact Hx.
Qed.

Lemma positive_amount_passes (amount_ : Q) :
  (0 < amount_)%Q -> Dec.leb amount_ 0 = false.
Proof.
  intros H. unfold Dec.leb.
  destruct (Qle_bool amount_ 0) eqn:E; [ | reflexivity ].
  apply Qle_bool_iff in E. exfalso. exact (Qlt_not_le _ _ H E).
Qed.

(** C1 (as the code has it): for a candidate with an end date and a
    positive amount, creation fails with the overlap error as soon as an
    active rule of the same stokvel and category that has an end date
    shares a day with the candidate (both intervals taken with their end
    day included), and it succeeds, appending the rule, when every active
    rule of that stokvel and category has an end date and none shares a
    day with the candidate. With rules A [2025-01-01, 2025-06-30] and
    B [2025-07-01, open] present, rule C [2025-05-01, 2025-08-01] is
    rejected. *)
Theorem C1_overlap_check_on_closed_intervals :
  (forall today table stokvel_ name_ ctype amount_ freq from_ until_ mand desc,
      (0 < amount_)%Q ->
      let from_d := match from_ with Some x => x | None => today end in
      ((exists r u,
           In r table /\ stokvel r = stokvel_ /\ contribution_type r = ctype
           /\ is_active r = true /\ effective_until r = Some u
           /\ date_leb (effective_from r) until_ = true
           /\ date_leb from_d u = true) ->
       create_contribution_rule today table stokvel_ name_ ctype amount_ freq
         from_ (Some until_) mand desc
       = Raise (ValidationError (overlap_message ctype)))
      /\ ((forall r,
              In r table -> stokvel r = stokvel_ -> contribution_type r = ctype ->
              is_active r = true ->
              exists u, effective_until r = Some u
                        /\ (date_leb (effective_from r) until_
                            && date_leb from_d u = false)) ->
          let rule := mk stokvel_ name_ ctype amount_ freq from_d
                         (Some until_) true mand desc in
          create_contribution_rule today table stokvel_ name_ ctype amount_ freq
            from_ (Some until_) mand desc
          = Ok (rule, table ++ [rule])))
  /\ (forall today,
         create_regular today [rule_A; rule_B] "C" (d 2025 5 1)
                        (Some (d 2025 8 1))
         = Raise (ValidationError (overlap_message regular))).
Proof.
  split; [ | intros today; reflexivity ].
  intros today table stokvel_ name_ ctype amount_ freq from_ until_ mand desc
         Hpos from_d.
  split.
  - intros (r & u & Hin & Hs & Hc & Ha & Hu & Hfrom & Huntil).
    unfold create_contribution_rule. cbv zeta. fold from_d.
    rewrite positive_amount_passes by exact Hpos.
    cbn [Django.query_value bind].
    unfold overlapping_rules, Django.lte.
    rewrite (exists_filter_intro _ table r Hin); [ reflexivity | ].
    rewrite Hs, Hc, Ha, Hu. cbn [Django.gte_null Bool.eqb].
    rewrite Z.eqb_refl, ContributionType_eqb_refl, Hfrom, Huntil.
    reflexivity.
  - intros Hnone rule.
    unfold create_contribution_rule. cbv zeta. fold from_d.
    rewrite positive_amount_passes by exact Hpos.
    cbn [Django.query_value bind].
    unfold overlapping_rules, Django.lte.
    rewrite filter_none; [ reflexivity | ].
    intros r Hin.
    destruct (stokvel r =? stokvel_) eqn:Es; [ | reflexivity ].
    destruct (ContributionType_eqb (contribution_type r) ctype) eqn:Ec;
      [ | reflexivity ].
    rewrite eqb_true_r.
    destruct (is_active r) eqn:Ea; [ | reflexivity ].
    apply Z.eqb_eq in Es. apply ContributionType_eqb_eq in Ec.
    destruct (Hnone r Hin Es Ec Ea) as (u & Hu & Hdisj).
    rewrite Hu. cbn [andb Django.gte_null].
    exact Hdisj.
Qed.

Lemma C1_overlap_check_witness :
  create_regular (d 2025 1 1) [rule_A] "D" (d 2025 6 1) (Some (d 2025 9 30))
  = Raise (ValidationError (overlap_message regular))
  /\ create_regular (d 2025 1 1) [rule_A] "E" (d 2025 7 1) (Some (d 2025 9 30))
     = Ok (contribution_rule "E" (d 2025 7 1) (Some (d 2025 9 30)),
           [rule_A; contribution_rule "E" (d 2025 7 1) (Some (d 2025 9 30))]).
Proof.
  pose proof (proj1 C1_overlap_check_on_closed_intervals) as H.
  split.
  - refine (proj1 (H (d 2025 1 1) [rule_A] 1 "D"%string regular 200%Q monthly
                     (Some (d 2025 6 1)) (d 2025 9 30) true ""%string _) _).
    + reflexivity.
    + exists rule_A, (d 2025 6 30).
      repeat split; try reflexivity. left. reflexivity.
  - refine (proj2 (H (d 2025 1 1) [rule_A] 1 "E"%string regular 200%Q monthly
                     (Some (d 2025 7 1)) (d 2025 9 30) true ""%string _) _).
    + reflexivity.
    + intros r [<- | []] _ _ _.
      exists (d 2025 6 30). split; reflexivity.
Defined.

(** C1 (as stated) fails on the code: a candidate that only touches the
    last day of rule A is rejected although the half-open intervals do not
    intersect; a candidate inside the open-ended rule B is accepted
    although they do; and creating the open-ended rule B next to rule A
    raises a [ValueError] on the query instead of succeeding. *)
Lemma C1_half_open_overlap_counterexample :
  (Spec.half_open_intersect (d 2025 6 30) (Some (d 2025 12 31))
     (effective_from rule_A) (effective_until rule_A) = false
   /\ create_regular (d 2025 1 1) [rule_A] "D" (d 2025 6 30)
                     (Some (d 2025 12 31))
      = Raise (ValidationError (overlap_message regular)))
  /\ (Spec.half_open_intersect (d 2025 8 1) (Some (d 2025 9 1))
        (effective_from rule_B) (effective_until rule_B) = true
      /\ create_regular (d 2025 1 1) [rule_B] "D" (d 2025 8 1)
                        (Some (d 2025 9 1))
         = Ok (contribution_rule "D" (d 2025 8 1) (Some (d 2025 9 1)),
               [rule_B; contribution_rule "D" (d 2025 8 1) (Some (d 2025 9 1))]))
  /\ (Spec.half_open_intersect (d 2025 7 1) None
        (effective_from rule_A) (effective_until rule_A) = false
      /\ create_regular (d 2025 1 1) [rule_A] "B" (d 2025 7 1) None
         = Raise (ValueError "Cannot use None as a query value")).
Proof.
  repeat split; reflexivity.
Qed.

(** The penalty-rule write path looks only at rules with an end date that
    are in force today: a second open-ended rule of the same type is
    accepted next to the first. *)
Remark create_penalty_rule_accepts_second_open_rule :
  exists rule,
    PenaltyRuleService.create_penalty_rule (d 2025 7 1) [open_rule] 1
      "Second" late_payment fixed 20 0 None (Some (d 2025 7 1)) ""
    = Ok (rule, [open_rule; rule])
    /\ Spec.half_open_intersect
         (PenaltyRule.effective_from rule) (PenaltyRule.effective_until rule)
         (PenaltyRule.effective_from open_rule)
         (PenaltyRule.effective_until open_rule) = true.
Proof.
  eexists. split; reflexivity.
Qed.

End RuleStoreFacts.

(* ------------------------------------------------------------------ *)
(** ** Rule resolver: the read path *)

Section ResolverFacts.

Import PenaltyRule PenaltyRuleService.

Lemma first_filter_find {A : Type} (f : A -> bool) (l : list A) :
  Django.first (filter f l) = find f l.
Proof.
  induction l as [ | a l IH ]; cbn; [ reflexivity | ].
  destruct (f a); [ reflexivity | exact IH ].
Qed.

Lemma closed_rules_for_spec (table : list t) s pt dd :
  closed_rules_for table s pt dd = filter (Spec.closed_match s pt dd) table.
Proof.
  unfold closed_rules_for. apply filter_ext. intros r.
  unfold Spec.closed_match, Spec.rule_matches, Django.lte, Django.gte_null,
    Django.isnull.
  rewrite eqb_true_r.
  destruct (effective_until r); cbn [negb];
    rewrite ?andb_true_r, ?andb_false_r; reflexivity.
Qed.

Lemma open_rules_for_spec (table : list t) s pt dd :
  open_rules_for table s pt dd = filter (Spec.open_match s pt dd) table.
Proof.
  unfold open_rules_for. apply filter_ext. intros r.
  unfold Spec.open_match, Spec.rule_matches, Django.lte, Django.isnull.
  rewrite eqb_true_r.
  destruct (effective_until r);
    rewrite ?andb_true_r, ?andb_false_r; reflexivity.
Qed.

Lemma match_split s pt dd (r : t) :
  Spec.rule_matches s pt dd r = Spec.closed_match s pt dd r || Spec.open_match s pt dd r.
Proof.
  unfold Spec.closed_match, Spec.open_match.
  destruct (Spec.rule_matches s pt dd r), (Django.isnull (effective_until r));
    reflexivity.
Qed.

Lemma resolver_as_find today table s pt as_of :
  let dd := match as_of with Some x => x | None => today end in
  get_applicable_penalty_rules today table s pt as_of
  = match find (Spec.closed_match s pt dd) table with
    | Some r => Some r
    | None => find (Spec.open_match s pt dd) table
    end.
Proof.
  intros dd. unfold get_applicable_penalty_rules. fold dd.
  rewrite closed_rules_for_spec, open_rules_for_spec.
  rewrite !first_filter_find. reflexivity.
Qed.

(** C5 (as the code has it): the resolver returns a rule of the table that
    matches (same stokvel and penalty type, active, effective_from on or
    before the date, effective_until absent or on or after it) when one
    exists, and nothing otherwise; among several matching rules it returns
    the first one, in row order, that has an end date, and the first
    open-ended one only when no matching rule has an end date. *)
Theorem C5_resolver_prefers_closed_rules :
  forall today table s pt as_of,
    let dd := match as_of with Some x => x | None => today end in
    let res := get_applicable_penalty_rules today table s pt as_of in
    ((exists r, In r table /\ Spec.rule_matches s pt dd r = true) ->
     exists r, res = Some r /\ In r table /\ Spec.rule_matches s pt dd r = true)
    /\ ((forall r, In r table -> Spec.rule_matches s pt dd r = false) ->
        res = None)
    /\ res = match find (Spec.closed_match s pt dd) table with
             | Some r => Some r
             | None => find (Spec.open_match s pt dd) table
             end
    /\ (forall r, res = Some r -> effective_until r = None ->
        forall r', In r' table -> Spec.rule_matches s pt dd r' = true ->
                   effective_until r' = None).
Proof.
  intros today table s pt as_of dd res.
  assert (Hres : res = match find (Spec.closed_match s pt dd) table with
                       | Some r => Some r
                       | None => find (Spec.open_match s pt dd) table
                       end)
    by (apply resolver_as_find).
  repeat split.
  - intros (r & Hin & Hm). rewrite Hres.
    destruct (find (Spec.closed_match s pt dd) table) as [ rc | ] eqn:Ec.
    + apply find_some in Ec. destruct Ec as [Hin' Hc].
      exists rc. repeat split; try assumption.
      unfold Spec.closed_match in Hc. apply andb_true_iff in Hc. apply Hc.
    + destruct (find (Spec.open_match s pt dd) table) as [ ro | ] eqn:Eo.
      * apply find_some in Eo. destruct Eo as [Hin' Ho].
        exists ro. repeat split; try assumption.
        unfold Spec.open_match in Ho. apply andb_true_iff in Ho. apply Ho.
      * pose proof (find_none _ _ Ec r Hin) as Hc.
        pose proof (find_none _ _ Eo r Hin) as Ho.
        rewrite match_split, Hc, Ho in Hm. discriminate Hm.
  - intros Hnone. rewrite Hres.
    destruct (find (Spec.closed_match s pt dd) table) as [ rc | ] eqn:Ec.
    + apply find_some in Ec. destruct Ec as [Hin' Hc].
      unfold Spec.closed_match in Hc. rewrite (Hnone rc Hin') in Hc.
      discriminate Hc.
    + destruct (find (Spec.open_match s pt dd) table) as [ ro | ] eqn:Eo;
        [ | reflexivity ].
      apply find_some in Eo. destruct Eo as [Hin' Ho].
      unfold Spec.open_match in Ho. rewrite (Hnone ro Hin') in Ho.
      discriminate Ho.
  - exact Hres.
  - intros r Hr Hopen r' Hin' Hm'. rewrite Hres in Hr.
    destruct (find (Spec.closed_match s pt dd) table) as [ rc | ] eqn:Ec.
    + injection Hr as ->. apply find_some in Ec. destruct Ec as [_ Hc].
      unfold Spec.closed_match in Hc. rewrite Hopen in Hc.
      cbn in Hc. rewrite andb_false_r in Hc. discriminate Hc.
    + pose proof (find_none _ _ Ec r' Hin') as Hc.
      unfold Spec.closed_match in Hc. rewrite Hm' in Hc.
      destruct (effective_until r'); [ discriminate Hc | reflexivity ].
Qed.

Lemma C5_resolver_witness :
  exists r,
    get_applicable_penalty_rules (d 2025 7 1) [open_rule; closed_rule] 1
      late_payment None = Some r
    /\ In r [open_rule; closed_rule]
    /\ Spec.rule_matches 1 late_payment (d 2025 7 1) r = true.
Proof.
  refine (proj1 (C5_resolver_prefers_closed_rules
                   (d 2025 7 1) [open_rule; closed_rule] 1 late_payment None) _).
  exists open_rule. split; [ left; reflexivity | reflexivity ].
Defined.

(** C5 (as stated) fails on the code: with a closed rule from 2025-01-01
    and an open-ended rule from 2025-06-01 both matching on 2025-07-01, the
    resolver returns the closed rule, whose effective_from is the earlier
    one, in whichever order the rows come. *)
Lemma C5_latest_effective_from_counterexample :
  Spec.rule_matches 1 late_payment (d 2025 7 1) closed_rule = true
  /\ Spec.rule_matches 1 late_payment (d 2025 7 1) open_rule = true
  /\ date_ltb (effective_from closed_rule) (effective_from open_rule) = true
  /\ get_applicable_penalty_rules (d 2025 7 1) [closed_rule; open_rule] 1
       late_payment (Some (d 2025 7 1)) = Some closed_rule
  /\ get_applicable_penalty_rules (d 2025 7 1) [open_rule; closed_rule] 1
       late_payment (Some (d 2025 7 1)) = Some closed_rule.
Proof.
  repeat split; reflexivity.
Qed.

End ResolverFacts.

(* ------------------------------------------------------------------ *)
(** ** Collection statistics *)

Section DecimalFacts.

Import Dec.

Local Open Scope Z_scope.

Lemma ndigits_aux_spec (fuel : nat) (n : Z) :
  0 < n < 2 ^ (Z.of_nat fuel + 1) ->
  1 <= ndigits_aux fuel n
  /\ 10 ^ (ndigits_aux fuel n - 1) <= n < 10 ^ ndigits_aux fuel n.
Proof.
  revert n. induction fuel as [ | fuel IH ]; intros n Hn.
  - cbn in Hn. cbn. lia.
  - cbn [ndigits_aux]. destruct (n <? 10) eqn:E.
    + apply Z.ltb_lt in E. cbn. lia.
    + apply Z.ltb_ge in E.
      assert (Hq : 0 < n / 10 < 2 ^ (Z.of_nat fuel + 1)).
      { replace (Z.of_nat (S fuel) + 1) with (Z.succ (Z.of_nat fuel + 1))
          in Hn by lia.
        rewrite Z.pow_succ_r in Hn by lia.
        split; [ apply Z.div_str_pos; lia | ].
        apply Z.div_lt_upper_bound; lia. }
      destruct (IH _ Hq) as (H1 & Hlo & Hhi).
      set (k := ndigits_aux fuel (n / 10)) in *.
      split; [ lia | ].
      replace (1 + k - 1) with (Z.succ (k - 1)) by lia.
      replace (1 + k) with (Z.succ k) by lia.
      rewrite !Z.pow_succ_r by lia.
      pose proof (Z.div_mod n 10 ltac:(lia)) as Hdm.
      pose proof (Z.mod_pos_bound n 10 ltac:(lia)) as Hm.
      lia.
Qed.

Lemma ndigits_spec (n : Z) :
  0 < n ->
  1 <= ndigits n /\ 10 ^ (ndigits n - 1) <= n < 10 ^ ndigits n.
Proof.
  intros Hn. unfold ndigits. apply ndigits_aux_spec.
  split; [ exact Hn | ].
  pose proof (Z.log2_nonneg n) as H0.
  rewrite Z2Nat.id by exact H0.
  apply (Z.log2_spec n) in Hn.
  replace (Z.log2 n + 1) with (Z.succ (Z.log2 n)) by lia. lia.
Qed.

Local Open Scope Q_scope.

Lemma ten_nonzero : ~ (10 # 1) == 0.
Proof. discriminate. Qed.

Lemma pow10_pos (e : Z) : 0 < pow10 e.
Proof. apply Qpower_0_lt. reflexivity. Qed.

Lemma pow10_plus (a b : Z) : pow10 (a + b) == pow10 a * pow10 b.
Proof. apply Qpower_plus, ten_nonzero. Qed.

Lemma pow10_le (a b : Z) : (a <= b)%Z -> pow10 a <= pow10 b.
Proof. intros H. apply Qpower_le_compat_l; [ exact H | discriminate ]. Qed.

Lemma pow10_inject (k : Z) : (0 <= k)%Z -> inject_Z (10 ^ k) == pow10 k.
Proof. intros H. apply (Zpower_Qpower 10 k H). Qed.

Lemma Qabs_as_fraction (x : Q) :
  Qabs x == inject_Z (Z.abs (Qnum x)) / inject_Z (Zpos (Qden x)).
Proof.
  destruct x as [n d]. unfold Qabs. cbn [Qnum Qden].
  rewrite (Qmake_Qdiv (Z.abs n) d). reflexivity.
Qed.

Lemma adjusted_spec (x : Q) :
  ~ x == 0 -> pow10 (adjusted x) <= Qabs x /\ Qabs x < pow10 (adjusted x + 1).
Proof.
  intros Hx.
  assert (Hn : (0 < Z.abs (Qnum x))%Z).
  { destruct x as [n d]. cbn [Qnum]. unfold Qeq in Hx. cbn in Hx. lia. }
  destruct (ndigits_spec _ Hn) as (Hn1 & Hnlo & Hnhi).
  destruct (ndigits_spec (Zpos (Qden x)) ltac:(lia)) as (Hd1 & Hdlo & Hdhi).
  unfold adjusted. cbv zeta.
  set (dn := ndigits (Z.abs (Qnum x))) in *.
  set (dd := ndigits (Zpos (Qden x))) in *.
  pose proof (Qabs_as_fraction x) as Hfrac.
  set (n := inject_Z (Z.abs (Qnum x))) in *.
  set (den := inject_Z (Zpos (Qden x))) in *.
  assert (Hden : 0 < den) by (unfold den; rewrite <- (Zlt_Qlt 0); lia).
  assert (Qnlo : pow10 (dn - 1) <= n).
  { rewrite <- pow10_inject by lia. unfold n. rewrite <- Zle_Qle. exact Hnlo. }
  assert (Qnhi : n < pow10 dn).
  { rewrite <- pow10_inject by lia. unfold n. rewrite <- Zlt_Qlt. exact Hnhi. }
  assert (Qdlo : pow10 (dd - 1) <= den).
  { rewrite <- pow10_inject by lia. unfold den. rewrite <- Zle_Qle. exact Hdlo. }
  assert (Qdhi : den < pow10 dd).
  { rewrite <- pow10_inject by lia. unfold den. rewrite <- Zlt_Qlt. exact Hdhi. }
  (* the quotient lies strictly between 10^(k-1) and 10^(k+1) *)
  assert (Hlow : pow10 (dn - dd - 1) < n / den).
  { apply Qlt_shift_div_l; [ exact Hden | ].
    assert (E : pow10 (dn - 1) == pow10 (dn - dd - 1) * pow10 dd).
    { rewrite <- pow10_plus. replace (dn - dd - 1 + dd)%Z with (dn - 1)%Z by lia.
      reflexivity. }
    pose proof (pow10_pos (dn - dd - 1)) as Hp.
    apply Qlt_le_trans with (pow10 (dn - dd - 1) * pow10 dd).
    - apply Qmult_lt_l; assumption.
    - rewrite <- E. exact Qnlo. }
  assert (Hhigh : n / den < pow10 (dn - dd + 1)).
  { apply Qlt_shift_div_r; [ exact Hden | ].
    assert (E : pow10 dn == pow10 (dn - dd + 1) * pow10 (dd - 1)).
    { rewrite <- pow10_plus. replace (dn - dd + 1 + (dd - 1))%Z with dn by lia.
      reflexivity. }
    pose proof (pow10_pos (dn - dd + 1)) as Hp.
    apply Qlt_le_trans with (pow10 dn); [ exact Qnhi | ].
    rewrite E. apply Qmult_le_l; assumption. }
  rewrite <- Hfrac in Hlow, Hhigh.
  destruct (Qle_bool (pow10 (dn - dd)) (Qabs x)) eqn:E.
  - apply Qle_bool_iff in E. split; [ exact E | exact Hhigh ].
  - split.
    + apply Qlt_le_weak. exact Hlow.
    + replace (dn - dd - 1 + 1)%Z with (dn - dd)%Z by lia.
      apply Qnot_le_lt. intros H. apply Qle_bool_iff in H. congruence.
Qed.

Lemma dec_ltb_true (a b : Q) : ltb a b = true -> a < b.
Proof.
  unfold ltb. intros H. apply negb_true_iff in H.
  apply Qnot_le_lt. intros Hle. apply Qle_bool_iff in Hle. congruence.
Qed.

Lemma dec_ltb_false (a b : Q) : ltb a b = false -> b <= a.
Proof.
  unfold ltb. intros H. apply negb_false_iff in H.
  apply Qle_bool_iff. exact H.
Qed.

Lemma round_half_even_close (y : Q) :
  - (1 # 2) <= inject_Z (round_half_even y) - y <= 1 # 2.
Proof.
  unfold round_half_even. cbv zeta.
  pose proof (Qfloor_le y) as Hlo. pose proof (Qlt_floor y) as Hhi.
  rewrite inject_Z_plus in Hhi.
  set (n := Qfloor y) in *.
  change (inject_Z 1) with 1 in Hhi.
  destruct (ltb (y - inject_Z n) (1 # 2)) eqn:E1.
  - apply dec_ltb_true in E1. lra.
  - apply dec_ltb_false in E1.
    assert (Hup : - (1 # 2) <= inject_Z (n + 1) - y <= 1 # 2).
    { rewrite inject_Z_plus. change (inject_Z 1) with 1. lra. }
    destruct (ltb (1 # 2) (y - inject_Z n)) eqn:E2; [ exact Hup | ].
    apply dec_ltb_false in E2.
    destruct (Z.even n); [ lra | exact Hup ].
Qed.

Lemma round_prec_zero (x : Q) : x == 0 -> round_prec x = 0.
Proof.
  intros H. unfold round_prec.
  replace (Qeq_bool x 0) with true; [ reflexivity | ].
  symmetry. apply Qeq_bool_iff. exact H.
Qed.

Lemma round_prec_close (x : Q) :
  ~ x == 0 ->
  Qabs (round_prec x - x) <= (1 # 2) * pow10 (adjusted x - (prec - 1)).
Proof.
  intros Hx. unfold round_prec.
  destruct (Qeq_bool x 0) eqn:E0; [ apply Qeq_bool_iff in E0; contradiction | ].
  cbv zeta.
  set (p := pow10 (adjusted x - (prec - 1))).
  assert (Hp : 0 < p) by apply pow10_pos.
  set (y := Qabs x / p).
  assert (Hy : y * p == Qabs x).
  { unfold y. field. intros H. rewrite H in Hp. exact (Qlt_irrefl 0 Hp). }
  pose proof (round_half_even_close y) as Hc.
  set (c := inject_Z (round_half_even y)) in *.
  apply Qabs_Qle_condition.
  destruct (Qle_bool 0 x) eqn:Es.
  - apply Qle_bool_iff in Es. rewrite (Qabs_pos x Es) in Hy.
    rewrite <- Hy. nra.
  - assert (Hneg : x <= 0).
    { apply Qlt_le_weak, Qnot_le_lt. intros H. apply Qle_bool_iff in H.
      congruence. }
    rewrite (Qabs_neg x Hneg) in Hy.
    assert (Hx' : x == - (y * p)) by (rewrite Hy; ring).
    rewrite Hx'. nra.
Qed.

(** The result of a division differs from the exact quotient by at most
    half a unit in the 28th significant digit. *)
Lemma round_prec_relative (x : Q) :
  Qabs (round_prec x - x) <= Qabs x * (5 * Dec.pow10 (-28)).
Proof.
  destruct (Qeq_dec x 0) as [ Hz | Hx ].
  - rewrite (round_prec_zero x Hz).
    setoid_replace (0 - x) with 0 by (rewrite Hz; ring).
    rewrite Hz. vm_compute. discriminate.
  - pose proof (round_prec_close x Hx) as Hc.
    destruct (adjusted_spec x Hx) as [Hlo _].
    assert (E : pow10 (adjusted x - (prec - 1))
                == pow10 (adjusted x) * pow10 (- (prec - 1))).
    { rewrite <- pow10_plus. reflexivity. }
    rewrite E in Hc.
    assert (E27 : pow10 (- (prec - 1)) == 2 * (5 * Dec.pow10 (-28)))
      by (vm_compute; reflexivity).
    rewrite E27 in Hc.
    pose proof (pow10_pos (adjusted x)) as Hp.
    set (a := Qabs x) in *. set (q := pow10 (adjusted x)) in *.
    set (r := Qabs (round_prec x - x)) in *.
    assert (H5 : 0 < (5 * Dec.pow10 (-28))) by (vm_compute; reflexivity).
    set (u := 5 * Dec.pow10 (-28)) in *.
    nra.
Qed.

Lemma round_prec_zero_iff (x : Q) : round_prec x == 0 <-> x == 0.
Proof.
  split.
  - intros Hr. destruct (Qeq_dec x 0) as [ Hz | Hx ]; [ exact Hz | exfalso ].
    pose proof (round_prec_relative x) as Hc.
    setoid_replace (round_prec x - x) with (- x) in Hc by (rewrite Hr; ring).
    rewrite Qabs_opp in Hc.
    assert (Ha : 0 < Qabs x).
    { apply Qnot_le_lt. intros Hle. apply Hx.
      apply Qabs_Qle_condition in Hle. lra. }
    assert (H5 : (5 * Dec.pow10 (-28)) < 1) by (vm_compute; reflexivity).
    set (a := Qabs x) in *. set (u := 5 * Dec.pow10 (-28)) in *. nra.
  - intros Hz. rewrite (round_prec_zero x Hz). reflexivity.
Qed.

End DecimalFacts.

Section CollectionFacts.

Import Finances StokvelReportUtils.

Lemma ltb_lt (a b : Q) : Dec.ltb a b = true -> (a < b)%Q.
Proof.
  unfold Dec.ltb. intros H.
  destruct (Qle_bool b a) eqn:E; [ discriminate H | ].
  apply Qnot_le_lt. intros Hle. apply Qle_bool_iff in Hle. congruence.
Qed.

Lemma lt_ltb (a b : Q) : (a < b)%Q -> Dec.ltb a b = true.
Proof.
  unfold Dec.ltb. intros H.
  destruct (Qle_bool b a) eqn:E; [ | reflexivity ].
  apply Qle_bool_iff in E. exfalso. exact (Qlt_not_le _ _ H E).
Qed.

Lemma ltb_zero_false (b : Q) : (b == 0)%Q -> Dec.ltb 0 b = false.
Proof.
  unfold Dec.ltb. intros H.
  replace (Qle_bool b 0) with true; [ reflexivity | ].
  symmetry. apply Qle_bool_iff. rewrite H. apply Qle_refl.
Qed.

Lemma div_by_positive (a b : Q) :
  (0 < b)%Q -> Dec.div a b = Ok (Dec.round_prec (a / b)).
Proof.
  intros H. unfold Dec.div.
  destruct (Qeq_bool b 0) eqn:E; [ | reflexivity ].
  apply Qeq_bool_iff in E. rewrite E in H.
  exfalso. exact (Qlt_irrefl 0 H).
Qed.

Lemma quotient_zero_iff (a b : Q) :
  (0 < b)%Q -> ((a / b == 0)%Q <-> (a == 0)%Q).
Proof.
  intros Hb. split; intros H.
  - setoid_replace a with (a / b * b)%Q
      by (field; intros Hz; rewrite Hz in Hb; exact (Qlt_irrefl 0 Hb)).
    rewrite H. ring.
  - rewrite H. unfold Qdiv. ring.
Qed.

(** C7 (as the code has it): the collection percentage of a payment
    period never raises.  When the expected total is positive it is the
    quotient received / expected as Decimal division gives it, rounded to
    28 significant digits and so within a relative error of 5e-28 of the
    exact quotient, times 100; otherwise it is 0.  It is 0 exactly when
    the expected total is not positive or nothing was received.  The
    collection rate of the stokvel statistics has the same guard: it never
    raises, is that quotient times 100 rounded to two places when the
    expected total is positive, and 0 otherwise. *)
Theorem C7_collection_rates_guard_zero_expected :
  (forall db p,
      returns (collection_percentage db p)
      /\ ((0 < total_expected_amount db p)%Q ->
          collection_percentage db p
          = Ok (Dec.round_prec
                  (total_received_amount db p / total_expected_amount db p)
                * 100)%Q
          /\ (Qabs (Dec.round_prec
                      (total_received_amount db p / total_expected_amount db p)
                    - total_received_amount db p / total_expected_amount db p)
              <= Qabs (total_received_amount db p / total_expected_amount db p)
                 * (5 * Dec.pow10 (-28)))%Q)
      /\ (~ (0 < total_expected_amount db p)%Q ->
          collection_percentage db p = Ok 0%Q)
      /\ (forall v, collection_percentage db p = Ok v ->
                    ((v == 0)%Q <->
                     ~ (0 < total_expected_amount db p)%Q
                     \/ (total_received_amount db p == 0)%Q)))
  /\ (forall today db s start_date end_date,
         exists st,
           calculate_contribution_statistics today db s start_date end_date
           = Ok st
           /\ ((0 < total_expected st)%Q ->
               collection_rate st
               = Dec.round2
                   (Dec.round_prec (total_received st / total_expected st)
                    * 100)%Q)
           /\ (~ (0 < total_expected st)%Q -> collection_rate st = 0%Q)).
Proof.
  split.
  - intros db p. unfold collection_percentage, returns. cbv zeta.
    set (e := total_expected_amount db p).
    set (r := total_received_amount db p).
    destruct (Dec.ltb 0 e) eqn:E.
    + apply ltb_lt in E. rewrite (div_by_positive _ _ E). cbn [bind].
      split; [ eexists; reflexivity | ].
      split; [ intros _; split;
               [ reflexivity | apply round_prec_relative ] | ].
      split; [ intros Hn; contradiction | ].
      intros v Hv. injection Hv as <-. split.
      * intros Hz. right.
        apply (quotient_zero_iff r e E), round_prec_zero_iff.
        setoid_replace (Dec.round_prec (r / e))
          with (Dec.round_prec (r / e) * 100 * (1 # 100))%Q by ring.
        rewrite Hz. ring.
      * intros [ Hn | Hr ]; [ contradiction | ].
        apply (quotient_zero_iff r e E), round_prec_zero_iff in Hr.
        rewrite Hr. ring.
    + split; [ eexists; reflexivity | ].
      assert (Hn : ~ (0 < e)%Q)
        by (intros Hpos; apply lt_ltb in Hpos; congruence).
      split; [ intros Hpos; contradiction | ].
      split; [ reflexivity | ].
      intros v Hv. injection Hv as <-.
      split; [ intros _; left; exact Hn | reflexivity ].
  - intros today db s start_date end_date.
    unfold calculate_contribution_statistics. cbv zeta.
    set (periods := periods_in_range db s _ _).
    set (te := Dec.sum (map (total_expected_amount db) periods)).
    set (tr := Dec.sum (map (total_received_amount db) periods)).
    destruct (Dec.ltb 0 te) eqn:E.
    + apply ltb_lt in E. rewrite (div_by_positive _ _ E). cbn [bind].
      eexists. split; [ reflexivity | ].
      cbn [total_expected total_received collection_rate].
      split; [ reflexivity | ].
      intros Hn. contradiction.
    + cbn [bind]. eexists. split; [ reflexivity | ].
      cbn [total_expected total_received collection_rate].
      split; [ | reflexivity ].
      intros Hpos. apply lt_ltb in Hpos. congruence.
Qed.

Lemma C7_collection_witness :
  collection_percentage scenario_db march_period
  = Ok (Dec.round_prec
          (total_received_amount scenario_db march_period
           / total_expected_amount scenario_db march_period) * 100)%Q
  /\ collection_percentage empty_db march_period = Ok 0%Q.
Proof.
  pose proof (proj1 C7_collection_rates_guard_zero_expected) as H.
  split.
  - refine (proj1 (proj1 (proj2 (H scenario_db march_period)) _)).
    reflexivity.
  - refine (proj1 (proj2 (proj2 (H empty_db march_period))) _).
    intros Hpos. discriminate Hpos.
Defined.

(** The claim as the specification words it fails from right to left: the
    percentage is 0 although the expected total is 2000, since nothing has
    been received. *)
Lemma C7_zero_percentage_with_positive_expected_counterexample :
  (total_expected_amount unpaid_db march_period == 2000)%Q
  /\ exists v, collection_percentage unpaid_db march_period = Ok v
               /\ (v == 0)%Q
               /\ ~ (total_expected_amount unpaid_db march_period == 0)%Q.
Proof.
  split; [ vm_compute; reflexivity | ].
  eexists. split; [ vm_compute; reflexivity | ].
  split; [ vm_compute; reflexivity | ].
  vm_compute. discriminate.
Qed.

(** The scenario of the specification: 1400 received of 2000 expected is
    70 percent, for the period and for the stokvel. *)
Lemma collection_scenario :
  (total_received_amount scenario_db march_period == 1400)%Q
  /\ (total_expected_amount scenario_db march_period == 2000)%Q
  /\ (exists v, collection_percentage scenario_db march_period = Ok v
                /\ (v == 70)%Q)
  /\ (exists st,
         calculate_contribution_statistics (d 2025 3 31) scenario_db 1 None None
         = Ok st
         /\ (collection_rate st == 70)%Q).
Proof.
  split; [ vm_compute; reflexivity | ].
  split; [ vm_compute; reflexivity | ].
  split; eexists; (split; [ vm_compute; reflexivity | vm_compute; reflexivity ]).
Qed.

End CollectionFacts.

(* ------------------------------------------------------------------ *)
(** ** Insufficient-payment penalty *)

Section InsufficientPaymentFacts.

Import PenaltyRule PenaltyCalculator.

Lemma models_is_unbound :
  lookup_global utils_globals "models" = Raise (NameError "models").
Proof. reflexivity. Qed.

Lemma short_payment_passes_guard (paid_amount expected_amount : Q) :
  (paid_amount < expected_amount)%Q ->
  Dec.leb expected_amount paid_amount = false.
Proof.
  intros H. unfold Dec.leb.
  destruct (Qle_bool expected_amount paid_amount) eqn:E; [ | reflexivity ].
  apply Qle_bool_iff in E. exfalso. exact (Qlt_not_le _ _ H E).
Qed.

(** In the namespace of stokvel/utils.py every short payment ends in a
    [NameError]: the rule lookup names [models], which the module never
    imports. *)
Lemma short_payment_raises (table : list t) (s : Z)
    (paid_amount expected_amount : Q) (payment_date : date) :
  (paid_amount < expected_amount)%Q ->
  calculate_insufficient_payment_penalty utils_globals table s
    paid_amount expected_amount payment_date
  = Raise (NameError "models").
Proof.
  intros H. unfold calculate_insufficient_payment_penalty.
  rewrite short_payment_passes_guard by exact H.
  rewrite models_is_unbound. reflexivity.
Qed.

(** With [models] bound, the body behaves as intended: a short payment is
    charged nothing under any rule whose grace period is not negative,
    since the rule is applied with zero days of lateness. *)
Lemma short_payment_penalty_zero_when_models_bound (globals : list string)
    (table : list t) (s : Z) (paid_amount expected_amount : Q)
    (payment_date : date) :
  lookup_global globals "models" = Ok tt ->
  (forall r, In r table -> 0 <= grace_period_days r) ->
  (paid_amount < expected_amount)%Q ->
  exists rule,
    calculate_insufficient_payment_penalty globals table s
      paid_amount expected_amount payment_date
    = Ok (0%Q, rule).
Proof.
  intros Hg Hgrace H. unfold calculate_insufficient_payment_penalty.
  rewrite short_payment_passes_guard by exact H.
  rewrite Hg. cbn [bind].
  destruct (applicable_rule table s insufficient_payment payment_date)
    as [ r | ] eqn:E.
  - exists (Some r). rewrite zero_days_late_within_grace; [ reflexivity | ].
    apply Hgrace.
    unfold applicable_rule, Django.first in E.
    destruct (filter _ (filter _ table)) as [ | x l ] eqn:Ef;
      [ discriminate E | ].
    injection E as ->.
    assert (Hin : In r (r :: l)) by (left; reflexivity).
    rewrite <- Ef in Hin.
    apply filter_In in Hin. destruct Hin as [Hin _].
    apply filter_In in Hin. apply Hin.
  - exists None. reflexivity.
Qed.

(** C8: a payment of 150 against an expected 200, with an
    insufficient-payment rule in force, does not return a penalty of zero:
    the call raises [NameError] before any rule is looked up. *)
Theorem C8_short_payment_raises_name_error :
  (150 < 200)%Q
  /\ 0 <= grace_period_days shortfall_rule
  /\ calculate_insufficient_payment_penalty utils_globals [shortfall_rule] 1
       150 200 (d 2025 3 15)
     = Raise (NameError "models")
  /\ ~ returns (calculate_insufficient_payment_penalty utils_globals
                  [shortfall_rule] 1 150 200 (d 2025 3 15)).
Proof.
  split; [ reflexivity | ].
  split; [ cbn; lia | ].
  split; [ reflexivity | ].
  intros [v Hv]. discriminate Hv.
Qed.

End InsufficientPaymentFacts.

(* ------------------------------------------------------------------ *)
(** ** Primary bank account *)

Section BankAccountFacts.

Import StokvelBankAccount BankAccountService.

Lemma update_keeps_pks (sel : t -> bool) (table : list t) :
  map pk (update_is_primary_false sel table) = map pk table.
Proof.
  unfold update_is_primary_false. rewrite map_map.
  apply map_ext. intros r. destruct (sel r); reflexivity.
Qed.

(** After the bulk update of [save], no other row of the stokvel is
    primary. *)
Lemma update_clears_others (a : t) (table : list t) (r : t) :
  In r (update_is_primary_false
          (fun r => (stokvel r =? stokvel a) && is_primary r
                    && negb (pk r =? pk a)) table) ->
  pk r <> pk a -> stokvel r = stokvel a -> is_primary r = false.
Proof.
  unfold update_is_primary_false. intros Hin Hpk Hs.
  apply in_map_iff in Hin. destruct Hin as (r0 & Hr & _).
  destruct ((stokvel r0 =? stokvel a) && is_primary r0
            && negb (pk r0 =? pk a)) eqn:Esel.
  - subst r. reflexivity.
  - subst r0.
    apply Z.eqb_eq in Hs. apply Z.eqb_neq in Hpk.
    rewrite Hs, Hpk in Esel. cbn in Esel.
    rewrite andb_true_r in Esel. exact Esel.
Qed.

Lemma no_primary_count_zero (s : Z) (table : list t) :
  (forall r, In r table -> stokvel r = s -> is_primary r = false) ->
  active_primary_count table s = 0%nat.
Proof.
  intros H. unfold active_primary_count.
  rewrite filter_none; [ reflexivity | ].
  intros r Hin. unfold active_primary.
  destruct (stokvel r =? s) eqn:Es; [ | reflexivity ].
  apply Z.eqb_eq in Es. rewrite (H r Hin Es). reflexivity.
Qed.

Lemma super_save_single_primary (table : list t) (a : t) :
  NoDup (map pk table) ->
  (forall r, In r table -> pk r <> pk a -> stokvel r = stokvel a ->
             is_primary r = false) ->
  is_primary a = true -> is_active a = true ->
  active_primary_count (super_save table a) (stokvel a) = 1%nat.
Proof.
  intros Hnd Hothers Hp Ha.
  assert (Hself : active_primary (stokvel a) a = true)
    by (unfold active_primary; rewrite Z.eqb_refl, Hp, Ha; reflexivity).
  induction table as [ | r rest IH ].
  - unfold active_primary_count. cbn. rewrite Hself. reflexivity.
  - cbn [super_save]. inversion Hnd as [ | k ks Hnotin Hnd' ]; subst.
    destruct (pk r =? pk a) eqn:Epk.
    + apply Z.eqb_eq in Epk.
      unfold active_primary_count. cbn [filter]. rewrite Hself.
      cbn [List.length]. f_equal.
      apply (no_primary_count_zero (stokvel a) rest).
      intros r' Hin Hs. apply Hothers; [ right; exact Hin | | exact Hs ].
      intros Heq. apply Hnotin. rewrite Epk, <- Heq.
      apply in_map. exact Hin.
    + apply Z.eqb_neq in Epk.
      unfold active_primary_count. cbn [filter].
      replace (active_primary (stokvel a) r) with false.
      * apply IH; [ exact Hnd' | ].
        intros r' Hin. apply Hothers. right. exact Hin.
      * symmetry. unfold active_primary.
        destruct (stokvel r =? stokvel a) eqn:Es; [ | reflexivity ].
        apply Z.eqb_eq in Es.
        rewrite (Hothers r (or_introl eq_refl) Epk Es). reflexivity.
Qed.

(** Saving an active account with the primary flag leaves it the only
    active primary account of its stokvel. *)
Lemma save_primary_is_unique (table : list t) (a : t) :
  NoDup (map pk table) ->
  is_primary a = true -> is_active a = true ->
  active_primary_count (save table a) (stokvel a) = 1%nat.
Proof.
  intros Hnd Hp Ha. unfold save. rewrite Hp.
  apply super_save_single_primary; try assumption.
  - rewrite update_keeps_pks. exact Hnd.
  - intros r. apply update_clears_others.
Qed.

(** [set_primary_account] on an active account does the same. *)
Lemma set_primary_account_is_unique (table : list t) (account : t) :
  NoDup (map pk table) ->
  is_active account = true ->
  active_primary_count (snd (set_primary_account table account))
                       (stokvel account) = 1%nat.
Proof.
  intros Hnd Ha. unfold set_primary_account. cbn [snd].
  change (stokvel account) with (stokvel (with_is_primary true account)) at 2.
  apply save_primary_is_unique.
  - rewrite update_keeps_pks. exact Hnd.
  - reflexivity.
  - exact Ha.
Qed.

Lemma pk_below_next_pk (table : list t) (r : t) :
  In r table -> pk r < next_pk table.
Proof.
  unfold next_pk. induction table as [ | x rest IH ]; intros Hin.
  - contradiction.
  - cbn [fold_right]. destruct Hin as [ -> | Hin ]; [ lia | ].
    specialize (IH Hin). lia.
Qed.

Lemma super_save_fresh (table : list t) (a : t) :
  (forall r, In r table -> pk r <> pk a) ->
  super_save table a = table ++ [a].
Proof.
  induction table as [ | x rest IH ]; intros Hfresh; cbn; [ reflexivity | ].
  replace (pk x =? pk a) with false
    by (symmetry; apply Z.eqb_neq; apply Hfresh; left; reflexivity).
  f_equal. apply IH. intros r Hin. apply Hfresh. right. exact Hin.
Qed.

(** Adding an account keeps a single active primary account, given that
    the stokvel had one whenever it had active accounts. *)
Lemma add_bank_account_keeps_single_primary (table : list t) (s : Z)
    (bank_name_ account_name_ account_number_ branch_code_ account_type_ : string)
    (is_primary_ : bool) (account : t) (table' : list t) :
  NoDup (map pk table) ->
  (Django.exists_
     (filter (fun r => (stokvel r =? s) && Bool.eqb (is_active r) true) table)
   = true -> active_primary_count table s = 1%nat) ->
  add_bank_account table s bank_name_ account_name_ account_number_
    branch_code_ account_type_ is_primary_ = Ok (account, table') ->
  active_primary_count table' s = 1%nat.
Proof.
  intros Hnd Hinv. unfold add_bank_account.
  destruct (blank account_number_); [ discriminate | ].
  destruct (Django.exists_
              (filter (fun r => String.eqb (bank_name r) bank_name_
                                && String.eqb (account_number r) account_number_)
                      table)); [ discriminate | ].
  set (has_active := Django.exists_ (filter _ table)) in *.
  intros Hok. injection Hok as Hacc Htab. subst table'. clear Hacc.
  set (flag := if negb has_active then true else is_primary_).
  set (acc := mk (next_pk table) s bank_name_ account_name_ account_number_
                 branch_code_ account_type_ flag true).
  destruct flag eqn:Eflag.
  - change s with (stokvel acc).
    apply save_primary_is_unique; [ exact Hnd | reflexivity | reflexivity ].
  - assert (Hact : has_active = true).
    { subst flag. destruct has_active; [ reflexivity | discriminate Eflag ]. }
    unfold save. cbn [is_primary acc].
    rewrite super_save_fresh.
    + unfold active_primary_count in *. rewrite filter_app, length_app.
      rewrite (Hinv Hact). cbn [filter].
      replace (active_primary s acc) with false; [ reflexivity | ].
      unfold active_primary. cbn. rewrite andb_false_r. reflexivity.
    + intros r Hin. pose proof (pk_below_next_pk table r Hin).
      change (pk acc) with (next_pk table). lia.
Qed.

Lemma super_save_same (table : list t) (r : t) :
  NoDup (map pk table) -> In r table -> super_save table r = table.
Proof.
  induction table as [ | x rest IH ]; intros Hnd Hin; [ contradiction | ].
  inversion Hnd as [ | k ks Hnotin Hnd' ]; subst.
  cbn [super_save]. destruct (pk x =? pk r) eqn:Epk.
  - apply Z.eqb_eq in Epk. destruct Hin as [ -> | Hin ]; [ reflexivity | ].
    exfalso. apply Hnotin. rewrite Epk. apply in_map. exact Hin.
  - apply Z.eqb_neq in Epk. destruct Hin as [ -> | Hin ]; [ congruence | ].
    f_equal. apply IH; assumption.
Qed.

Lemma in_super_save (table : list t) (a r : t) :
  NoDup (map pk table) -> In r (super_save table a) ->
  r = a \/ (In r table /\ pk r <> pk a).
Proof.
  induction table as [ | x rest IH ]; intros Hnd Hin.
  - destruct Hin as [ <- | [] ]. left. reflexivity.
  - inversion Hnd as [ | k ks Hnotin Hnd' ]; subst.
    cbn [super_save] in Hin. destruct (pk x =? pk a) eqn:Epk.
    + apply Z.eqb_eq in Epk. destruct Hin as [ <- | Hin ];
        [ left; reflexivity | ].
      right. split; [ right; exact Hin | ].
      intros Heq. apply Hnotin. rewrite Epk, <- Heq. apply in_map. exact Hin.
    + apply Z.eqb_neq in Epk. destruct Hin as [ <- | Hin ].
      * right. split; [ left; reflexivity | exact Epk ].
      * destruct (IH Hnd' Hin) as [ -> | [Hin' Hpk] ];
          [ left; reflexivity | ].
        right. split; [ right; exact Hin' | exact Hpk ].
Qed.

Lemma first_by_pk_in (qs : list t) (r : t) :
  first_by_pk qs = Some r -> In r qs.
Proof.
  revert r. induction qs as [ | x rest IH ]; intros r H; [ discriminate H | ].
  cbn [first_by_pk] in H.
  destruct (first_by_pk rest) as [ r' | ].
  - destruct (pk r' <? pk x); injection H as <-.
    + right. apply IH. reflexivity.
    + left. reflexivity.
  - injection H as <-. left. reflexivity.
Qed.

(** Deactivating the only active primary account of a stokvel leaves the
    stokvel without any, whether or not other active accounts exist: the
    promotion step writes back an unchanged row. *)
Lemma deactivate_primary_promotes_nothing (table : list t) (account : t) :
  NoDup (map pk table) ->
  is_primary account = true ->
  (forall r, In r table -> pk r <> pk account ->
             active_primary (stokvel account) r = false) ->
  active_primary_count (snd (deactivate_account table account))
                       (stokvel account) = 0%nat.
Proof.
  intros Hnd Hp Hothers. unfold deactivate_account. rewrite Hp. cbn [snd].
  set (others := filter _ table).
  assert (Htable1 :
            (if Django.exists_ others
             then match first_by_pk others with
                  | Some _ => match first_by_pk others with
                              | Some fresh => save table fresh
                              | None => table
                              end
                  | None => table
                  end
             else table) = table).
  { destruct (Django.exists_ others); [ | reflexivity ].
    destruct (first_by_pk others) as [ fresh | ] eqn:Ef; [ | reflexivity ].
    apply first_by_pk_in in Ef. subst others.
    apply filter_In in Ef. destruct Ef as [Hin Hsel].
    apply andb_true_iff in Hsel. destruct Hsel as [Hsel Hpk].
    apply andb_true_iff in Hsel. destruct Hsel as [Hs Hact].
    apply negb_true_iff, Z.eqb_neq in Hpk.
    rewrite eqb_true_r in Hact.
    pose proof (Hothers fresh Hin Hpk) as Hnot.
    unfold active_primary in Hnot. rewrite Hs, Hact in Hnot.
    cbn in Hnot. rewrite andb_true_r in Hnot.
    unfold save. rewrite Hnot. apply super_save_same; assumption. }
  rewrite Htable1. unfold save. cbn [is_primary with_is_primary].
  unfold active_primary_count. rewrite filter_none; [ reflexivity | ].
  intros r Hin. apply in_super_save in Hin; [ | exact Hnd ].
  destruct Hin as [ -> | [Hin Hpk] ].
  - unfold active_primary. cbn. rewrite andb_false_r. reflexivity.
  - apply Hothers; assumption.
Qed.

(** C10: with A the primary account and B another active account,
    deactivating A promotes nothing: B is still active and not primary, so
    the stokvel has active accounts and no primary one. *)
Theorem C10_deactivating_primary_leaves_no_primary :
  active_primary_count [account_A; account_B] 1 = 1%nat
  /\ snd (deactivate_account [account_A; account_B] account_A)
     = [with_is_primary false (with_is_active false account_A); account_B]
  /\ is_active account_B = true
  /\ active_primary_count
       (snd (deactivate_account [account_A; account_B] account_A)) 1
     = 0%nat.
Proof.
  repeat split; reflexivity.
Qed.

End BankAccountFacts.

(* ------------------------------------------------------------------ *)
(** ** Ordinals of dates *)

Section OrdinalFacts.

Import Ordinal.

Lemma year_length (y : Z) :
  days_before_year (y + 1)
  = days_before_year y + 365 + (if isleap y then 1 else 0).
Proof.
  unfold days_before_year, isleap. cbv zeta.
  replace (y + 1 - 1) with y by lia.
  destruct (y mod 4 =? 0) eqn:E4; destruct (y mod 100 =? 0) eqn:E100;
    destruct (y mod 400 =? 0) eqn:E400; cbn [andb orb negb];
    rewrite ?Z.eqb_eq, ?Z.eqb_neq in *;
    Z.div_mod_to_equations; lia.
Qed.

Lemma days_before_year_mono (y1 y2 : Z) :
  y1 <= y2 -> days_before_year y1 <= days_before_year y2.
Proof.
  intros H. unfold days_before_year. cbv zeta.
  Z.div_mod_to_equations. lia.
Qed.

Lemma month_cases (m : Z) :
  1 <= m <= 12 ->
  m = 1 \/ m = 2 \/ m = 3 \/ m = 4 \/ m = 5 \/ m = 6 \/
  m = 7 \/ m = 8 \/ m = 9 \/ m = 10 \/ m = 11 \/ m = 12.
Proof. lia. Qed.

Lemma days_before_month_bounds (y m : Z) :
  1 <= m <= 12 ->
  0 <= days_before_month y m
  /\ days_before_month y m + days_in_month y m
     <= 365 + (if isleap y then 1 else 0).
Proof.
  intros Hm. apply month_cases in Hm.
  unfold days_before_month, days_in_month.
  repeat (destruct Hm as [-> | Hm]); try subst m; cbn;
    destruct (isleap y); lia.
Qed.

Lemma days_before_next_month (y m m' : Z) :
  1 <= m -> m < m' -> m' <= 12 ->
  days_before_month y m + days_in_month y m <= days_before_month y m'.
Proof.
  intros H1 Hlt H12.
  assert (Hm : 1 <= m <= 12) by lia. assert (Hm' : 1 <= m' <= 12) by lia.
  apply month_cases in Hm. apply month_cases in Hm'.
  unfold days_before_month, days_in_month.
  repeat (destruct Hm as [-> | Hm]); try subst m;
    repeat (destruct Hm' as [-> | Hm']); try subst m';
    try lia; cbn; destruct (isleap y); lia.
Qed.

(** The order of dates is the order of their ordinals. *)
Lemma toordinal_lt (a b : date) :
  valid_date a -> valid_date b ->
  date_ltb a b = true -> toordinal a < toordinal b.
Proof.
  intros (Hya & Hma & Hda) (Hyb & Hmb & Hdb) Hlt.
  unfold date_ltb in Hlt. unfold toordinal.
  pose proof (days_before_month_bounds (year a) (month a) Hma) as [Ha0 Ha1].
  pose proof (days_before_month_bounds (year b) (month b) Hmb) as [Hb0 Hb1].
  apply orb_true_iff in Hlt. destruct Hlt as [Hy | Hrest].
  - apply Z.ltb_lt in Hy.
    pose proof (year_length (year a)) as Hlen.
    pose proof (days_before_year_mono (year a + 1) (year b)) as Hmono.
    lia.
  - apply andb_true_iff in Hrest. destruct Hrest as [Hy Hrest].
    apply Z.eqb_eq in Hy. rewrite Hy in *.
    apply orb_true_iff in Hrest. destruct Hrest as [Hm | Hrest].
    + apply Z.ltb_lt in Hm.
      pose proof (days_before_next_month (year b) (month a) (month b)).
      lia.
    + apply andb_true_iff in Hrest. destruct Hrest as [Hm Hd].
      apply Z.eqb_eq in Hm. apply Z.ltb_lt in Hd. rewrite Hm. lia.
Qed.

End OrdinalFacts.

(* ------------------------------------------------------------------ *)
(** ** Quarters *)

Section QuarterFacts.

Import Ordinal QuarterUtils.

Lemma quarter_cases (q : Z) : 1 <= q <= 4 -> q = 1 \/ q = 2 \/ q = 3 \/ q = 4.
Proof. lia. Qed.

(** X1: for a year a date can hold and a quarter from 1 to 4, the quarter
    runs from the first day of its first month to the day that
    [get_month_end_date] computes for its third month, and starts before
    it ends. *)
Theorem X1_quarter_dates_are_month_boundaries (y q : Z) :
  1 <= y <= 9999 -> 1 <= q <= 4 ->
  exists s e,
    get_quarter_dates y q = Ok (s, e)
    /\ s = mkdate y (3 * q - 2) 1
    /\ DateUtils.get_month_end_date y (3 * q) = Ok e
    /\ date_ltb s e = true.
Proof.
  intros Hy Hq. apply quarter_cases in Hq.
  unfold get_quarter_dates.
  destruct Hq as [-> | [-> | [-> | ->]]]; cbn [Z.eqb Pos.eqb];
    repeat (rewrite date_new_valid by (try assumption; cbn; lia);
            cbn [bind]);
    eexists; eexists; (split; [ reflexivity | ]);
    (split; [ reflexivity | ]);
    (split; [ rewrite get_month_end_date_valid by (try assumption; lia);
              reflexivity
            | unfold date_ltb; cbn; rewrite Z.ltb_irrefl, Z.eqb_refl;
              reflexivity ]).
Qed.

Lemma X1_quarter_dates_witness :
  exists s e,
    get_quarter_dates 2025 2 = Ok (s, e)
    /\ s = mkdate 2025 (3 * 2 - 2) 1
    /\ DateUtils.get_month_end_date 2025 (3 * 2) = Ok e
    /\ date_ltb s e = true.
Proof.
  apply X1_quarter_dates_are_month_boundaries; lia.
Defined.

(** X2: a quarter number outside 1..4 raises [ValueError], whatever the
    year. *)
Theorem X2_quarter_out_of_range_raises (y q : Z) :
  q < 1 \/ 4 < q ->
  get_quarter_dates y q = Raise (ValueError "Quarter must be 1, 2, 3, or 4").
Proof.
  intros Hq. unfold get_quarter_dates.
  replace (q =? 1) with false by (symmetry; apply Z.eqb_neq; lia).
  replace (q =? 2) with false by (symmetry; apply Z.eqb_neq; lia).
  replace (q =? 3) with false by (symmetry; apply Z.eqb_neq; lia).
  replace (q =? 4) with false by (symmetry; apply Z.eqb_neq; lia).
  reflexivity.
Qed.

Lemma X2_quarter_out_of_range_witness :
  get_quarter_dates 2025 5 = Raise (ValueError "Quarter must be 1, 2, 3, or 4").
Proof.
  apply X2_quarter_out_of_range_raises. right. lia.
Defined.

(** X3: the quarters tile the calendar: each quarter starts on the day
    after the previous one ends, within a year and from the fourth quarter
    of one year to the first quarter of the next. *)
Theorem X3_quarters_are_adjacent (y q : Z) :
  1 <= y <= 9999 -> 1 <= q <= 4 ->
  (q < 4 ->
   exists s e s' e',
     get_quarter_dates y q = Ok (s, e)
     /\ get_quarter_dates y (q + 1) = Ok (s', e')
     /\ toordinal s' = toordinal e + 1)
  /\ (q = 4 -> y < 9999 ->
      exists s e s' e',
        get_quarter_dates y 4 = Ok (s, e)
        /\ get_quarter_dates (y + 1) 1 = Ok (s', e')
        /\ toordinal s' = toordinal e + 1).
Proof.
  intros Hy Hq. split.
  - intros Hlt. assert (Hc : q = 1 \/ q = 2 \/ q = 3) by lia.
    unfold get_quarter_dates.
    destruct Hc as [-> | [-> | ->]]; cbn [Z.eqb Pos.eqb Z.add Pos.add];
      repeat (rewrite date_new_valid by (try assumption; cbn; lia);
              cbn [bind]);
      do 4 eexists; (split; [ reflexivity | ]); (split; [ reflexivity | ]);
      unfold toordinal, days_before_month, days_in_month; cbn;
      destruct (isleap y); lia.
  - intros _ Hy'. unfold get_quarter_dates. cbn [Z.eqb Pos.eqb].
    repeat (rewrite date_new_valid by (try lia; cbn; lia); cbn [bind]).
    do 4 eexists. split; [ reflexivity | ]. split; [ reflexivity | ].
    unfold toordinal, days_before_month. cbn.
    rewrite year_length.
    destruct (isleap y), (isleap (y + 1)); lia.
Qed.

Lemma X3_quarters_adjacent_witness :
  (exists s e s' e',
      get_quarter_dates 2024 1 = Ok (s, e)
      /\ get_quarter_dates 2024 (1 + 1) = Ok (s', e')
      /\ toordinal s' = toordinal e + 1)
  /\ (exists s e s' e',
         get_quarter_dates 2024 4 = Ok (s, e)
         /\ get_quarter_dates (2024 + 1) 1 = Ok (s', e')
         /\ toordinal s' = toordinal e + 1).
Proof.
  split.
  - refine (proj1 (X3_quarters_are_adjacent 2024 1 _ _) _); lia.
  - refine (proj2 (X3_quarters_are_adjacent 2024 4 _ _) _ _); lia.
Defined.

End QuarterFacts.

(* ------------------------------------------------------------------ *)
(** ** Contributions and applied penalties *)

Section ContributionFacts.

Import Ordinal ContributionModel.

(** X4: the days a contribution is late are never negative, and they are
    positive exactly for a late payment (one dated after the due date). *)
Theorem X4_days_late_positive_iff_late (c : t) :
  valid_date (payment_date c) ->
  valid_date (Finances.due_date (payment_period c)) ->
  0 <= days_late c /\ (0 < days_late c <-> is_late_payment c = true).
Proof.
  intros Hp Hd. unfold days_late.
  destruct (is_late_payment c) eqn:E.
  - unfold is_late_payment in E.
    pose proof (toordinal_lt _ _ Hd Hp E) as Hlt.
    unfold days_between. split; [ lia | ]. split; [ reflexivity | lia ].
  - split; [ lia | ]. split; [ lia | discriminate ].
Qed.

Lemma X4_days_late_witness :
  0 <= days_late (mk march_period 200 (d 2025 4 3) verified)
  /\ (0 < days_late (mk march_period 200 (d 2025 4 3) verified)
      <-> is_late_payment (mk march_period 200 (d 2025 4 3) verified) = true).
Proof.
  apply X4_days_late_positive_iff_late;
    repeat split; cbn; try lia.
Defined.

Lemma days_late_scenario :
  days_late (mk march_period 200 (d 2025 4 3) verified) = 3.
Proof. reflexivity. Qed.

(** X5: the shortage of a contribution is never negative, it is zero
    exactly for a full payment, and otherwise amount plus shortage is the
    expected amount of the period. *)
Theorem X5_shortage_complements_amount (c : t) :
  (0 <= shortage_amount c)%Q
  /\ (is_full_payment c = true <-> (shortage_amount c == 0)%Q)
  /\ (is_full_payment c = false ->
      (amount c + shortage_amount c
       == Finances.expected_amount_per_member (payment_period c))%Q).
Proof.
  unfold shortage_amount, is_full_payment, Dec.ltb, Dec.leb.
  set (e := Finances.expected_amount_per_member (payment_period c)).
  destruct (Qle_bool e (amount c)) eqn:E; cbn [negb].
  - split; [ apply Qle_refl | ].
    split; [ split; reflexivity | discriminate ].
  - assert (Hlt : (amount c < e)%Q).
    { apply Qnot_le_lt. intros Hle. apply Qle_bool_iff in Hle. congruence. }
    split.
    + apply Qlt_le_weak. unfold Qminus. rewrite <- Qlt_minus_iff. exact Hlt.
    + split.
      * split; [ discriminate | ].
        intros Hz. exfalso.
        assert (Heq : (e == amount c)%Q).
        { rewrite <- (Qplus_0_l (amount c)). rewrite <- Hz. ring. }
        rewrite Heq in Hlt. exact (Qlt_irrefl _ Hlt).
      * intros _. ring.
Qed.

End ContributionFacts.

Section AppliedPenaltyFacts.

Import PenaltyModel.

(** X6: after [mark_as_paid] the status is paid or outstanding, and it is
    paid exactly when nothing is left outstanding; called without an
    amount it settles the whole penalty. *)
Theorem X6_paid_iff_nothing_outstanding (today : date) (p : t)
    (amount_ : option Q) (payment_date_ : option date) :
  let p' := mark_as_paid today p amount_ payment_date_ in
  (status p' = ps_paid \/ status p' = ps_outstanding)
  /\ (status p' = ps_paid <-> (outstanding_amount p' <= 0)%Q)
  /\ (amount_ = None ->
      status p' = ps_paid /\ (outstanding_amount p' == 0)%Q).
Proof.
  cbv zeta. unfold mark_as_paid, outstanding_amount. cbn.
  set (a := match amount_ with Some a => a | None => penalty_amount p end).
  assert (Hiff : Qle_bool (penalty_amount p) a = true
                 <-> (penalty_amount p - a <= 0)%Q).
  { rewrite Qle_bool_iff. split; intros H.
    - apply Qle_minus_iff in H.
      apply Qle_minus_iff. setoid_replace (0 + - (penalty_amount p - a))%Q
        with (a + - penalty_amount p)%Q by ring. exact H.
    - apply Qle_minus_iff in H.
      apply Qle_minus_iff. setoid_replace (a + - penalty_amount p)%Q
        with (0 + - (penalty_amount p - a))%Q by ring. exact H. }
  unfold Dec.leb.
  split; [ destruct (Qle_bool (penalty_amount p) a); auto | ].
  split.
  - destruct (Qle_bool (penalty_amount p) a) eqn:E.
    + split; [ intros _; apply Hiff; reflexivity | reflexivity ].
    + split; [ discriminate | ].
      intros H. apply Hiff in H. discriminate H.
  - intros ->. subst a.
    replace (Qle_bool (penalty_amount p) (penalty_amount p)) with true
      by (symmetry; apply Qle_bool_iff; apply Qle_refl).
    split; [ reflexivity | ring ].
Qed.

(** X7: payments do not accumulate: a second [mark_as_paid] leaves the
    penalty as if the first had not happened, so a later payment below the
    penalty amount leaves it outstanding whatever was paid before. *)
Theorem X7_second_payment_replaces_first (today : date) (p : t)
    (a b : option Q) (d1 d2 : option date) :
  mark_as_paid today (mark_as_paid today p a d1) b d2
  = mark_as_paid today p b d2
  /\ (forall amount_, b = Some amount_ -> (amount_ < penalty_amount p)%Q ->
      status (mark_as_paid today (mark_as_paid today p a d1) b d2)
      = ps_outstanding).
Proof.
  split.
  - unfold mark_as_paid. cbn. reflexivity.
  - intros amount_ -> Hlt. unfold mark_as_paid. cbn. unfold Dec.leb.
    destruct (Qle_bool (penalty_amount p) amount_) eqn:E; [ | reflexivity ].
    apply Qle_bool_iff in E. exfalso. exact (Qlt_not_le _ _ Hlt E).
Qed.

Lemma X7_second_payment_witness :
  status (mark_as_paid (d 2025 5 1)
            (mark_as_paid (d 2025 5 1)
               (mk 100 ps_applied None None "" None 0) (Some 60%Q) None)
            (Some 60%Q) None)
  = ps_outstanding.
Proof.
  refine (proj2 (X7_second_payment_replaces_first _ _ _ _ _ _) 60%Q _ _);
    reflexivity.
Defined.

End AppliedPenaltyFacts.

(* ------------------------------------------------------------------ *)
(** ** The order of dates *)

Section DateOrderFacts.

Lemma date_ltb_spec (a b : date) :
  date_ltb a b = true <->
  (year a < year b
   \/ (year a = year b
       /\ (month a < month b \/ (month a = month b /\ day a < day b)))).
Proof.
  unfold date_ltb.
  rewrite orb_true_iff, andb_true_iff, orb_true_iff, andb_true_iff.
  rewrite !Z.ltb_lt, !Z.eqb_eq. reflexivity.
Qed.

Lemma date_eqb_spec (a b : date) :
  date_eqb a b = true <->
  (year a = year b /\ month a = month b /\ day a = day b).
Proof.
  unfold date_eqb. rewrite !andb_true_iff, !Z.eqb_eq. tauto.
Qed.

Lemma date_leb_spec (a b : date) :
  date_leb a b = true <->
  (year a < year b
   \/ (year a = year b
       /\ (month a < month b \/ (month a = month b /\ day a <= day b)))).
Proof.
  unfold date_leb. rewrite orb_true_iff, date_ltb_spec, date_eqb_spec. lia.
Qed.

Lemma date_ltb_negb_leb (a b : date) : date_ltb a b = negb (date_leb b a).
Proof.
  destruct (date_ltb a b) eqn:E1; destruct (date_leb b a) eqn:E2;
    try reflexivity; exfalso.
  - apply date_ltb_spec in E1. apply date_leb_spec in E2. lia.
  - assert (H1 : ~ (date_ltb a b = true)) by congruence.
    assert (H2 : ~ (date_leb b a = true)) by congruence.
    rewrite date_ltb_spec in H1. rewrite date_leb_spec in H2. lia.
Qed.

Lemma date_leb_refl (a : date) : date_leb a a = true.
Proof. apply date_leb_spec. lia. Qed.

Lemma date_leb_trans (a b c : date) :
  date_leb a b = true -> date_leb b c = true -> date_leb a c = true.
Proof. rewrite !date_leb_spec. lia. Qed.

Lemma date_leb_total (a b : date) :
  date_leb a b = true \/ date_leb b a = true.
Proof. rewrite !date_leb_spec. lia. Qed.

Lemma date_leb_false_flip (a b : date) :
  date_leb a b = false -> date_leb b a = true.
Proof.
  intros H. destruct (date_leb_total a b) as [H' | H']; congruence.
Qed.

Lemma date_ltb_leb (a b : date) : date_ltb a b = true -> date_leb a b = true.
Proof. rewrite date_ltb_spec, date_leb_spec. lia. Qed.

Lemma date_ltb_leb_trans (a b c : date) :
  date_ltb a b = true -> date_leb b c = true -> date_ltb a c = true.
Proof. rewrite !date_ltb_spec, date_leb_spec. lia. Qed.

Lemma date_leb_ltb_trans (a b c : date) :
  date_leb a b = true -> date_ltb b c = true -> date_ltb a c = true.
Proof. rewrite !date_ltb_spec, date_leb_spec. lia. Qed.

Lemma date_ltb_irrefl (a : date) : date_ltb a a = false.
Proof.
  destruct (date_ltb a a) eqn:E; [ | reflexivity ].
  apply date_ltb_spec in E. lia.
Qed.

End DateOrderFacts.

(* ------------------------------------------------------------------ *)
(** ** Penalty calculator: sign, growth and cap *)

Section PenaltyOrderFacts.

Import PenaltyRule.

Lemma capped_nonneg_mono (mx : option Q) (p1 p2 : Q) :
  (forall m, mx = Some m -> (0 <= m)%Q) ->
  (0 <= p1)%Q -> (p1 <= p2)%Q ->
  (0 <= match mx with
        | Some m => if Dec.truthy m && Dec.ltb m p1 then m else p1
        | None => p1
        end)%Q
  /\ (match mx with
      | Some m => if Dec.truthy m && Dec.ltb m p1 then m else p1
      | None => p1
      end
      <= match mx with
         | Some m => if Dec.truthy m && Dec.ltb m p2 then m else p2
         | None => p2
         end)%Q.
Proof.
  intros Hcap H0 H12.
  destruct mx as [ m | ]; [ | split; assumption ].
  specialize (Hcap m eq_refl).
  destruct (Dec.truthy m); cbn [andb]; [ | split; assumption ].
  destruct (Dec.ltb m p1) eqn:E1; destruct (Dec.ltb m p2) eqn:E2.
  - split; [ exact Hcap | apply Qle_refl ].
  - apply ltb_lt in E1. unfold Dec.ltb in E2.
    apply negb_false_iff, Qle_bool_iff in E2.
    exfalso. apply (Qlt_not_le _ _ E1). eapply Qle_trans; eassumption.
  - split; [ exact H0 | ].
    unfold Dec.ltb in E1. apply negb_false_iff, Qle_bool_iff in E1. exact E1.
  - split; assumption.
Qed.

(** X8: with a rule amount, a base amount and a cap (if any) that are not
    negative, the penalty is never negative and never shrinks as the days
    late grow, for every calculation method. *)
Theorem X8_penalty_nonnegative_and_monotone (r : t) (base_amount : Q)
    (d1 d2 : Z) :
  (0 <= amount r)%Q -> (0 <= base_amount)%Q ->
  (forall m, maximum_amount r = Some m -> (0 <= m)%Q) ->
  d1 <= d2 ->
  (0 <= calculate_penalty r base_amount d1)%Q
  /\ (calculate_penalty r base_amount d1
      <= calculate_penalty r base_amount d2)%Q.
Proof.
  intros Ha Hb Hcap Hd.
  assert (Hpct : (0 <= base_amount * (amount r / 100))%Q).
  { apply Qmult_le_0_compat; [ exact Hb | ].
    unfold Qdiv. apply Qmult_le_0_compat; [ exact Ha | ].
    apply Qinv_le_0_compat. discriminate. }
  assert (Hdaily : forall k1 k2, 0 <= k1 <= k2 ->
             (0 <= amount r * inject_Z k1)%Q
             /\ (amount r * inject_Z k1 <= amount r * inject_Z k2)%Q).
  { intros k1 k2 Hk. split.
    - apply Qmult_le_0_compat; [ exact Ha | ].
      change 0%Q with (inject_Z 0). rewrite <- Zle_Qle. lia.
    - rewrite (Qmult_comm (amount r) (inject_Z k1)).
      rewrite (Qmult_comm (amount r) (inject_Z k2)).
      apply Qmult_le_compat_r; [ | exact Ha ].
      rewrite <- Zle_Qle. lia. }
  unfold calculate_penalty.
  destruct (d1 <=? grace_period_days r) eqn:E1;
    destruct (d2 <=? grace_period_days r) eqn:E2.
  - split; apply Qle_refl.
  - split; [ apply Qle_refl | ].
    apply Z.leb_gt in E2.
    destruct (Hdaily (d2 - grace_period_days r) (d2 - grace_period_days r))
      as [Hd0 _]; [ lia | ].
    destruct (calculation_method r).
    + exact (proj1 (capped_nonneg_mono _ _ _ Hcap Ha (Qle_refl _))).
    + exact (proj1 (capped_nonneg_mono _ _ _ Hcap Hpct (Qle_refl _))).
    + exact (proj1 (capped_nonneg_mono _ _ _ Hcap Hd0 (Qle_refl _))).
    + exact (proj1 (capped_nonneg_mono _ _ _ Hcap Ha (Qle_refl _))).
  - apply Z.leb_le in E2. apply Z.leb_gt in E1. lia.
  - apply Z.leb_gt in E1. apply Z.leb_gt in E2.
    destruct (Hdaily (d1 - grace_period_days r) (d2 - grace_period_days r))
      as [Hd0 Hd12]; [ lia | ].
    destruct (calculation_method r).
    + exact (capped_nonneg_mono _ _ _ Hcap Ha (Qle_refl _)).
    + exact (capped_nonneg_mono _ _ _ Hcap Hpct (Qle_refl _)).
    + exact (capped_nonneg_mono _ _ _ Hcap Hd0 Hd12).
    + exact (capped_nonneg_mono _ _ _ Hcap Ha (Qle_refl _)).
Qed.

Lemma X8_penalty_monotone_witness :
  (0 <= calculate_penalty (penalty_rule daily 500 5 (Some 1000%Q)) 200 6)%Q
  /\ (calculate_penalty (penalty_rule daily 500 5 (Some 1000%Q)) 200 6
      <= calculate_penalty (penalty_rule daily 500 5 (Some 1000%Q)) 200 10)%Q.
Proof.
  apply X8_penalty_nonnegative_and_monotone.
  - cbn. discriminate.
  - discriminate.
  - intros m H. injection H as <-. discriminate.
  - lia.
Defined.

(** X9: a cap above zero bounds the penalty for every method, base amount
    and lateness. *)
Theorem X9_positive_cap_bounds_penalty (r : t) (base_amount : Q)
    (days_late : Z) (m : Q) :
  maximum_amount r = Some m -> (0 < m)%Q ->
  (calculate_penalty r base_amount days_late <= m)%Q.
Proof.
  intros Hc Hpos. unfold calculate_penalty.
  destruct (days_late <=? grace_period_days r).
  - apply Qlt_le_weak. exact Hpos.
  - rewrite Hc.
    assert (Ht : Dec.truthy m = true).
    { apply truthy_nonzero. intro E. rewrite E in Hpos.
      exact (Qlt_irrefl 0 Hpos). }
    rewrite Ht. cbn [andb].
    match goal with
    | |- context [Dec.ltb m ?p] => destruct (Dec.ltb m p) eqn:E
    end.
    + apply Qle_refl.
    + unfold Dec.ltb in E. apply negb_false_iff, Qle_bool_iff in E. exact E.
Qed.

Lemma X9_positive_cap_witness :
  (calculate_penalty (penalty_rule daily 500 5 (Some 1000%Q)) 200 10
   <= 1000)%Q.
Proof.
  apply X9_positive_cap_bounds_penalty; reflexivity.
Defined.

End PenaltyOrderFacts.

(* ------------------------------------------------------------------ *)
(** ** Resolver and model method *)

Section ActiveForDateFacts.

Lemma PenaltyType_eqb_eq (a b : PenaltyType) :
  PenaltyType_eqb a b = true <-> a = b.
Proof.
  split; [ destruct a, b; cbn; intros H; congruence | ].
  intros ->. destruct b; reflexivity.
Qed.

Lemma penalty_rule_active_for_date_spec (r : PenaltyRule.t) (dd : date) :
  PenaltyRule.is_active_for_date r dd
  = PenaltyRule.is_active r
    && date_leb (PenaltyRule.effective_from r) dd
    && match PenaltyRule.effective_until r with
       | Some u => date_leb dd u
       | None => true
       end.
Proof.
  unfold PenaltyRule.is_active_for_date.
  rewrite (date_ltb_negb_leb dd).
  destruct (PenaltyRule.is_active r); cbn [negb andb]; [ | reflexivity ].
  destruct (date_leb (PenaltyRule.effective_from r) dd); cbn [negb andb];
    [ | reflexivity ].
  destruct (PenaltyRule.effective_until r) as [ u | ]; [ | reflexivity ].
  rewrite (date_ltb_negb_leb u). destruct (date_leb dd u); reflexivity.
Qed.

Lemma rule_matches_active_for_date s pt dd (r : PenaltyRule.t) :
  Spec.rule_matches s pt dd r
  = (PenaltyRule.stokvel r =? s)
    && PenaltyType_eqb (PenaltyRule.penalty_type r) pt
    && PenaltyRule.is_active_for_date r dd.
Proof.
  unfold Spec.rule_matches. rewrite penalty_rule_active_for_date_spec.
  rewrite !andb_assoc. reflexivity.
Qed.

(** X10: the penalty rule the resolver returns is a row of the table of
    the asked stokvel and type for which the model's own
    [is_active_for_date] holds on the date; and it returns nothing only
    when [is_active_for_date] rejects every row of that stokvel and
    type. *)
Theorem X10_resolver_agrees_with_is_active_for_date
    (today : date) (table : list PenaltyRule.t) (s : Z) (pt : PenaltyType)
    (as_of : option date) :
  let dd := match as_of with Some x => x | None => today end in
  match PenaltyRuleService.get_applicable_penalty_rules today table s pt as_of
  with
  | Some r =>
      In r table /\ PenaltyRule.stokvel r = s
      /\ PenaltyRule.penalty_type r = pt
      /\ PenaltyRule.is_active_for_date r dd = true
  | None =>
      forall r, In r table -> PenaltyRule.stokvel r = s ->
                PenaltyRule.penalty_type r = pt ->
                PenaltyRule.is_active_for_date r dd = false
  end.
Proof.
  intros dd. rewrite resolver_as_find. fold dd.
  assert (Hsplit : forall r, Spec.rule_matches s pt dd r = true ->
             In r table ->
             In r table /\ PenaltyRule.stokvel r = s
             /\ PenaltyRule.penalty_type r = pt
             /\ PenaltyRule.is_active_for_date r dd = true).
  { intros r Hm Hin. rewrite rule_matches_active_for_date in Hm.
    apply andb_true_iff in Hm. destruct Hm as [Hm Hact].
    apply andb_true_iff in Hm. destruct Hm as [Hs Hpt].
    apply Z.eqb_eq in Hs. apply PenaltyType_eqb_eq in Hpt.
    repeat split; assumption. }
  destruct (find (Spec.closed_match s pt dd) table) as [ rc | ] eqn:Ec.
  - apply find_some in Ec. destruct Ec as [Hin Hc].
    unfold Spec.closed_match in Hc. apply andb_true_iff in Hc.
    apply Hsplit; [ apply Hc | exact Hin ].
  - destruct (find (Spec.open_match s pt dd) table) as [ ro | ] eqn:Eo.
    + apply find_some in Eo. destruct Eo as [Hin Ho].
      unfold Spec.open_match in Ho. apply andb_true_iff in Ho.
      apply Hsplit; [ apply Ho | exact Hin ].
    + intros r Hin Hs Hpt.
      pose proof (find_none _ _ Ec r Hin) as Hc.
      pose proof (find_none _ _ Eo r Hin) as Ho.
      assert (Hm : Spec.rule_matches s pt dd r = false)
        by (rewrite match_split, Hc, Ho; reflexivity).
      rewrite rule_matches_active_for_date in Hm.
      apply Z.eqb_eq in Hs. apply PenaltyType_eqb_eq in Hpt.
      rewrite Hs, Hpt in Hm. exact Hm.
Qed.

End ActiveForDateFacts.

(* ------------------------------------------------------------------ *)
(** ** Reading and deactivating contribution rules *)

Section ContributionRuleQueryFacts.

Import ContributionRule ContributionRuleQueries.

Lemma contribution_rule_active_for_date_spec (r : t) (dd : date) :
  is_active_for_date r dd
  = is_active r
    && date_leb (effective_from r) dd
    && match effective_until r with
       | Some u => date_leb dd u
       | None => true
       end.
Proof.
  unfold is_active_for_date.
  rewrite (date_ltb_negb_leb dd).
  destruct (is_active r); cbn [negb andb]; [ | reflexivity ].
  destruct (date_leb (effective_from r) dd); cbn [negb andb];
    [ | reflexivity ].
  destruct (effective_until r) as [ u | ]; [ | reflexivity ].
  rewrite (date_ltb_negb_leb u). destruct (date_leb dd u); reflexivity.
Qed.

Lemma insert_perm (r : t) (l : list t) :
  Permutation (insert_by_effective_from_desc r l) (r :: l).
Proof.
  induction l as [ | x rest IH ]; cbn; [ apply Permutation_refl | ].
  destruct (date_leb (effective_from x) (effective_from r)).
  - apply Permutation_refl.
  - eapply Permutation_trans; [ apply perm_skip; exact IH | apply perm_swap ].
Qed.

Lemma order_perm (l : list t) :
  Permutation (order_by_effective_from_desc l) l.
Proof.
  induction l as [ | x rest IH ]; cbn; [ apply Permutation_refl | ].
  eapply Permutation_trans; [ apply insert_perm | ].
  apply perm_skip. exact IH.
Qed.

Lemma insert_sorted (r : t) (l : list t) :
  StronglySorted from_desc l ->
  StronglySorted from_desc (insert_by_effective_from_desc r l).
Proof.
  induction l as [ | x rest IH ]; intros Hs; cbn.
  - constructor; [ constructor | constructor ].
  - inversion Hs as [ | ? ? Hrest Hall ]; subst.
    destruct (date_leb (effective_from x) (effective_from r)) eqn:E.
    + constructor; [ exact Hs | ].
      constructor; [ exact E | ].
      rewrite Forall_forall in *. intros y Hy.
      unfold from_desc in *.
      eapply date_leb_trans; [ apply Hall; exact Hy | exact E ].
    + constructor; [ apply IH; exact Hrest | ].
      rewrite Forall_forall in *. intros y Hy.
      apply (Permutation_in _ (insert_perm r rest)) in Hy.
      destruct Hy as [ <- | Hy ].
      * unfold from_desc. apply date_leb_false_flip. exact E.
      * apply Hall. exact Hy.
Qed.

Lemma order_sorted (l : list t) :
  StronglySorted from_desc (order_by_effective_from_desc l).
Proof.
  induction l as [ | x rest IH ]; cbn; [ constructor | ].
  apply insert_sorted. exact IH.
Qed.

End ContributionRuleQueryFacts.

Section ContributionRuleServiceFacts.

Import ContributionRule ContributionRuleQueries ContributionRuleService.

Lemma active_query_spec (s : Z) (dd : date) (r : t) :
  ((stokvel r =? s) && Bool.eqb (is_active r) true
   && Django.lte (effective_from r) dd
   && Django.gte_null (effective_until r) dd)
  || ((stokvel r =? s) && Bool.eqb (is_active r) true
      && Django.lte (effective_from r) dd
      && Django.isnull (effective_until r))
  = (stokvel r =? s) && is_active_for_date r dd.
Proof.
  rewrite contribution_rule_active_for_date_spec, eqb_true_r.
  unfold Django.lte, Django.gte_null, Django.isnull.
  destruct (stokvel r =? s), (is_active r),
    (date_leb (effective_from r) dd), (effective_until r) as [ u | ];
    cbn; rewrite ?orb_false_r; reflexivity.
Qed.

Lemma active_rules_perm (today : date) (table : list t) (s : Z)
    (as_of : option date) :
  Permutation (get_active_contribution_rules today table s as_of)
    (filter (fun r => (stokvel r =? s)
                      && is_active_for_date r
                           match as_of with Some x => x | None => today end)
            table).
Proof.
  unfold get_active_contribution_rules.
  eapply Permutation_trans; [ apply order_perm | ].
  rewrite (filter_ext _ _ (active_query_spec s _)).
  apply Permutation_refl.
Qed.

Lemma active_rules_in (today : date) (table : list t) (s : Z)
    (as_of : option date) (r : t) :
  In r (get_active_contribution_rules today table s as_of) <->
  In r table /\ stokvel r = s
  /\ is_active_for_date r match as_of with Some x => x | None => today end
     = true.
Proof.
  pose proof (active_rules_perm today table s as_of) as Hperm.
  split.
  - intros Hin. apply (Permutation_in _ Hperm) in Hin.
    apply filter_In in Hin. destruct Hin as [Hin Hp].
    apply andb_true_iff in Hp. destruct Hp as [Hs Ha].
    apply Z.eqb_eq in Hs. repeat split; assumption.
  - intros (Hin & Hs & Ha).
    apply (Permutation_in _ (Permutation_sym Hperm)).
    apply filter_In. split; [ exact Hin | ].
    apply Z.eqb_eq in Hs. rewrite Hs, Ha. reflexivity.
Qed.

(** X11: the active contribution rules of a stokvel on a date are exactly
    the rows of that stokvel that the model's [is_active_for_date]
    accepts, each as often as it is in the table (the union of the two
    querysets adds no duplicate), in descending order of
    effective_from. *)
Theorem X11_active_rules_are_the_rows_active_for_date
    (today : date) (table : list t) (s : Z) (as_of : option date) :
  let dd := match as_of with Some x => x | None => today end in
  let res := get_active_contribution_rules today table s as_of in
  Permutation res
    (filter (fun r => (stokvel r =? s) && is_active_for_date r dd) table)
  /\ (forall r, In r res <->
                In r table /\ stokvel r = s /\ is_active_for_date r dd = true)
  /\ StronglySorted from_desc res.
Proof.
  intros dd res.
  split; [ apply active_rules_perm | ].
  split; [ intros r; apply active_rules_in | ].
  apply order_sorted.
Qed.

Lemma in_save_at (pk : nat) (rule : t) (table : list t) (x : t) :
  In x (save_at pk rule table) ->
  x = rule \/ exists j, j <> pk /\ nth_error table j = Some x.
Proof.
  revert pk. induction table as [ | y rest IH ]; intros pk Hin.
  - cbn in Hin. destruct Hin as [ <- | [] ]. left. reflexivity.
  - destruct pk as [ | pk' ]; cbn in Hin.
    + destruct Hin as [ <- | Hin ]; [ left; reflexivity | ].
      right. apply In_nth_error in Hin. destruct Hin as [j Hj].
      exists (S j). split; [ discriminate | exact Hj ].
    + destruct Hin as [ <- | Hin ].
      * right. exists O. split; [ discriminate | reflexivity ].
      * destruct (IH pk' Hin) as [ -> | (j & Hne & Hj) ];
          [ left; reflexivity | ].
        right. exists (S j). split; [ congruence | exact Hj ].
Qed.

Lemma save_at_nth (pk : nat) (rule : t) (table : list t) :
  (pk < List.length table)%nat ->
  nth_error (save_at pk rule table) pk = Some rule
  /\ List.length (save_at pk rule table) = List.length table
  /\ (forall j, j <> pk ->
        nth_error (save_at pk rule table) j = nth_error table j).
Proof.
  revert pk. induction table as [ | y rest IH ]; intros pk Hlt.
  - cbn in Hlt. lia.
  - destruct pk as [ | pk' ]; cbn.
    + split; [ reflexivity | ]. split; [ reflexivity | ].
      intros [ | j ] Hne; [ congruence | reflexivity ].
    + cbn in Hlt. destruct (IH pk') as (H1 & H2 & H3); [ lia | ].
      split; [ exact H1 | ]. split; [ rewrite H2; reflexivity | ].
      intros [ | j ] Hne; [ reflexivity | ]. cbn. apply H3. congruence.
Qed.

(** X12: a deactivated rule is active on no date at all, the dates of its
    own effective interval included, and is never among the active rules
    again; the save replaces its row and leaves the others as they
    were. *)
Theorem X12_deactivated_rule_is_active_on_no_date
    (today : date) (table : list t) (pk : nat) (rule : t)
    (end_date : option date) :
  let rule' := fst (deactivate_rule today table pk rule end_date) in
  let table' := snd (deactivate_rule today table pk rule end_date) in
  (forall dd, is_active_for_date rule' dd = false)
  /\ (forall s as_of,
         ~ In rule' (get_active_contribution_rules today table' s as_of))
  /\ ((pk < List.length table)%nat ->
      nth_error table' pk = Some rule'
      /\ List.length table' = List.length table
      /\ (forall j, j <> pk -> nth_error table' j = nth_error table j)).
Proof.
  cbv zeta. unfold deactivate_rule. cbn [fst snd].
  set (rule' := mk _ _ _ _ _ _ _ false _ _).
  assert (Hinactive : forall dd, is_active_for_date rule' dd = false)
    by reflexivity.
  split; [ exact Hinactive | ]. split.
  - intros s as_of Hin.
    apply active_rules_in in Hin.
    destruct Hin as (_ & _ & Ha). rewrite Hinactive in Ha. discriminate Ha.
  - intros Hlt. apply save_at_nth. exact Hlt.
Qed.

End ContributionRuleServiceFacts.

Section DeactivateThenCreateFacts.

Import ContributionRule ContributionRuleQueries ContributionRuleService.

Lemma create_after_deactivate
    (today : date) (table : list t) (pk : nat) (rule : t)
    (end_date : option date) (s : Z) (name_ : string)
    (ctype : ContributionType) (amount_ : Q) (freq : Frequency)
    (from_ : option date) (until_ : date) (mand : bool) (desc : string) :
  (0 < amount_)%Q ->
  (forall j r', j <> pk -> nth_error table j = Some r' ->
                overlapping_rules [r'] s ctype until_
                  match from_ with Some x => x | None => today end = []) ->
  create_contribution_rule today
    (snd (deactivate_rule today table pk rule end_date))
    s name_ ctype amount_ freq from_ (Some until_) mand desc
  = Ok (mk s name_ ctype amount_ freq
           match from_ with Some x => x | None => today end
           (Some until_) true mand desc,
        snd (deactivate_rule today table pk rule end_date)
        ++ [mk s name_ ctype amount_ freq
               match from_ with Some x => x | None => today end
               (Some until_) true mand desc]).
Proof.
  intros Hpos Hothers.
  unfold create_contribution_rule. cbv zeta.
  rewrite positive_amount_passes by exact Hpos.
  cbn [Django.query_value bind].
  unfold overlapping_rules at 1.
  rewrite filter_none; [ reflexivity | ].
  intros x Hin. unfold deactivate_rule in Hin. cbn [snd] in Hin.
  apply in_save_at in Hin. destruct Hin as [ -> | (j & Hne & Hj) ].
  - cbn. rewrite !andb_false_r. reflexivity.
  - specialize (Hothers j x Hne Hj).
    unfold overlapping_rules in Hothers. cbn [filter] in Hothers.
    match goal with
    | |- ?p = false => destruct p; [ discriminate Hothers | reflexivity ]
    end.
Qed.

Lemma row_outside_is_not_selected (r' : t) (s : Z) (ctype : ContributionType)
    (until_ from : date) :
  stokvel r' <> s \/ contribution_type r' <> ctype \/ is_active r' = false
  \/ effective_until r' = None
  \/ date_ltb until_ (effective_from r') = true
  \/ (exists u, effective_until r' = Some u /\ date_ltb u from = true) ->
  overlapping_rules [r'] s ctype until_ from = [].
Proof.
  intros H. unfold overlapping_rules. apply filter_none.
  intros x [ <- | [] ].
  destruct H as [ H | [ H | [ H | [ H | [ H | (u & Hu & H) ] ] ] ] ].
  - apply Z.eqb_neq in H. rewrite H. reflexivity.
  - destruct (ContributionType_eqb (contribution_type r') ctype) eqn:E.
    + apply ContributionType_eqb_eq in E. contradiction.
    + rewrite andb_false_r. reflexivity.
  - rewrite H. cbn [Bool.eqb]. rewrite andb_false_r. reflexivity.
  - rewrite H. cbn [Django.gte_null]. rewrite andb_false_r. reflexivity.
  - unfold Django.lte. rewrite date_ltb_negb_leb in H.
    apply negb_true_iff in H. rewrite H.
    rewrite andb_false_r. reflexivity.
  - rewrite Hu. cbn [Django.gte_null]. rewrite date_ltb_negb_leb in H.
    apply negb_true_iff in H. rewrite H.
    rewrite andb_false_r. reflexivity.
Qed.

(** X13: once a rule is deactivated it no longer blocks the creation of
    a rule that has an end date: with a positive amount, if every other
    row is of another stokvel or category, or inactive, or without end
    date, or starts after the candidate's last day, or ends before its
    first day, creation on the table after [deactivate_rule] succeeds and
    appends the new rule.  A candidate without end date is not helped by
    the deactivation: its creation raises [ValueError], whatever the
    table holds. *)
Theorem X13_create_succeeds_after_deactivating_the_conflict
    (today : date) (table : list t) (pk : nat) (rule : t)
    (end_date : option date) (s : Z) (name_ : string)
    (ctype : ContributionType) (amount_ : Q) (freq : Frequency)
    (from_ : option date) (mand : bool) (desc : string) :
  (0 < amount_)%Q ->
  let from := match from_ with Some x => x | None => today end in
  let table' := snd (deactivate_rule today table pk rule end_date) in
  (forall until_,
      (forall j r', j <> pk -> nth_error table j = Some r' ->
         stokvel r' <> s \/ contribution_type r' <> ctype
         \/ is_active r' = false
         \/ effective_until r' = None
         \/ date_ltb until_ (effective_from r') = true
         \/ (exists u, effective_until r' = Some u
                       /\ date_ltb u from = true)) ->
      create_contribution_rule today table' s name_ ctype amount_ freq from_
        (Some until_) mand desc
      = Ok (mk s name_ ctype amount_ freq from (Some until_) true mand desc,
            table'
            ++ [mk s name_ ctype amount_ freq from (Some until_) true mand
                   desc]))
  /\ create_contribution_rule today table' s name_ ctype amount_ freq from_
       None mand desc
     = Raise (ValueError "Cannot use None as a query value").
Proof.
  intros Hpos. cbv zeta. split.
  - intros until_ Hothers.
    apply create_after_deactivate; [ exact Hpos | ].
    intros j r' Hne Hj. apply row_outside_is_not_selected.
    exact (Hothers j r' Hne Hj).
  - unfold create_contribution_rule. cbv zeta.
    rewrite positive_amount_passes by exact Hpos. reflexivity.
Qed.

Lemma X13_create_after_deactivate_witness :
  create_regular (d 2025 1 1) [rule_A; rule_B] "D" (d 2025 6 1)
                 (Some (d 2025 9 30))
  = Raise (ValidationError (overlap_message regular))
  /\ (exists rule table',
         create_regular (d 2025 1 1)
           (snd (deactivate_rule (d 2025 1 1) [rule_A; rule_B] 0 rule_A None))
           "D" (d 2025 6 1) (Some (d 2025 9 30))
         = Ok (rule, table'))
  /\ create_regular (d 2025 1 1)
       (snd (deactivate_rule (d 2025 1 1) [rule_A; rule_B] 0 rule_A None))
       "D" (d 2025 6 1) None
     = Raise (ValueError "Cannot use None as a query value").
Proof.
  split; [ reflexivity | ].
  pose proof (X13_create_succeeds_after_deactivating_the_conflict
                (d 2025 1 1) [rule_A; rule_B] 0 rule_A None 1 "D" regular
                200 monthly (Some (d 2025 6 1)) true "" eq_refl) as H.
  cbv zeta in H. destruct H as [Hclosed Hopen].
  split; [ | exact Hopen ].
  eexists. eexists. unfold create_regular.
  apply Hclosed.
  intros [ | [ | [ | j ] ] ] r' Hne Hj; cbn in Hj; try congruence.
  injection Hj as <-. right. right. right. left. reflexivity.
Defined.

End DeactivateThenCreateFacts.

(* ------------------------------------------------------------------ *)
(** ** Creating penalty rules *)

Section CreatePenaltyRuleFacts.

Import PenaltyRule PenaltyRuleService.

Lemma find_snoc {A : Type} (f : A -> bool) (l : list A) (x : A) :
  find f (l ++ [x])
  = match find f l with
    | Some y => Some y
    | None => if f x then Some x else None
    end.
Proof.
  induction l as [ | a l IH ]; cbn; [ reflexivity | ].
  destruct (f a); [ reflexivity | exact IH ].
Qed.

Lemma create_penalty_rule_ok_inv (today : date) (table : list t) (s : Z)
    (name_ : string) (pt : PenaltyType) (method : CalculationMethod)
    (amount_ : Q) (grace : Z) (maximum : option Q) (from_ : option date)
    (desc : string) (rule : t) (table' : list t) :
  create_penalty_rule today table s name_ pt method amount_ grace maximum
    from_ desc = Ok (rule, table') ->
  rule = mk s name_ pt method amount_ grace maximum
            match from_ with Some x => x | None => today end
            None true desc
  /\ table' = table ++ [rule]
  /\ (method = percentage -> (amount_ <= 100)%Q)
  /\ (0 <= amount_)%Q
  /\ filter (fun r => (stokvel r =? s)
                      && PenaltyType_eqb (penalty_type r) pt
                      && Bool.eqb (is_active r) true
                      && Django.lte (effective_from r) today
                      && Django.gte_null (effective_until r) today)
            table = [].
Proof.
  unfold create_penalty_rule. cbv zeta.
  destruct ((match method with percentage => true | _ => false end)
            && Dec.ltb 100 amount_) eqn:Epct; [ discriminate | ].
  destruct (Dec.ltb amount_ 0) eqn:Eneg; [ discriminate | ].
  unfold Django.first.
  match goal with
  | |- context [hd_error ?l] => destruct l eqn:Ef
  end; cbn [hd_error]; [ | discriminate ].
  intros H. injection H as <- <-.
  split; [ reflexivity | ]. split; [ reflexivity | ].
  split; [ | split; [ | reflexivity ] ].
  - intros ->. cbn [andb] in Epct.
    unfold Dec.ltb in Epct. apply negb_false_iff, Qle_bool_iff in Epct.
    exact Epct.
  - unfold Dec.ltb in Eneg. apply negb_false_iff, Qle_bool_iff in Eneg.
    exact Eneg.
Qed.

(** X14: [create_penalty_rule] refuses a percentage above 100 and a
    negative amount with a [ValidationError]; a rule it does create is
    appended to the table, is active, has no end date, starts on the given
    date (today when none is given) and has an amount that is not negative
    and, for the percentage method, at most 100. *)
Theorem X14_create_penalty_rule_validates_amount
    (today : date) (table : list t) (s : Z) (name_ : string)
    (pt : PenaltyType) (method : CalculationMethod) (amount_ : Q)
    (grace : Z) (maximum : option Q) (from_ : option date) (desc : string) :
  let res := create_penalty_rule today table s name_ pt method amount_ grace
               maximum from_ desc in
  (method = percentage -> (100 < amount_)%Q ->
   res = Raise (ValidationError "Percentage penalty cannot exceed 100%"))
  /\ ((amount_ < 0)%Q ->
      res = Raise (ValidationError "Penalty amount cannot be negative"))
  /\ (forall rule table',
         res = Ok (rule, table') ->
         table' = table ++ [rule]
         /\ is_active rule = true /\ effective_until rule = None
         /\ effective_from rule
            = match from_ with Some x => x | None => today end
         /\ (0 <= amount rule)%Q
         /\ (calculation_method rule = percentage -> (amount rule <= 100)%Q)).
Proof.
  cbv zeta. split; [ | split ].
  - intros -> Hgt. unfold create_penalty_rule. cbv zeta.
    rewrite (lt_ltb _ _ Hgt). reflexivity.
  - intros Hneg. unfold create_penalty_rule. cbv zeta.
    replace (Dec.ltb 100 amount_) with false.
    + rewrite andb_false_r. rewrite (lt_ltb _ _ Hneg). reflexivity.
    + symmetry. unfold Dec.ltb. apply negb_false_iff, Qle_bool_iff.
      apply Qlt_le_weak. eapply Qlt_trans; [ exact Hneg | reflexivity ].
  - intros rule table' Hok.
    apply create_penalty_rule_ok_inv in Hok.
    destruct Hok as (-> & -> & Hpct & Hnn & _).
    cbn. repeat split; assumption.
Qed.

Lemma X14_create_penalty_rule_witness :
  create_penalty_rule (d 2025 1 1) [] 1 "Late" late_payment percentage 150 0
    None None ""
  = Raise (ValidationError "Percentage penalty cannot exceed 100%")
  /\ create_penalty_rule (d 2025 1 1) [] 1 "Late" late_payment fixed (-5) 0
       None None ""
     = Raise (ValidationError "Penalty amount cannot be negative").
Proof.
  split.
  - refine (proj1 (X14_create_penalty_rule_validates_amount
                     _ _ _ _ _ _ _ _ _ _ _) _ _); reflexivity.
  - refine (proj1 (proj2 (X14_create_penalty_rule_validates_amount
                            _ _ _ _ _ _ _ _ _ _ _)) _); reflexivity.
Defined.

(** X15: an open-ended rule never stands in the way of another one: when
    [create_penalty_rule] has succeeded, the same call on the resulting
    table succeeds again, leaving two active open-ended rules of the same
    stokvel and penalty type. *)
Theorem X15_create_penalty_rule_succeeds_twice
    (today : date) (table : list t) (s : Z) (name_ : string)
    (pt : PenaltyType) (method : CalculationMethod) (amount_ : Q)
    (grace : Z) (maximum : option Q) (from_ : option date) (desc : string)
    (rule : t) (table' : list t) :
  create_penalty_rule today table s name_ pt method amount_ grace maximum
    from_ desc = Ok (rule, table') ->
  create_penalty_rule today table' s name_ pt method amount_ grace maximum
    from_ desc = Ok (rule, table ++ [rule; rule]).
Proof.
  intros Hok. apply create_penalty_rule_ok_inv in Hok.
  destruct Hok as (-> & -> & Hpct & Hnn & Hnone).
  unfold create_penalty_rule. cbv zeta.
  replace ((match method with percentage => true | _ => false end)
           && Dec.ltb 100 amount_) with false.
  - replace (Dec.ltb amount_ 0) with false
      by (symmetry; unfold Dec.ltb; apply negb_false_iff, Qle_bool_iff;
          exact Hnn).
    rewrite filter_app, Hnone. cbn [app filter effective_until Django.gte_null].
    rewrite !andb_false_r. cbn [Django.first hd_error].
    rewrite <- app_assoc. reflexivity.
  - symmetry. destruct method; try reflexivity. cbn [andb].
    unfold Dec.ltb. apply negb_false_iff, Qle_bool_iff. apply Hpct.
    reflexivity.
Qed.

Lemma X15_create_twice_witness :
  create_penalty_rule (d 2025 1 1)
    ([open_rule]
     ++ [PenaltyRule.mk 1 "Late" late_payment fixed 20 0 None (d 2025 1 1)
           None true ""])
    1 "Late" late_payment fixed 20 0 None None ""
  = Ok (PenaltyRule.mk 1 "Late" late_payment fixed 20 0 None (d 2025 1 1)
          None true "",
        [open_rule]
        ++ [PenaltyRule.mk 1 "Late" late_payment fixed 20 0 None (d 2025 1 1)
              None true "";
            PenaltyRule.mk 1 "Late" late_payment fixed 20 0 None (d 2025 1 1)
              None true ""]).
Proof.
  apply (X15_create_penalty_rule_succeeds_twice
           (d 2025 1 1) [open_rule] 1 "Late"%string late_payment fixed 20%Q 0
           None None ""%string).
  reflexivity.
Defined.

End CreatePenaltyRuleFacts.

Section CreateThenResolveFacts.

Import PenaltyRule PenaltyRuleService.

Lemma filter_permutation {A : Type} (f : A -> bool) (l l' : list A) :
  Permutation l l' -> Permutation (filter f l) (filter f l').
Proof.
  induction 1 as [ | x l l' _ IH | x y l | l l' l'' _ IH1 _ IH2 ]; cbn.
  - constructor.
  - destruct (f x); [ constructor | ]; exact IH.
  - destruct (f x), (f y); try apply Permutation_refl.
    apply perm_swap.
  - exact (Permutation_trans IH1 IH2).
Qed.

Lemma resolver_as_first today table s pt dd :
  get_applicable_penalty_rules today table s pt (Some dd)
  = match Django.first (filter (Spec.closed_match s pt dd) table) with
    | Some r => Some r
    | None => Django.first (filter (Spec.open_match s pt dd) table)
    end.
Proof.
  unfold get_applicable_penalty_rules.
  rewrite closed_rules_for_spec, open_rules_for_spec. reflexivity.
Qed.

Lemma find_none_filter {A : Type} (f : A -> bool) (l : list A) :
  find f l = None -> filter f l = [].
Proof.
  intros H. apply filter_none. intros x Hin.
  exact (find_none f l H x Hin).
Qed.

(** X16: a rule created through the service never displaces a rule that
    has an end date, in whatever order the database yields the rows: on a
    date on which a rule of the stokvel and type with an end date was
    active before the creation, the resolver returns such a rule of the
    old table, never the new one; on a date for which it found no rule
    before, it returns the new rule from its effective_from on and
    nothing before. *)
Theorem X16_created_rule_never_displaces_a_rule_with_end_date
    (today : date) (table : list t) (s : Z) (name_ : string)
    (pt : PenaltyType) (method : CalculationMethod) (amount_ : Q)
    (grace : Z) (maximum : option Q) (from_ : option date) (desc : string)
    (rule : t) (table' stored : list t) (dd : date) :
  create_penalty_rule today table s name_ pt method amount_ grace maximum
    from_ desc = Ok (rule, table') ->
  Permutation stored table' ->
  ((exists r0, In r0 table /\ stokvel r0 = s /\ penalty_type r0 = pt
               /\ effective_until r0 <> None
               /\ is_active_for_date r0 dd = true) ->
   exists r, get_applicable_penalty_rules today stored s pt (Some dd) = Some r
             /\ In r table /\ stokvel r = s /\ penalty_type r = pt
             /\ effective_until r <> None
             /\ is_active_for_date r dd = true
             /\ r <> rule)
  /\ (get_applicable_penalty_rules today table s pt (Some dd) = None ->
      get_applicable_penalty_rules today stored s pt (Some dd)
      = if date_leb (effective_from rule) dd then Some rule else None).
Proof.
  intros Hok Hperm. apply create_penalty_rule_ok_inv in Hok.
  destruct Hok as (Hrule & -> & _ & _ & _).
  assert (Huntil : effective_until rule = None) by (rewrite Hrule; reflexivity).
  assert (Hclosed : Spec.closed_match s pt dd rule = false).
  { unfold Spec.closed_match. rewrite Huntil. cbn. apply andb_false_r. }
  assert (Hopen : Spec.open_match s pt dd rule
                  = date_leb (effective_from rule) dd).
  { rewrite Hrule. unfold Spec.open_match, Spec.rule_matches. cbn.
    rewrite Z.eqb_refl.
    replace (PenaltyType_eqb pt pt) with true
      by (symmetry; apply PenaltyType_eqb_eq; reflexivity).
    cbn. rewrite !andb_true_r. reflexivity. }
  pose proof (filter_permutation (Spec.closed_match s pt dd) _ _ Hperm)
    as Hpc.
  pose proof (filter_permutation (Spec.open_match s pt dd) _ _ Hperm)
    as Hpo.
  rewrite filter_app in Hpc, Hpo. cbn [filter] in Hpc, Hpo.
  rewrite Hclosed, app_nil_r in Hpc. rewrite Hopen in Hpo.
  rewrite (resolver_as_first today stored).
  split.
  - intros (r0 & Hin0 & Hs0 & Hpt0 & Hu0 & Ha0).
    assert (Hin : In r0 (filter (Spec.closed_match s pt dd) table)).
    { apply filter_In. split; [ exact Hin0 | ].
      unfold Spec.closed_match. rewrite rule_matches_active_for_date.
      rewrite Ha0, Hpt0, Hs0, Z.eqb_refl.
      replace (PenaltyType_eqb pt pt) with true
        by (symmetry; apply PenaltyType_eqb_eq; reflexivity).
      destruct (effective_until r0); [ reflexivity | contradiction ]. }
    apply (Permutation_in _ (Permutation_sym Hpc)) in Hin.
    destruct (filter (Spec.closed_match s pt dd) stored) as [ | r rest ] eqn:Ef;
      [ destruct Hin | ].
    cbn [Django.first hd_error]. exists r. split; [ reflexivity | ].
    assert (Hr : In r (filter (Spec.closed_match s pt dd) table))
      by (apply (Permutation_in _ Hpc); left; reflexivity).
    apply filter_In in Hr. destruct Hr as [Hrin Hm].
    unfold Spec.closed_match in Hm. rewrite rule_matches_active_for_date in Hm.
    apply andb_true_iff in Hm. destruct Hm as [Hm Hnn].
    apply andb_true_iff in Hm. destruct Hm as [Hm Hact].
    apply andb_true_iff in Hm. destruct Hm as [Hs Hpt].
    apply Z.eqb_eq in Hs. apply PenaltyType_eqb_eq in Hpt.
    assert (Hu : effective_until r <> None).
    { intros Hnone. rewrite Hnone in Hnn. discriminate Hnn. }
    repeat (split; [ assumption | ]).
    intros ->. contradiction.
  - intros Hnone. rewrite resolver_as_first, !first_filter_find in Hnone.
    destruct (find (Spec.closed_match s pt dd) table) eqn:Efc;
      [ discriminate Hnone | ].
    apply find_none_filter in Efc. apply find_none_filter in Hnone.
    rewrite Efc in Hpc. rewrite Hnone in Hpo. cbn [app] in Hpo.
    rewrite (Permutation_nil (Permutation_sym Hpc)).
    cbn [Django.first hd_error].
    destruct (date_leb (effective_from rule) dd).
    + rewrite (Permutation_length_1_inv (Permutation_sym Hpo)). reflexivity.
    + rewrite (Permutation_nil (Permutation_sym Hpo)). reflexivity.
Qed.

Lemma X16_created_rule_witness :
  let new := PenaltyRule.mk 1 "Late" late_payment fixed 20 0 None
               (d 2025 6 1) None true "" in
  create_penalty_rule (d 2026 1 15) [closed_rule] 1 "Late" late_payment fixed
    20 0 None (Some (d 2025 6 1)) ""
  = Ok (new, [closed_rule; new])
  /\ is_active_for_date new (d 2025 7 1) = true
  /\ exists r,
       get_applicable_penalty_rules (d 2026 1 15) [new; closed_rule] 1
         late_payment (Some (d 2025 7 1)) = Some r
       /\ r <> new.
Proof.
  cbv zeta. split; [ reflexivity | ]. split; [ reflexivity | ].
  set (new := PenaltyRule.mk 1 "Late" late_payment fixed 20 0 None
                (d 2025 6 1) None true "").
  destruct (proj1 (X16_created_rule_never_displaces_a_rule_with_end_date
                     (d 2026 1 15) [closed_rule] 1 "Late" late_payment fixed
                     20 0 None (Some (d 2025 6 1)) "" new [closed_rule; new]
                     [new; closed_rule] (d 2025 7 1) eq_refl
                     (perm_swap closed_rule new [])))
    as (r & Hr & _ & _ & _ & _ & _ & Hne).
  - exists closed_rule. split; [ left; reflexivity | ].
    repeat (split; [ reflexivity | ]).
    split; [ discriminate | reflexivity ].
  - exists r. split; [ exact Hr | exact Hne ].
Defined.

End CreateThenResolveFacts.

(* ------------------------------------------------------------------ *)
(** ** Cycles *)

Section CycleFacts.

Import StokvelCycle CycleService.

Lemma cycle_pk_below_next_pk (table : list t) (r : t) :
  In r table -> pk r < next_pk table.
Proof.
  unfold next_pk. induction table as [ | x rest IH ]; intros Hin.
  - contradiction.
  - cbn [fold_right]. destruct Hin as [ -> | Hin ]; [ lia | ].
    specialize (IH Hin). lia.
Qed.

Lemma cycle_save_fresh (table : list t) (a : t) :
  (forall r, In r table -> pk r <> pk a) -> save table a = table ++ [a].
Proof.
  induction table as [ | x rest IH ]; intros Hfresh; cbn; [ reflexivity | ].
  replace (pk x =? pk a) with false
    by (symmetry; apply Z.eqb_neq; apply Hfresh; left; reflexivity).
  f_equal. apply IH. intros r Hin. apply Hfresh. right. exact Hin.
Qed.

Lemma ForallOrdPairs_snoc {A : Type} (R : A -> A -> Prop) (l : list A)
    (x : A) :
  ForallOrdPairs R l -> Forall (fun a => R a x) l ->
  ForallOrdPairs R (l ++ [x]).
Proof.
  induction 1 as [ | a l Ha Hl IH ]; intros Hall; cbn.
  - constructor; [ constructor | constructor ].
  - inversion Hall as [ | ? ? Hax Hrest ]; subst.
    constructor; [ | apply IH; exact Hrest ].
    apply Forall_app. split; [ exact Ha | ].
    constructor; [ exact Hax | constructor ].
Qed.

Lemma create_cycle_ok_iff (today : date) (cycles : list t)
    (rules : list ContributionRule.t) (members : list Finances.Member)
    (s : Z) (name_ : string) (start_ end_ : date) (desc : string) :
  (exists cycle cycles',
      create_cycle today cycles rules members s name_ start_ end_ desc
      = Ok (cycle, cycles'))
  <-> (date_ltb start_ end_ = true /\ date_leb today start_ = true
       /\ forall c, In c cycles -> stokvel c = s ->
                    date_leb (end_date c) start_ = true
                    \/ date_leb end_ (start_date c) = true).
Proof.
  unfold create_cycle.
  rewrite (date_ltb_negb_leb start_ end_), (date_ltb_negb_leb start_ today).
  destruct (date_leb end_ start_) eqn:E1; cbn [negb].
  - split; [ intros (? & ? & H); discriminate H | ].
    intros (H & _). discriminate H.
  - destruct (date_leb today start_) eqn:E2; cbn [negb].
    + match goal with
      | |- context [Django.exists_ ?l] =>
          destruct (Django.exists_ l) eqn:Eov
      end.
      * split; [ intros (? & ? & H); discriminate H | ].
        intros (_ & _ & Hall). exfalso.
        match type of Eov with
        | Django.exists_ ?l = true => destruct l as [ | c l' ] eqn:Ef
        end; [ discriminate Eov | ].
        assert (Hin : In c (c :: l')) by (left; reflexivity).
        rewrite <- Ef in Hin. apply filter_In in Hin.
        destruct Hin as [Hin Hp].
        apply andb_true_iff in Hp. destruct Hp as [Hp Hlt2].
        apply andb_true_iff in Hp. destruct Hp as [Hs Hlt1].
        apply Z.eqb_eq in Hs.
        rewrite date_ltb_negb_leb in Hlt1, Hlt2.
        apply negb_true_iff in Hlt1. apply negb_true_iff in Hlt2.
        destruct (Hall c Hin Hs); congruence.
      * split; [ | intros _; eexists; eexists; reflexivity ].
        intros _. split; [ reflexivity | ]. split; [ reflexivity | ].
        intros c Hin Hs.
        match type of Eov with
        | Django.exists_ (filter ?f _) = false =>
            assert (Hp : f c = false)
        end.
        { match type of Eov with
          | Django.exists_ ?l = false => destruct l eqn:Ef
          end; [ | discriminate Eov ].
          destruct (_ && _ && _) eqn:Ep in |- *; [ | reflexivity ].
          assert (Hin' : In c []); [ | contradiction ].
          rewrite <- Ef. apply filter_In. split; assumption. }
        cbv beta in Hp. apply Z.eqb_eq in Hs. rewrite Hs in Hp.
        cbn [andb] in Hp. rewrite !date_ltb_negb_leb in Hp.
        destruct (date_leb (end_date c) start_);
          destruct (date_leb end_ (start_date c)); cbn in Hp;
          try discriminate Hp; auto.
    + split; [ intros (? & ? & H); discriminate H | ].
      intros (_ & H & _). discriminate H.
Qed.

(** X17: [create_cycle] succeeds exactly when the start date is before
    the end date and not in the past, and every existing cycle of the
    stokvel ends on or before the new start or starts on or after the new
    end (a shared boundary day is accepted; the status of the existing
    cycle plays no part). *)
Theorem X17_create_cycle_succeeds_iff_dates_fit
    (today : date) (cycles : list t) (rules : list ContributionRule.t)
    (members : list Finances.Member) (s : Z) (name_ : string)
    (start_ end_ : date) (desc : string) :
  (exists cycle cycles',
      create_cycle today cycles rules members s name_ start_ end_ desc
      = Ok (cycle, cycles'))
  <-> (date_ltb start_ end_ = true /\ date_leb today start_ = true
       /\ forall c, In c cycles -> stokvel c = s ->
                    date_leb (end_date c) start_ = true
                    \/ date_leb end_ (start_date c) = true).
Proof. apply create_cycle_ok_iff. Qed.

End CycleFacts.

Section CycleInvariantFacts.

Import StokvelCycle CycleService.

Lemma create_cycle_ok_inv (today : date) (cycles : list t)
    (rules : list ContributionRule.t) (members : list Finances.Member)
    (s : Z) (name_ : string) (start_ end_ : date) (desc : string)
    (cycle : t) (cycles' : list t) :
  create_cycle today cycles rules members s name_ start_ end_ desc
  = Ok (cycle, cycles') ->
  pk cycle = next_pk cycles /\ stokvel cycle = s
  /\ start_date cycle = start_ /\ end_date cycle = end_
  /\ status cycle = cy_planned
  /\ cycles' = cycles ++ [cycle]
  /\ (expected_total_contributions cycle
      == Dec.sum (map ContributionRule.amount
                      (regular_rules today rules s start_))
         * inject_Z (duration_months cycle)
         * inject_Z (Z.of_nat
                       (List.length
                          (filter (fun m =>
                                     (Finances.member_stokvel m =? s)
                                     && match Finances.status m with
                                        | ms_active => true
                                        | _ => false
                                        end)
                                  members))))%Q.
Proof.
  unfold create_cycle.
  destruct (date_leb end_ start_); [ discriminate | ].
  destruct (date_ltb start_ today); [ discriminate | ].
  destruct (Django.exists_ (filter _ cycles)); [ discriminate | ].
  cbv zeta. intros H. injection H as <- <-.
  cbn [pk stokvel start_date end_date status expected_total_contributions].
  repeat (split; [ reflexivity | ]).
  split.
  - apply cycle_save_fresh. intros r Hin.
    pose proof (cycle_pk_below_next_pk cycles r Hin). cbn [pk]. lia.
  - unfold duration_months. cbn [start_date end_date].
    replace ((year end_ - year start_) * 12 + (month end_ - month start_))
      with ((year end_ - year start_) * 12 + month end_ - month start_)
      by lia.
    destruct (regular_rules today rules s start_) as [ | r l ];
      cbn [Django.exists_].
    + cbn [map]. unfold Dec.sum. cbn [fold_left]. ring.
    + reflexivity.
Qed.

(** X18: [create_cycle] keeps the cycles of every stokvel apart: if no
    two cycles of one stokvel shared a day (a boundary day apart) before,
    none do after a successful creation, which appends the new cycle, in
    status planned and under a fresh primary key. *)
Theorem X18_create_cycle_keeps_cycles_apart
    (today : date) (cycles : list t) (rules : list ContributionRule.t)
    (members : list Finances.Member) (s : Z) (name_ : string)
    (start_ end_ : date) (desc : string) (cycle : t) (cycles' : list t) :
  ForallOrdPairs apart_in_stokvel cycles ->
  create_cycle today cycles rules members s name_ start_ end_ desc
  = Ok (cycle, cycles') ->
  cycles' = cycles ++ [cycle]
  /\ ForallOrdPairs apart_in_stokvel cycles'
  /\ status cycle = cy_planned
  /\ (forall c, In c cycles -> pk c <> pk cycle).
Proof.
  intros Hinv Hok.
  assert (Hfit : exists c cs,
             create_cycle today cycles rules members s name_ start_ end_ desc
             = Ok (c, cs)) by (eexists; eexists; exact Hok).
  apply create_cycle_ok_iff in Hfit. destruct Hfit as (_ & _ & Hall).
  apply create_cycle_ok_inv in Hok.
  destruct Hok as (Hpk & Hs & Hst & Hen & Hstatus & -> & _).
  split; [ reflexivity | ]. split; [ | split; [ exact Hstatus | ] ].
  - apply ForallOrdPairs_snoc; [ exact Hinv | ].
    apply Forall_forall. intros c Hin Hsame.
    unfold apart. rewrite Hst, Hen. apply Hall; [ exact Hin | ].
    rewrite Hsame. exact Hs.
  - intros c Hin. pose proof (cycle_pk_below_next_pk cycles c Hin). lia.
Qed.

Lemma X18_create_cycle_witness :
  let old := mk 1 1 "2025" (d 2025 1 1) (d 2025 12 31) 0 cy_active "" in
  let new := mk 2 1 "2026" (d 2025 12 31) (d 2026 12 31) 0 cy_planned "" in
  create_cycle (d 2025 6 1) [old] [] [] 1 "2026" (d 2025 12 31)
               (d 2026 12 31) ""
  = Ok (new, [old; new])
  /\ ForallOrdPairs apart_in_stokvel [old; new].
Proof.
  cbv zeta. split; [ reflexivity | ].
  set (old := mk 1 1 "2025" (d 2025 1 1) (d 2025 12 31) 0 cy_active "").
  set (new := mk 2 1 "2026" (d 2025 12 31) (d 2026 12 31) 0 cy_planned "").
  refine (proj1 (proj2 (X18_create_cycle_keeps_cycles_apart
                          (d 2025 6 1) [old] [] [] 1 "2026" (d 2025 12 31)
                          (d 2026 12 31) "" new [old; new] _ eq_refl))).
  constructor; constructor.
Defined.

(** X19: the expected total of a created cycle is the sum of the regular
    rules active on its start date times its [duration_months] times the
    active members of the stokvel; so a cycle that starts and ends within
    one calendar month expects nothing, whatever the rules and members. *)
Theorem X19_cycle_within_one_month_expects_nothing
    (today : date) (cycles : list t) (rules : list ContributionRule.t)
    (members : list Finances.Member) (s : Z) (name_ : string)
    (start_ end_ : date) (desc : string) (cycle : t) (cycles' : list t) :
  create_cycle today cycles rules members s name_ start_ end_ desc
  = Ok (cycle, cycles') ->
  (expected_total_contributions cycle
   == Dec.sum (map ContributionRule.amount
                   (regular_rules today rules s start_))
      * inject_Z (duration_months cycle)
      * inject_Z (Z.of_nat
                    (List.length
                       (filter (fun m =>
                                  (Finances.member_stokvel m =? s)
                                  && match Finances.status m with
                                     | ms_active => true
                                     | _ => false
                                     end)
                               members))))%Q
  /\ (year start_ = year end_ -> month start_ = month end_ ->
      (expected_total_contributions cycle == 0)%Q).
Proof.
  intros Hok. apply create_cycle_ok_inv in Hok.
  destruct Hok as (_ & _ & Hst & Hen & _ & _ & Hexp).
  split; [ exact Hexp | ].
  intros Hy Hm. rewrite Hexp. unfold duration_months.
  rewrite Hst, Hen, Hy, Hm.
  replace ((year end_ - year end_) * 12 + (month end_ - month end_)) with 0
    by lia.
  change (inject_Z 0) with 0%Q. ring.
Qed.

Lemma X19_cycle_within_one_month_witness :
  exists cycle cycles',
    create_cycle (d 2025 6 1) [] [rule_B]
                 (repeat (Finances.mkMember 1 ms_active) 10)
                 1 "July" (d 2025 7 1) (d 2025 7 31) ""
    = Ok (cycle, cycles')
    /\ (expected_total_contributions cycle == 0)%Q.
Proof.
  destruct (create_cycle (d 2025 6 1) [] [rule_B]
                         (repeat (Finances.mkMember 1 ms_active) 10)
                         1 "July" (d 2025 7 1) (d 2025 7 31) "")
    as [ [cycle cycles'] | e ] eqn:E.
  - exists cycle, cycles'. split; [ reflexivity | ].
    exact (proj2 (X19_cycle_within_one_month_expects_nothing
                    _ _ _ _ _ _ _ _ _ _ _ E) eq_refl eq_refl).
  - vm_compute in E. discriminate E.
Defined.

End CycleInvariantFacts.

Section CycleActivationFacts.

Import StokvelCycle CycleService.

Lemma cycle_save_single (P : t -> bool) (table : list t) (a : t) :
  NoDup (map pk table) ->
  (forall r, In r table -> pk r <> pk a -> P r = false) ->
  P a = true ->
  List.length (filter P (save table a)) = 1%nat.
Proof.
  intros Hnd Hothers Ha.
  induction table as [ | r rest IH ].
  - cbn. rewrite Ha. reflexivity.
  - cbn [save]. inversion Hnd as [ | k ks Hnotin Hnd' ]; subst.
    destruct (pk r =? pk a) eqn:Epk.
    + apply Z.eqb_eq in Epk. cbn [filter]. rewrite Ha. cbn [List.length].
      f_equal. rewrite filter_none; [ reflexivity | ].
      intros x Hin. apply Hothers; [ right; exact Hin | ].
      intros Heq. apply Hnotin. rewrite Epk, <- Heq. apply in_map. exact Hin.
    + apply Z.eqb_neq in Epk. cbn [filter].
      rewrite (Hothers r (or_introl eq_refl) Epk).
      apply IH; [ exact Hnd' | ].
      intros x Hin. apply Hothers. right. exact Hin.
Qed.

Lemma cycle_in_save (table : list t) (a : t) :
  In a (save table a)
  /\ (forall x, In x table -> pk x <> pk a -> In x (save table a)).
Proof.
  induction table as [ | r rest [IH1 IH2] ]; cbn [save].
  - split; [ left; reflexivity | intros x [] ].
  - destruct (pk r =? pk a) eqn:Epk.
    + split; [ left; reflexivity | ].
      intros x [ -> | Hin ] Hne.
      * apply Z.eqb_eq in Epk. contradiction.
      * right. exact Hin.
    + split; [ right; exact IH1 | ].
      intros x [ -> | Hin ] Hne; [ left; reflexivity | ].
      right. apply IH2; assumption.
Qed.

(** X20: after [activate_cycle] the activated cycle is stored and is the
    only active cycle of its stokvel, and every other cycle of that
    stokvel that was active is stored as completed. *)
Theorem X20_activate_cycle_leaves_one_active (cycles : list t) (cycle : t) :
  NoDup (map pk cycles) ->
  let cycle' := fst (activate_cycle cycles cycle) in
  let cycles' := snd (activate_cycle cycles cycle) in
  status cycle' = cy_active
  /\ In cycle' cycles'
  /\ List.length
       (filter (fun c => (stokvel c =? stokvel cycle)
                         && CycleStatus_eqb (status c) cy_active)
               cycles') = 1%nat
  /\ (forall x, In x cycles -> pk x <> pk cycle ->
                stokvel x = stokvel cycle -> status x = cy_active ->
                In (with_status cy_completed x) cycles').
Proof.
  intros Hnd. cbv zeta. unfold activate_cycle. cbn [fst snd].
  set (f := fun c : t =>
              if (stokvel c =? stokvel cycle)
                 && CycleStatus_eqb (status c) cy_active
              then with_status cy_completed c else c).
  split; [ reflexivity | ].
  cbv zeta.
  split; [ exact (proj1 (cycle_in_save _ _)) | ].
  split.
  - apply cycle_save_single.
    + rewrite map_map.
      replace (map (fun x => pk (f x)) cycles) with (map pk cycles);
        [ exact Hnd | ].
      apply map_ext. intros c. unfold f.
      destruct (_ && _); reflexivity.
    + intros r Hin _. apply in_map_iff in Hin.
      destruct Hin as (r0 & <- & _). unfold f.
      destruct ((stokvel r0 =? stokvel cycle)
                && CycleStatus_eqb (status r0) cy_active) eqn:E.
      * cbn. apply andb_false_r.
      * exact E.
    + cbn. rewrite Z.eqb_refl. reflexivity.
  - intros x Hin Hpk Hs Hact.
    apply (proj2 (cycle_in_save _ _)); [ | exact Hpk ].
    apply in_map_iff. exists x. split; [ | exact Hin ].
    unfold f. rewrite Hs, Hact, Z.eqb_refl. reflexivity.
Qed.

Lemma X20_activate_cycle_witness :
  let old := mk 1 1 "2025" (d 2025 1 1) (d 2025 12 31) 0 cy_active "" in
  let new := mk 2 1 "2026" (d 2025 12 31) (d 2026 12 31) 0 cy_planned "" in
  snd (activate_cycle [old; new] new)
  = [with_status cy_completed old; with_status cy_active new]
  /\ List.length
       (filter (fun c => (stokvel c =? 1)
                         && CycleStatus_eqb (status c) cy_active)
               (snd (activate_cycle [old; new] new))) = 1%nat.
Proof.
  cbv zeta. split; [ reflexivity | ].
  refine (proj1 (proj2 (proj2 (X20_activate_cycle_leaves_one_active
                                 _ (mk 2 1 "2026" (d 2025 12 31)
                                       (d 2026 12 31) 0 cy_planned "") _)))).
  cbn. repeat constructor; cbn; intuition discriminate.
Defined.

Lemma cycle_insert_perm (c : t) (l : list t) :
  Permutation (insert_by_start_desc c l) (c :: l).
Proof.
  induction l as [ | x rest IH ]; cbn; [ apply Permutation_refl | ].
  destruct (date_leb (start_date x) (start_date c)).
  - apply Permutation_refl.
  - eapply Permutation_trans; [ apply perm_skip; exact IH | apply perm_swap ].
Qed.

Lemma cycle_order_perm (l : list t) :
  Permutation (order_by_start_desc l) l.
Proof.
  induction l as [ | x rest IH ]; cbn; [ apply Permutation_refl | ].
  eapply Permutation_trans; [ apply cycle_insert_perm | ].
  apply perm_skip. exact IH.
Qed.

Lemma cycle_insert_sorted (c : t) (l : list t) :
  StronglySorted
    (fun a b => date_leb (start_date b) (start_date a) = true) l ->
  StronglySorted
    (fun a b => date_leb (start_date b) (start_date a) = true)
    (insert_by_start_desc c l).
Proof.
  induction l as [ | x rest IH ]; intros Hs; cbn.
  - constructor; [ constructor | constructor ].
  - inversion Hs as [ | ? ? Hrest Hall ]; subst.
    destruct (date_leb (start_date x) (start_date c)) eqn:E.
    + constructor; [ exact Hs | ].
      constructor; [ exact E | ].
      rewrite Forall_forall in *. intros y Hy.
      eapply date_leb_trans; [ apply Hall; exact Hy | exact E ].
    + constructor; [ apply IH; exact Hrest | ].
      rewrite Forall_forall in *. intros y Hy.
      apply (Permutation_in _ (cycle_insert_perm c rest)) in Hy.
      destruct Hy as [ <- | Hy ].
      * apply date_leb_false_flip. exact E.
      * apply Hall. exact Hy.
Qed.

Lemma cycle_order_sorted (l : list t) :
  StronglySorted
    (fun a b => date_leb (start_date b) (start_date a) = true)
    (order_by_start_desc l).
Proof.
  induction l as [ | x rest IH ]; cbn; [ constructor | ].
  apply cycle_insert_sorted. exact IH.
Qed.

(** X21: [get_current_cycle] returns an active cycle of the stokvel that
    contains today, the one with the latest start date among them, and
    nothing exactly when the stokvel has no active cycle containing
    today. *)
Theorem X21_current_cycle_is_latest_active (today : date)
    (cycles : list t) (s : Z) :
  match get_current_cycle today cycles s with
  | Some c =>
      In c cycles /\ stokvel c = s /\ status c = cy_active
      /\ is_current today c = true
      /\ (forall c', In c' cycles -> stokvel c' = s ->
                     status c' = cy_active -> is_current today c' = true ->
                     date_leb (start_date c') (start_date c) = true)
  | None =>
      forall c, In c cycles -> stokvel c = s -> status c = cy_active ->
                is_current today c = false
  end.
Proof.
  unfold get_current_cycle, Django.first.
  set (p := fun c : t =>
              (stokvel c =? s) && CycleStatus_eqb (status c) cy_active
              && date_leb (start_date c) today
              && date_leb today (end_date c)).
  assert (Hp : forall c, p c = true <->
             stokvel c = s /\ status c = cy_active
             /\ is_current today c = true).
  { intros c. unfold p, is_current.
    rewrite !andb_true_iff, Z.eqb_eq.
    assert (Hst : CycleStatus_eqb (status c) cy_active = true
                  <-> status c = cy_active)
      by (destruct (status c); cbn; split; congruence).
    rewrite Hst. tauto. }
  pose proof (cycle_order_perm (filter p cycles)) as Hperm.
  pose proof (cycle_order_sorted (filter p cycles)) as Hsorted.
  destruct (order_by_start_desc (filter p cycles)) as [ | c rest ] eqn:E;
    cbn [hd_error].
  - intros c Hin Hs Hst.
    destruct (is_current today c) eqn:Ecur; [ | reflexivity ].
    exfalso.
    assert (Hin' : In c (filter p cycles))
      by (apply filter_In; split; [ exact Hin | apply Hp; auto ]).
    apply (Permutation_in _ (Permutation_sym Hperm)) in Hin'.
    contradiction.
  - assert (Hc : In c (filter p cycles))
      by (apply (Permutation_in _ Hperm); left; reflexivity).
    apply filter_In in Hc. destruct Hc as [Hin Hpc].
    apply Hp in Hpc. destruct Hpc as (Hs & Hst & Hcur).
    repeat (split; [ assumption | ]).
    intros c' Hin' Hs' Hst' Hcur'.
    assert (Hc' : In c' (filter p cycles))
      by (apply filter_In; split; [ exact Hin' | apply Hp; auto ]).
    apply (Permutation_in _ (Permutation_sym Hperm)) in Hc'.
    destruct Hc' as [ <- | Hrest ]; [ apply date_leb_refl | ].
    inversion Hsorted as [ | ? ? _ Hall ]; subst.
    rewrite Forall_forall in Hall. apply Hall. exact Hrest.
Qed.

End CycleActivationFacts.

(* ------------------------------------------------------------------ *)
(** ** Bank accounts: saving, choosing and adding *)

Section BankAccountInvariantFacts.

Import StokvelBankAccount BankAccountService BankAccountKeys.

Lemma in_super_save_self (table : list t) (a : t) :
  In a (super_save table a).
Proof.
  induction table as [ | r rest IH ]; cbn [super_save].
  - left. reflexivity.
  - destruct (pk r =? pk a); [ left; reflexivity | right; exact IH ].
Qed.

(** X22: saving an active account with the primary flag stores it and
    leaves it the only active primary account of its stokvel, whichever
    accounts carried the flag before. *)
Theorem X22_save_primary_leaves_one_primary (table : list t) (a : t) :
  NoDup (map pk table) ->
  is_primary a = true -> is_active a = true ->
  In a (save table a)
  /\ active_primary_count (save table a) (stokvel a) = 1%nat.
Proof.
  intros Hnd Hp Ha. split.
  - unfold save. apply in_super_save_self.
  - apply save_primary_is_unique; assumption.
Qed.

Lemma X22_save_primary_witness :
  In (with_is_primary true account_B)
     (save [account_A; account_B] (with_is_primary true account_B))
  /\ active_primary_count
       (save [account_A; account_B] (with_is_primary true account_B))
       (stokvel (with_is_primary true account_B)) = 1%nat.
Proof.
  apply X22_save_primary_leaves_one_primary; try reflexivity.
  repeat constructor; cbn; intuition discriminate.
Defined.

(** X23: [set_primary_account] on an active account returns it with the
    primary flag, stores it, and leaves it the only active primary account
    of its stokvel. *)
Theorem X23_set_primary_account_leaves_one_primary
    (table : list t) (account : t) :
  NoDup (map pk table) ->
  is_active account = true ->
  is_primary (fst (set_primary_account table account)) = true
  /\ In (fst (set_primary_account table account))
        (snd (set_primary_account table account))
  /\ active_primary_count (snd (set_primary_account table account))
                          (stokvel account) = 1%nat.
Proof.
  intros Hnd Ha. split; [ reflexivity | ]. split.
  - unfold set_primary_account. cbn [fst snd]. unfold save.
    apply in_super_save_self.
  - apply set_primary_account_is_unique; assumption.
Qed.

Lemma X23_set_primary_account_witness :
  is_primary (fst (set_primary_account [account_A; account_B] account_B))
  = true
  /\ In (fst (set_primary_account [account_A; account_B] account_B))
        (snd (set_primary_account [account_A; account_B] account_B))
  /\ active_primary_count
       (snd (set_primary_account [account_A; account_B] account_B))
       (stokvel account_B) = 1%nat.
Proof.
  apply X23_set_primary_account_leaves_one_primary; try reflexivity.
  repeat constructor; cbn; intuition discriminate.
Defined.

Lemma add_bank_account_ok_inv (table : list t) (s : Z)
    (bank_name_ account_name_ account_number_ branch_code_ account_type_ : string)
    (is_primary_ : bool) (account : t) (table' : list t) :
  add_bank_account table s bank_name_ account_name_ account_number_
    branch_code_ account_type_ is_primary_ = Ok (account, table') ->
  blank account_number_ = false
  /\ (forall r, In r table -> key r <> (bank_name_, account_number_))
  /\ pk account = next_pk table /\ stokvel account = s
  /\ key account = (bank_name_, account_number_)
  /\ is_active account = true
  /\ table' = save table account.
Proof.
  unfold add_bank_account.
  destruct (blank account_number_); [ discriminate | ].
  match goal with
  | |- context [Django.exists_ (filter ?f table)] =>
      destruct (Django.exists_ (filter f table)) eqn:Edup
  end; [ discriminate | ].
  intros H. injection H as <- <-.
  split; [ reflexivity | ]. split.
  - intros r Hin Hkey. unfold key in Hkey. injection Hkey as Hb Hn.
    assert (Ht : Django.exists_
                   (filter (fun r => String.eqb (bank_name r) bank_name_
                                     && String.eqb (account_number r)
                                          account_number_) table) = true).
    { apply (exists_filter_intro _ table r Hin).
      rewrite Hb, Hn, !String.eqb_refl. reflexivity. }
    congruence.
  - repeat split; reflexivity.
Qed.

(** X24: adding an account keeps a single active primary account, given
    that the stokvel had one whenever it had active accounts; the new
    account is stored as an active row, and it is made primary whenever
    the stokvel had no active account, asked for or not. *)
Theorem X24_add_bank_account_keeps_one_primary (table : list t) (s : Z)
    (bank_name_ account_name_ account_number_ branch_code_ account_type_ : string)
    (is_primary_ : bool) (account : t) (table' : list t) :
  NoDup (map pk table) ->
  (Django.exists_
     (filter (fun r => (stokvel r =? s) && Bool.eqb (is_active r) true) table)
   = true -> active_primary_count table s = 1%nat) ->
  add_bank_account table s bank_name_ account_name_ account_number_
    branch_code_ account_type_ is_primary_ = Ok (account, table') ->
  active_primary_count table' s = 1%nat
  /\ In account table' /\ is_active account = true
  /\ (Django.exists_
        (filter (fun r => (stokvel r =? s) && Bool.eqb (is_active r) true)
                table) = false ->
      is_primary account = true).
Proof.
  intros Hnd Hinv Hok.
  split; [ eapply add_bank_account_keeps_single_primary; eassumption | ].
  pose proof (add_bank_account_ok_inv _ _ _ _ _ _ _ _ _ _ Hok)
    as (_ & _ & _ & _ & _ & Hact & ->).
  split; [ unfold save; apply in_super_save_self | ].
  split; [ exact Hact | ].
  intros Hnone. unfold add_bank_account in Hok.
  destruct (blank account_number_); [ discriminate Hok | ].
  destruct (Django.exists_
              (filter (fun r => String.eqb (bank_name r) bank_name_
                                && String.eqb (account_number r) account_number_)
                      table)); [ discriminate Hok | ].
  rewrite Hnone in Hok. cbn [negb] in Hok.
  injection Hok as <- _. reflexivity.
Qed.

Lemma X24_add_bank_account_witness :
  exists account table',
    add_bank_account [account_A] 1 "Capitec" "Savings" "1400000002" "470010"
      "savings" false = Ok (account, table')
    /\ active_primary_count table' 1 = 1%nat.
Proof.
  eexists. eexists. split; [ reflexivity | ].
  refine (proj1 (X24_add_bank_account_keeps_one_primary
                   [account_A] 1 "Capitec" "Savings" "1400000002" "470010"
                   "savings" false _ _ _ _ _)).
  - repeat constructor; cbn; intuition discriminate.
  - intros _. reflexivity.
  - reflexivity.
Defined.

Lemma super_save_fresh_keys (table : list t) (a : t) :
  (forall r, In r table -> pk r <> pk a) ->
  map key (super_save table a) = map key table ++ [key a].
Proof.
  intros Hfresh. rewrite super_save_fresh by exact Hfresh.
  rewrite map_app. reflexivity.
Qed.

(** X25: [add_bank_account] refuses a blank account number and a pair of
    bank name and account number that is already stored, for whichever
    stokvel, with a [ValidationError]; so adding accounts keeps that pair
    unique over the whole table. *)
Theorem X25_add_bank_account_keeps_bank_and_number_unique
    (table : list t) (s : Z)
    (bank_name_ account_name_ account_number_ branch_code_ account_type_ : string)
    (is_primary_ : bool) :
  let res := add_bank_account table s bank_name_ account_name_
               account_number_ branch_code_ account_type_ is_primary_ in
  (blank account_number_ = true ->
   res = Raise (ValidationError "Account number is required"))
  /\ (blank account_number_ = false ->
      (exists r, In r table /\ key r = (bank_name_, account_number_)) ->
      res = Raise (ValidationError "Bank account already exists"))
  /\ (forall account table',
         res = Ok (account, table') ->
         NoDup (map key table) -> NoDup (map key table')).
Proof.
  cbv zeta. split; [ | split ].
  - intros Hb. unfold add_bank_account. rewrite Hb. reflexivity.
  - intros Hb (r & Hin & Hkey). unfold add_bank_account. rewrite Hb.
    unfold key in Hkey. injection Hkey as Hbn Hn.
    rewrite (exists_filter_intro _ table r Hin); [ reflexivity | ].
    rewrite Hbn, Hn, !String.eqb_refl. reflexivity.
  - intros account table' Hok Hnd.
    pose proof (add_bank_account_ok_inv _ _ _ _ _ _ _ _ _ _ Hok)
      as (_ & Hnew & Hpk & _ & Hkey & _ & ->).
    unfold save.
    set (table1 := if is_primary account then _ else table).
    assert (Hkeys : map key table1 = map key table).
    { subst table1. destruct (is_primary account); [ | reflexivity ].
      unfold update_is_primary_false. rewrite map_map.
      apply map_ext. intros r. destruct (_ && _ && _); reflexivity. }
    assert (Hpks : map pk table1 = map pk table).
    { subst table1. destruct (is_primary account); [ | reflexivity ].
      apply update_keeps_pks. }
    rewrite super_save_fresh_keys.
    + rewrite Hkeys. apply NoDup_app.
      * exact Hnd.
      * constructor; [ intros [] | constructor ].
      * intros k Hk [ <- | [] ].
        apply in_map_iff in Hk. destruct Hk as (r & Hr & Hin).
        apply (Hnew r Hin). rewrite Hr, Hkey. reflexivity.
    + intros r Hin.
      assert (Hin' : In (pk r) (map pk table))
        by (rewrite <- Hpks; apply in_map; exact Hin).
      apply in_map_iff in Hin'. destruct Hin' as (r0 & Hr0 & Hin0).
      pose proof (pk_below_next_pk table r0 Hin0). lia.
Qed.

End BankAccountInvariantFacts.

(* ------------------------------------------------------------------ *)
(** ** Monthly periods *)

Section MonthlyPeriodFacts.

Import Ordinal MonthlyPeriods.

Lemma month_index_inv (x : date) :
  1 <= Dates.month x <= 12 ->
  month_index x / 12 = Dates.year x
  /\ month_index x mod 12 + 1 = Dates.month x.
Proof.
  intros Hm. unfold month_index. Z.div_mod_to_equations. lia.
Qed.

Lemma first_of_fields (i : Z) :
  12 <= i <= 119999 ->
  1 <= i / 12 <= 9999 /\ 1 <= i mod 12 + 1 <= 12.
Proof. intros Hi. Z.div_mod_to_equations. lia. Qed.

Lemma first_of_valid (i : Z) : 12 <= i <= 119999 -> valid_date (first_of i).
Proof.
  intros Hi. destruct (first_of_fields i Hi) as [Hy Hm].
  unfold valid_date, first_of. cbn.
  pose proof (days_in_month_bounds (i / 12) (i mod 12 + 1) Hm). lia.
Qed.

Lemma month_index_first_of (i : Z) : month_index (first_of i) = i.
Proof.
  unfold month_index, first_of. cbn. Z.div_mod_to_equations. lia.
Qed.

Lemma month_index_range (x : date) :
  valid_date x -> 12 <= month_index x <= 119999.
Proof. intros (Hy & Hm & _). unfold month_index. lia. Qed.

Lemma first_of_leb (i : Z) (x : date) :
  valid_date x ->
  date_leb (first_of i) x = true <-> i <= month_index x.
Proof.
  intros (Hy & Hm & Hd). rewrite date_leb_spec.
  unfold first_of, month_index. cbn.
  Z.div_mod_to_equations. lia.
Qed.

Lemma ltb_first_of (i : Z) (x : date) :
  valid_date x ->
  month_index x < i -> date_ltb x (first_of i) = true.
Proof.
  intros (Hy & Hm & Hd) Hlt. rewrite date_ltb_spec.
  unfold first_of, month_index in *. cbn.
  Z.div_mod_to_equations. lia.
Qed.

Lemma month_index_mono (a b : date) :
  valid_date a -> valid_date b ->
  date_leb a b = true -> month_index a <= month_index b.
Proof.
  intros (_ & Hma & _) (_ & Hmb & _). rewrite date_leb_spec.
  unfold month_index. lia.
Qed.

Lemma due_date_in_month (y m due_day : Z) :
  1 <= y <= 9999 -> 1 <= m <= 12 -> 1 <= due_day ->
  DateUtils.get_due_date_for_month y m due_day
  = Ok (due_in_month y m due_day).
Proof.
  intros Hy Hm Hd. unfold DateUtils.get_due_date_for_month, due_in_month.
  pose proof (days_in_month_bounds y m Hm) as Hb.
  destruct (due_day =? 31).
  - apply get_month_end_date_valid; assumption.
  - rewrite monthrange_ndays_valid by assumption. cbn [bind].
    apply date_new_valid; try assumption. lia.
Qed.

Lemma next_month_is_first_of (x : date) :
  valid_date x -> month_index x < 119999 ->
  (if Dates.month x =? 12 then date_new (Dates.year x + 1) 1 1
   else date_new (Dates.year x) (Dates.month x + 1) 1)
  = Ok (first_of (month_index x + 1)).
Proof.
  intros (Hy & Hm & Hd) Hlt. unfold month_index in Hlt.
  assert (Hfirst : first_of (month_index x + 1)
                   = if Dates.month x =? 12
                     then mkdate (Dates.year x + 1) 1 1
                     else mkdate (Dates.year x) (Dates.month x + 1) 1).
  { unfold first_of, month_index.
    destruct (Dates.month x =? 12) eqn:E.
    - apply Z.eqb_eq in E. f_equal; Z.div_mod_to_equations; lia.
    - apply Z.eqb_neq in E. f_equal; Z.div_mod_to_equations; lia. }
  rewrite Hfirst.
  destruct (Dates.month x =? 12) eqn:E.
  - apply Z.eqb_eq in E. apply date_new_valid; cbn; lia.
  - apply Z.eqb_neq in E. apply date_new_valid; try lia.
    pose proof (days_in_month_bounds (Dates.year x) (Dates.month x + 1)).
    lia.
Qed.

Lemma month_bounds_around (x : date) :
  valid_date x ->
  date_leb (mkdate (Dates.year x) (Dates.month x) 1) x = true
  /\ date_leb x (mkdate (Dates.year x) (Dates.month x)
                        (days_in_month (Dates.year x) (Dates.month x)))
     = true.
Proof.
  intros (Hy & Hm & Hd). rewrite !date_leb_spec. cbn. lia.
Qed.

Lemma monthly_step_ok (start_date end_date : date) (due_day : Z)
    (cur : date) :
  valid_date cur -> 1 <= due_day ->
  date_leb start_date cur = true -> date_leb cur end_date = true ->
  month_index cur < 119999 ->
  monthly_step start_date end_date due_day cur
  = Ok (Some (period_at start_date end_date due_day (month_index cur)),
        first_of (month_index cur + 1)).
Proof.
  intros Hv Hdue Hs He Hidx.
  pose proof Hv as (Hy & Hm & Hd).
  destruct (month_index_inv cur Hm) as [Ey Em].
  destruct (month_bounds_around cur Hv) as [Hlo Hhi].
  unfold monthly_step, period_at. cbv zeta. rewrite Ey, Em.
  rewrite date_new_valid
    by (try assumption;
        pose proof (days_in_month_bounds (Dates.year cur) (Dates.month cur)
                      Hm); lia).
  cbn [bind].
  rewrite get_month_end_date_valid by assumption. cbn [bind].
  rewrite due_date_in_month by assumption. cbn [bind].
  rewrite (date_leb_trans _ _ _ Hs Hhi), (date_leb_trans _ _ _ Hlo He).
  cbn [andb].
  rewrite next_month_is_first_of by assumption. cbn [bind].
  reflexivity.
Qed.

Lemma monthly_step_overflow (start_date end_date : date) (due_day : Z)
    (cur : date) :
  valid_date cur -> 1 <= due_day ->
  Dates.year cur = 9999 -> Dates.month cur = 12 ->
  monthly_step start_date end_date due_day cur
  = Raise (ValueError "year is out of range").
Proof.
  intros Hv Hdue Ey Em. pose proof Hv as (Hy & Hm & Hd).
  unfold monthly_step. cbv zeta.
  rewrite date_new_valid
    by (try assumption;
        pose proof (days_in_month_bounds (Dates.year cur) (Dates.month cur)
                      Hm); lia).
  cbn [bind].
  rewrite get_month_end_date_valid by assumption. cbn [bind].
  rewrite due_date_in_month by assumption. cbn [bind].
  rewrite Ey, Em. reflexivity.
Qed.

Lemma months_from_cons (i : Z) (n : nat) :
  months_from i (S n) = i :: months_from (i + 1) n.
Proof.
  unfold months_from. cbn [seq map]. f_equal; [ lia | ].
  rewrite <- seq_shift, map_map. apply map_ext. intros k. lia.
Qed.

Lemma monthly_loop_tail (start_date end_date : date) (due_day : Z) :
  valid_date start_date -> valid_date end_date -> 1 <= due_day ->
  month_index end_date < 119999 ->
  forall (n : nat) (i : Z) (fuel : nat) (periods : list PeriodDict.t),
    month_index start_date < i ->
    i + Z.of_nat n = month_index end_date + 1 ->
    (n < fuel)%nat ->
    monthly_loop fuel start_date end_date due_day (first_of i) periods
    = Some (Ok (periods
                ++ map (period_at start_date end_date due_day)
                       (months_from i n))).
Proof.
  intros Hvs Hve Hdue Hmax.
  pose proof (month_index_range start_date Hvs) as Hrs.
  induction n as [ | n IH ]; intros i fuel periods Hi Hn Hfuel.
  - destruct fuel as [ | fuel ]; [ lia | ]. cbn [monthly_loop].
    replace (date_leb (first_of i) end_date) with false.
    + cbn. rewrite app_nil_r. reflexivity.
    + symmetry. destruct (date_leb (first_of i) end_date) eqn:E;
        [ | reflexivity ].
      apply first_of_leb in E; [ lia | exact Hve ].
  - destruct fuel as [ | fuel ]; [ lia | ]. cbn [monthly_loop].
    assert (Hrange : 12 <= i <= 119999) by lia.
    replace (date_leb (first_of i) end_date) with true
      by (symmetry; apply first_of_leb; [ exact Hve | lia ]).
    rewrite monthly_step_ok.
    + rewrite month_index_first_of.
      rewrite (IH (i + 1) fuel) by lia.
      rewrite months_from_cons. cbn [map].
      rewrite <- app_assoc. reflexivity.
    + apply first_of_valid. exact Hrange.
    + exact Hdue.
    + apply date_ltb_leb. apply ltb_first_of; assumption.
    + apply first_of_leb; [ exact Hve | lia ].
    + rewrite month_index_first_of. lia.
Qed.

Lemma monthly_periods_closed_form (start_date end_date : date)
    (due_day : Z) (fuel : nat) :
  valid_date start_date -> valid_date end_date -> 1 <= due_day ->
  date_leb start_date end_date = true ->
  month_index end_date < 119999 ->
  (Z.to_nat (month_index end_date - month_index start_date) + 1 < fuel)%nat ->
  calculate_monthly_periods fuel start_date end_date due_day
  = Some (Ok (map (period_at start_date end_date due_day)
                  (months_from (month_index start_date)
                     (S (Z.to_nat (month_index end_date
                                   - month_index start_date)))))).
Proof.
  intros Hvs Hve Hdue Hle Hmax Hfuel.
  pose proof (month_index_mono _ _ Hvs Hve Hle) as Hmono.
  unfold calculate_monthly_periods.
  destruct fuel as [ | fuel ]; [ lia | ]. cbn [monthly_loop].
  rewrite Hle.
  rewrite monthly_step_ok; try assumption;
    [ | apply date_leb_refl | lia ].
  rewrite (monthly_loop_tail start_date end_date due_day Hvs Hve Hdue Hmax
             (Z.to_nat (month_index end_date - month_index start_date)))
    by lia.
  rewrite months_from_cons. reflexivity.
Qed.

End MonthlyPeriodFacts.

Section MonthlyPeriodResults.

Import Ordinal MonthlyPeriods.

Lemma months_from_length (i : Z) (n : nat) :
  List.length (months_from i n) = n.
Proof. unfold months_from. rewrite length_map, length_seq. reflexivity. Qed.

Lemma months_from_nth (i : Z) (n k : nat) :
  (k < n)%nat -> nth_error (months_from i n) k = Some (i + Z.of_nat k).
Proof.
  intros Hk. unfold months_from.
  rewrite nth_error_map, nth_error_seq.
  destruct (Nat.ltb_spec k n) as [ _ | Hge ]; [ reflexivity | lia ].
Qed.

(** X26: for dates with start on or before end, a due day of at least 1
    and an end date before December 9999, [calculate_monthly_periods]
    returns, as soon as the loop is given more passes than there are
    months, one period per calendar month from the month of the start date
    to the month of the end date, in order: the k-th is the period of the
    k-th month, clipped to the range. *)
Theorem X26_monthly_periods_one_per_month (start_date end_date : date)
    (due_day : Z) :
  valid_date start_date -> valid_date end_date -> 1 <= due_day ->
  date_leb start_date end_date = true ->
  month_index end_date < 119999 ->
  let n := Z.to_nat (month_index end_date - month_index start_date) in
  exists periods,
    (forall fuel, (n + 1 < fuel)%nat ->
                  calculate_monthly_periods fuel start_date end_date due_day
                  = Some (Ok periods))
    /\ List.length periods = S n
    /\ (forall k, (k <= n)%nat ->
                  nth_error periods k
                  = Some (period_at start_date end_date due_day
                            (month_index start_date + Z.of_nat k))).
Proof.
  intros Hvs Hve Hdue Hle Hmax n.
  eexists. split; [ | split ].
  - intros fuel Hfuel.
    apply monthly_periods_closed_form; assumption.
  - rewrite length_map, months_from_length. reflexivity.
  - intros k Hk. rewrite nth_error_map, months_from_nth by lia.
    reflexivity.
Qed.

Lemma X26_monthly_periods_witness :
  exists periods,
    (forall fuel, (Z.to_nat (month_index (d 2025 3 20)
                             - month_index (d 2025 1 15)) + 1 < fuel)%nat ->
                  calculate_monthly_periods fuel (d 2025 1 15) (d 2025 3 20) 31
                  = Some (Ok periods))
    /\ List.length periods
       = S (Z.to_nat (month_index (d 2025 3 20) - month_index (d 2025 1 15)))
    /\ (forall k, (k <= Z.to_nat (month_index (d 2025 3 20)
                                  - month_index (d 2025 1 15)))%nat ->
                  nth_error periods k
                  = Some (period_at (d 2025 1 15) (d 2025 3 20) 31
                            (month_index (d 2025 1 15) + Z.of_nat k))).
Proof.
  apply X26_monthly_periods_one_per_month;
    try (repeat split; cbn; lia); reflexivity.
Defined.

Lemma monthly_scenario :
  calculate_monthly_periods 5 (d 2025 1 15) (d 2025 3 20) 31
  = Some (Ok [PeriodDict.mk 2025 1 (d 2025 1 15) (d 2025 1 31) (d 2025 1 31)
                "January 2025";
              PeriodDict.mk 2025 2 (d 2025 2 1) (d 2025 2 28) (d 2025 2 28)
                "February 2025";
              PeriodDict.mk 2025 3 (d 2025 3 1) (d 2025 3 20) (d 2025 3 31)
                "March 2025"]).
Proof. reflexivity. Qed.

Lemma monthly_loop_overflow (start_date end_date : date) (due_day : Z) :
  valid_date start_date -> valid_date end_date -> 1 <= due_day ->
  month_index end_date = 119999 ->
  forall (n : nat) (i : Z) (fuel : nat) (periods : list PeriodDict.t),
    month_index start_date < i ->
    i + Z.of_nat n = 119999 ->
    (n < fuel)%nat ->
    monthly_loop fuel start_date end_date due_day (first_of i) periods
    = Some (Raise (ValueError "year is out of range")).
Proof.
  intros Hvs Hve Hdue Hmax.
  pose proof (month_index_range start_date Hvs) as Hrs.
  induction n as [ | n IH ]; intros i fuel periods Hi Hn Hfuel;
    (destruct fuel as [ | fuel ]; [ lia | ]); cbn [monthly_loop];
    assert (Hrange : 12 <= i <= 119999) by lia;
    replace (date_leb (first_of i) end_date) with true
      by (symmetry; apply first_of_leb; [ exact Hve | lia ]).
  - rewrite monthly_step_overflow; [ reflexivity | | exact Hdue | | ].
    + apply first_of_valid. exact Hrange.
    + unfold first_of. cbn. Z.div_mod_to_equations. lia.
    + unfold first_of. cbn. Z.div_mod_to_equations. lia.
  - rewrite monthly_step_ok.
    + rewrite month_index_first_of. apply IH; lia.
    + apply first_of_valid. exact Hrange.
    + exact Hdue.
    + apply date_ltb_leb. apply ltb_first_of; assumption.
    + apply first_of_leb; [ exact Hve | lia ].
    + rewrite month_index_first_of. lia.
Qed.

(** X27: when the end date lies in December 9999 (as [date.max] does) and
    the start date is on or before it, [calculate_monthly_periods] returns
    no periods at all: once the loop has run through the months it raises
    [ValueError], because stepping past the last month builds a date in
    year 10000. *)
Theorem X27_monthly_periods_overflow_at_date_max
    (start_date end_date : date) (due_day : Z) (fuel : nat) :
  valid_date start_date -> valid_date end_date -> 1 <= due_day ->
  date_leb start_date end_date = true ->
  Dates.year end_date = 9999 -> Dates.month end_date = 12 ->
  (Z.to_nat (month_index end_date - month_index start_date) < fuel)%nat ->
  calculate_monthly_periods fuel start_date end_date due_day
  = Some (Raise (ValueError "year is out of range")).
Proof.
  intros Hvs Hve Hdue Hle Ey Em Hfuel.
  assert (Hmax : month_index end_date = 119999)
    by (unfold month_index; lia).
  pose proof (month_index_mono _ _ Hvs Hve Hle) as Hmono.
  unfold calculate_monthly_periods.
  destruct fuel as [ | fuel ]; [ lia | ]. cbn [monthly_loop].
  rewrite Hle.
  destruct (Z.eq_dec (month_index start_date) 119999) as [ Heq | Hne ].
  - rewrite monthly_step_overflow; try assumption; [ reflexivity | | ];
      pose proof Hvs as (Hy & Hm & _); unfold month_index in Heq; lia.
  - rewrite monthly_step_ok; try assumption;
      [ | apply date_leb_refl | lia ].
    apply (monthly_loop_overflow start_date end_date due_day Hvs Hve Hdue
             Hmax
             (Z.to_nat (119999 - (month_index start_date + 1))));
      lia.
Qed.

Lemma X27_monthly_periods_overflow_witness :
  calculate_monthly_periods 3 (d 9999 11 10) Dates.date_max 31
  = Some (Raise (ValueError "year is out of range")).
Proof.
  apply X27_monthly_periods_overflow_at_date_max;
    try (repeat split; cbn; lia); reflexivity.
Defined.

End MonthlyPeriodResults.

Section MonthlyPeriodTiling.

Import Ordinal MonthlyPeriods.

Lemma date_eq_of_leb (a b : date) :
  date_leb a b = true -> date_ltb a b = false -> a = b.
Proof.
  intros Hle Hlt.
  assert (Hn : ~ (date_ltb a b = true)) by congruence.
  rewrite date_leb_spec in Hle. rewrite date_ltb_spec in Hn.
  destruct a as [ya ma da], b as [yb mb db]. cbn in *.
  f_equal; lia.
Qed.

Lemma first_of_next (i : Z) :
  first_of (i + 1)
  = if i mod 12 + 1 =? 12 then mkdate (i / 12 + 1) 1 1
    else mkdate (i / 12) (i mod 12 + 1 + 1) 1.
Proof.
  unfold first_of. destruct (i mod 12 + 1 =? 12) eqn:E.
  - apply Z.eqb_eq in E. f_equal; Z.div_mod_to_equations; lia.
  - apply Z.eqb_neq in E. f_equal; Z.div_mod_to_equations; lia.
Qed.

Lemma month_end_then_first (i : Z) :
  12 <= i <= 119999 ->
  toordinal (first_of (i + 1))
  = toordinal (mkdate (i / 12) (i mod 12 + 1)
                      (days_in_month (i / 12) (i mod 12 + 1))) + 1.
Proof.
  intros Hi. destruct (first_of_fields i Hi) as [Hy Hm].
  rewrite first_of_next.
  set (y := i / 12) in *. set (m := i mod 12 + 1) in *.
  clearbody y m. clear Hi.
  apply month_cases in Hm.
  unfold toordinal, days_before_month, days_in_month.
  repeat (destruct Hm as [-> | Hm]); try subst m;
    cbn [Z.eqb Pos.eqb Dates.year Dates.month Dates.day];
    cbn; try rewrite year_length; destruct (isleap y); lia.
Qed.

Lemma period_at_start (start_date end_date : date) (due_day i : Z) :
  valid_date start_date ->
  month_index start_date <= i ->
  PeriodDict.period_start (period_at start_date end_date due_day i)
  = if i =? month_index start_date then start_date else first_of i.
Proof.
  intros Hvs Hi. pose proof Hvs as (Hy & Hm & Hd).
  unfold period_at, py_max. cbn [PeriodDict.period_start].
  fold (first_of i).
  destruct (i =? month_index start_date) eqn:E.
  - apply Z.eqb_eq in E. subst i.
    destruct (month_index_inv start_date Hm) as [Ey Em].
    destruct (date_ltb (first_of (month_index start_date)) start_date) eqn:El;
      [ reflexivity | ].
    apply date_eq_of_leb; [ | exact El ].
    apply first_of_leb; [ exact Hvs | lia ].
  - apply Z.eqb_neq in E.
    replace (date_ltb (first_of i) start_date) with false; [ reflexivity | ].
    symmetry. rewrite date_ltb_negb_leb. apply negb_false_iff.
    apply date_ltb_leb. apply ltb_first_of; [ exact Hvs | lia ].
Qed.

Lemma period_at_end (start_date end_date : date) (due_day i : Z) :
  valid_date end_date -> 12 <= i ->
  i <= month_index end_date ->
  PeriodDict.period_end (period_at start_date end_date due_day i)
  = if i =? month_index end_date then end_date
    else mkdate (i / 12) (i mod 12 + 1)
                (days_in_month (i / 12) (i mod 12 + 1)).
Proof.
  intros Hve Hlo Hi. pose proof Hve as (Hy & Hm & Hd).
  pose proof (month_index_range end_date Hve) as Hr.
  destruct (first_of_fields i ltac:(lia)) as [Hiy Him].
  pose proof (days_in_month_bounds (i / 12) (i mod 12 + 1) Him) as Hdim.
  unfold period_at, py_min. cbn [PeriodDict.period_end].
  set (L := mkdate (i / 12) (i mod 12 + 1)
                   (days_in_month (i / 12) (i mod 12 + 1))).
  destruct (i =? month_index end_date) eqn:E.
  - apply Z.eqb_eq in E.
    destruct (date_ltb end_date L) eqn:El; [ reflexivity | ].
    symmetry. apply date_eq_of_leb; [ | exact El ].
    destruct (month_index_inv end_date Hm) as [Ey Em].
    rewrite date_leb_spec. unfold L. cbn. rewrite E, Ey, Em. lia.
  - apply Z.eqb_neq in E.
    replace (date_ltb end_date L) with false; [ reflexivity | ].
    symmetry. destruct (date_ltb end_date L) eqn:El; [ | reflexivity ].
    exfalso. rewrite date_ltb_spec in El. unfold L in El. cbn in El.
    unfold month_index in *. Z.div_mod_to_equations. lia.
Qed.

(** X28: the monthly periods tile the range: the first starts on the
    start date, the last ends on the end date, every period starts on or
    before the day it ends, and each next period starts on the day after
    the previous one ends. *)
Theorem X28_monthly_periods_tile_the_range (start_date end_date : date)
    (due_day : Z) (fuel : nat) (periods : list PeriodDict.t) :
  valid_date start_date -> valid_date end_date -> 1 <= due_day ->
  date_leb start_date end_date = true ->
  month_index end_date < 119999 ->
  (Z.to_nat (month_index end_date - month_index start_date) + 1 < fuel)%nat ->
  calculate_monthly_periods fuel start_date end_date due_day
  = Some (Ok periods) ->
  (exists p, nth_error periods 0 = Some p
             /\ PeriodDict.period_start p = start_date)
  /\ (exists p, nth_error periods (List.length periods - 1) = Some p
                /\ PeriodDict.period_end p = end_date)
  /\ (forall p, In p periods ->
                date_leb (PeriodDict.period_start p) (PeriodDict.period_end p)
                = true)
  /\ (forall k p q, nth_error periods k = Some p ->
                    nth_error periods (S k) = Some q ->
                    toordinal (PeriodDict.period_start q)
                    = toordinal (PeriodDict.period_end p) + 1).
Proof.
  intros Hvs Hve Hdue Hle Hmax Hfuel Hcalc.
  rewrite monthly_periods_closed_form in Hcalc by assumption.
  assert (Heq : periods
                = map (period_at start_date end_date due_day)
                      (months_from (month_index start_date)
                         (S (Z.to_nat (month_index end_date
                                       - month_index start_date)))))
    by congruence.
  subst periods. clear Hcalc.
  pose proof (month_index_mono _ _ Hvs Hve Hle) as Hmono.
  pose proof (month_index_range start_date Hvs) as Hrs.
  set (m0 := month_index start_date) in *.
  set (ie := month_index end_date) in *.
  set (n := Z.to_nat (ie - m0)) in *.
  assert (Hnth : forall k, (k <= n)%nat ->
            nth_error (map (period_at start_date end_date due_day)
                           (months_from m0 (S n))) k
            = Some (period_at start_date end_date due_day
                      (m0 + Z.of_nat k))).
  { intros k Hk. rewrite nth_error_map, months_from_nth by lia.
    reflexivity. }
  assert (Hbeyond : forall k, (n < k)%nat ->
            nth_error (map (period_at start_date end_date due_day)
                           (months_from m0 (S n))) k = None).
  { intros k Hk. apply nth_error_None.
    rewrite length_map, months_from_length. lia. }
  split; [ | split; [ | split ] ].
  - eexists. split; [ apply (Hnth 0%nat); lia | ].
    rewrite period_at_start by (try assumption; fold m0; lia).
    fold m0. replace (m0 + Z.of_nat 0 =? m0) with true; [ reflexivity | ].
    symmetry. apply Z.eqb_eq. lia.
  - rewrite length_map, months_from_length.
    replace (S n - 1)%nat with n by lia.
    eexists. split; [ apply (Hnth n); lia | ].
    rewrite period_at_end by (try assumption; fold ie; lia).
    fold ie. replace (m0 + Z.of_nat n =? ie) with true; [ reflexivity | ].
    symmetry. apply Z.eqb_eq. lia.
  - intros p Hin. apply In_nth_error in Hin. destruct Hin as [k Hk].
    destruct (Nat.le_gt_cases k n) as [Hkn | Hkn];
      [ | rewrite Hbeyond in Hk by lia; discriminate Hk ].
    rewrite Hnth in Hk by exact Hkn. injection Hk as <-.
    set (i := m0 + Z.of_nat k).
    assert (Hi : m0 <= i <= ie) by lia.
    rewrite period_at_start by (try assumption; fold m0; lia).
    rewrite period_at_end by (try assumption; fold ie; lia).
    fold m0 ie.
    destruct (first_of_fields i ltac:(lia)) as [Hiy Him].
    pose proof (days_in_month_bounds (i / 12) (i mod 12 + 1) Him) as Hdim.
    destruct (i =? m0) eqn:E0; destruct (i =? ie) eqn:E1.
    + exact Hle.
    + apply Z.eqb_eq in E0. pose proof Hvs as (Hy & Hm & Hd).
      destruct (month_index_inv start_date Hm) as [Ey Em].
      rewrite date_leb_spec. cbn. fold m0 in Ey, Em.
      rewrite E0, Ey, Em. lia.
    + apply first_of_leb; [ exact Hve | fold ie; lia ].
    + rewrite date_leb_spec. unfold first_of. cbn. lia.
  - intros k p q Hp Hq.
    destruct (Nat.le_gt_cases (S k) n) as [Hkn | Hkn];
      [ | rewrite Hbeyond in Hq by lia; discriminate Hq ].
    rewrite Hnth in Hp by lia. rewrite Hnth in Hq by lia.
    assert (Ep : p = period_at start_date end_date due_day
                       (m0 + Z.of_nat k)) by congruence.
    assert (Eq : q = period_at start_date end_date due_day
                       (m0 + Z.of_nat (S k))) by congruence.
    subst p q.
    rewrite period_at_start by (try assumption; fold m0; lia).
    rewrite period_at_end by (try assumption; fold ie; lia).
    fold m0 ie.
    replace (m0 + Z.of_nat (S k) =? m0) with false
      by (symmetry; apply Z.eqb_neq; lia).
    replace (m0 + Z.of_nat k =? ie) with false
      by (symmetry; apply Z.eqb_neq; lia).
    replace (m0 + Z.of_nat (S k)) with (m0 + Z.of_nat k + 1) by lia.
    apply month_end_then_first. lia.
Qed.

Lemma X28_monthly_periods_tile_witness :
  (exists p, nth_error
               [PeriodDict.mk 2025 1 (d 2025 1 15) (d 2025 1 31)
                  (d 2025 1 31) "January 2025";
                PeriodDict.mk 2025 2 (d 2025 2 1) (d 2025 2 28)
                  (d 2025 2 28) "February 2025";
                PeriodDict.mk 2025 3 (d 2025 3 1) (d 2025 3 20)
                  (d 2025 3 31) "March 2025"] 0 = Some p
             /\ PeriodDict.period_start p = d 2025 1 15).
Proof.
  refine (proj1 (X28_monthly_periods_tile_the_range
                   (d 2025 1 15) (d 2025 3 20) 31 5 _ _ _ _ _ _ _ _));
    try (repeat split; cbn; lia); reflexivity.
Defined.

End MonthlyPeriodTiling.

(* ------------------------------------------------------------------ *)
(** ** South African identity numbers *)

Section IdentityNumberFacts.

Import ValidationUtils.

Lemma luhn_double_range (x : Z) :
  0 <= x <= 9 -> 0 <= luhn_double x <= 9.
Proof.
  intros H. unfold luhn_double. cbv zeta.
  destruct (x * 2 <? 10) eqn:E;
    [ apply Z.ltb_lt in E | apply Z.ltb_ge in E ]; lia.
Qed.

Lemma luhn_double_inj (x y : Z) :
  0 <= x <= 9 -> 0 <= y <= 9 -> luhn_double x = luhn_double y -> x = y.
Proof.
  intros Hx Hy. unfold luhn_double. cbv zeta.
  destruct (x * 2 <? 10) eqn:Ex; destruct (y * 2 <? 10) eqn:Ey;
    rewrite ?Z.ltb_lt, ?Z.ltb_ge in *; lia.
Qed.

(** Two sums that differ in one term below ten give different check
    digits. *)
Lemma check_digit_shift (r x y c : Z) :
  0 <= x <= 9 -> 0 <= y <= 9 ->
  (10 - (r + x) mod 10) mod 10 = c ->
  (10 - (r + y) mod 10) mod 10 = c ->
  x = y.
Proof.
  intros Hx Hy H1 H2. Z.div_mod_to_equations. lia.
Qed.

Lemma sum_from (f : nat -> Z) (l : list nat) (a : Z) :
  fold_left (fun acc j => acc + f j) l a
  = a + fold_left (fun acc j => acc + f j) l 0.
Proof.
  revert a. induction l as [ | x l IH ]; intros a; cbn [fold_left].
  - lia.
  - rewrite (IH (a + f x)), (IH (0 + f x)). lia.
Qed.

Lemma sum_agree (f g : nat -> Z) (l : list nat) :
  (forall j, In j l -> f j = g j) ->
  fold_left (fun acc j => acc + f j) l 0
  = fold_left (fun acc j => acc + g j) l 0.
Proof.
  induction l as [ | x l IH ]; intros H; cbn [fold_left]; [ reflexivity | ].
  rewrite (sum_from f), (sum_from g), IH, (H x).
  - reflexivity.
  - left. reflexivity.
  - intros j Hj. apply H. right. exact Hj.
Qed.

Lemma sum_differ_at_one (f g : nat -> Z) (l : list nat) (i : nat) :
  NoDup l -> In i l ->
  (forall j, In j l -> j <> i -> f j = g j) ->
  fold_left (fun acc j => acc + f j) l 0 - f i
  = fold_left (fun acc j => acc + g j) l 0 - g i.
Proof.
  induction l as [ | x l IH ]; intros Hnd Hin H; [ contradiction | ].
  inversion Hnd as [ | ? ? Hnotin Hnd' ]; subst.
  cbn [fold_left]. rewrite (sum_from f), (sum_from g).
  destruct Hin as [ -> | Hin ].
  - rewrite (sum_agree f g l); [ lia | ].
    intros j Hj. apply H; [ right; exact Hj | ].
    intros ->. contradiction.
  - assert (Hx : f x = g x).
    { apply H; [ left; reflexivity | ]. intros ->. contradiction. }
    specialize (IH Hnd' Hin (fun j Hj => H j (or_intror Hj))).
    lia.
Qed.

Lemma fold_left_pointwise {A B : Type} (F G : A -> B -> A) (l : list B)
    (a : A) :
  (forall x y, F x y = G x y) -> fold_left F l a = fold_left G l a.
Proof.
  intros H. revert a. induction l as [ | y l IH ]; intros a; cbn [fold_left];
    [ reflexivity | ].
  rewrite H. apply IH.
Qed.

(** The checksum as a sum of weighted digits. *)
Lemma checksum_as_sum (ds : list Z) :
  checksum ds
  = fold_left (fun acc j =>
                 acc + (if Nat.even j then nth j ds 0
                        else luhn_double (nth j ds 0)))
              (seq 0 12) 0.
Proof.
  unfold checksum. apply fold_left_pointwise.
  intros acc j. destruct (Nat.even j); reflexivity.
Qed.

Lemma luhn_detects_single_error (ds ds' : list Z) (i : nat) :
  (forall j, (j < 13)%nat -> 0 <= nth j ds 0 <= 9) ->
  (forall j, (j < 13)%nat -> 0 <= nth j ds' 0 <= 9) ->
  (i < 13)%nat -> nth i ds 0 <> nth i ds' 0 ->
  (forall j, (j < 13)%nat -> j <> i -> nth j ds 0 = nth j ds' 0) ->
  check_digit ds = nth 12 ds 0 -> check_digit ds' = nth 12 ds' 0 ->
  False.
Proof.
  intros Hr Hr' Hi Hne Hsame Hc Hc'.
  unfold check_digit in Hc, Hc'. rewrite checksum_as_sum in Hc, Hc'.
  set (f := fun j => if Nat.even j then nth j ds 0
                     else luhn_double (nth j ds 0)) in *.
  set (g := fun j => if Nat.even j then nth j ds' 0
                     else luhn_double (nth j ds' 0)) in *.
  assert (Hfg : forall j, In j (seq 0 12) -> j <> i -> f j = g j).
  { intros j Hj Hji. apply in_seq in Hj. unfold f, g.
    rewrite (Hsame j) by lia. reflexivity. }
  destruct (Nat.eq_dec i 12) as [ -> | Hi12 ].
  - rewrite (sum_agree f g) in Hc.
    + apply Hne. rewrite <- Hc, <- Hc'. reflexivity.
    + intros j Hj. apply Hfg; [ exact Hj | ].
      apply in_seq in Hj. lia.
  - assert (Hin : In i (seq 0 12)) by (apply in_seq; lia).
    pose proof (sum_differ_at_one f g (seq 0 12) i (seq_NoDup 12 0) Hin Hfg)
      as Hshift.
    assert (Hlast : nth 12 ds 0 = nth 12 ds' 0) by (apply Hsame; lia).
    assert (Hfi : 0 <= f i <= 9).
    { unfold f. destruct (Nat.even i);
        [ | apply luhn_double_range ]; apply Hr; lia. }
    assert (Hgi : 0 <= g i <= 9).
    { unfold g. destruct (Nat.even i);
        [ | apply luhn_double_range ]; apply Hr'; lia. }
    set (sf := fold_left (fun acc j => acc + f j) (seq 0 12) 0) in *.
    set (sg := fold_left (fun acc j => acc + g j) (seq 0 12) 0) in *.
    assert (Heq : f i = g i).
    { apply (check_digit_shift (sf - f i) (f i) (g i) (nth 12 ds 0) Hfi Hgi).
      - replace (sf - f i + f i) with sf by lia. exact Hc.
      - replace (sf - f i + g i) with sg by lia. rewrite Hlast. exact Hc'. }
    apply Hne. unfold f, g in Heq. destruct (Nat.even i).
    + exact Heq.
    + apply luhn_double_inj; [ apply Hr | apply Hr' | exact Heq ]; lia.
Qed.

Lemma int_of_char_ok (c : Ascii.ascii) (v : Z) :
  int_of_char c = Ok v ->
  ascii_digit c /\ 0 <= v <= 9 /\ v = Z.of_nat (Ascii.nat_of_ascii c) - 48.
Proof.
  unfold int_of_char, ascii_digit. cbv zeta.
  destruct (Nat.leb 48 (Ascii.nat_of_ascii c)) eqn:E1;
    [ | discriminate ].
  destruct (Nat.leb (Ascii.nat_of_ascii c) 57) eqn:E2;
    [ | discriminate ].
  cbn [andb]. intros H. injection H as <-.
  apply Nat.leb_le in E1. apply Nat.leb_le in E2. lia.
Qed.

Lemma ascii_digit_int (c : Ascii.ascii) :
  ascii_digit c ->
  isdigit_char c = true
  /\ int_of_char c = Ok (Z.of_nat (Ascii.nat_of_ascii c) - 48).
Proof.
  unfold ascii_digit, isdigit_char, int_of_char. cbv zeta. intros [H1 H2].
  apply Nat.leb_le in H1. apply Nat.leb_le in H2. rewrite H1, H2.
  split; reflexivity.
Qed.

Lemma int_of_char_inj (a b : Ascii.ascii) (v : Z) :
  int_of_char a = Ok v -> int_of_char b = Ok v -> a = b.
Proof.
  intros Ha Hb.
  apply int_of_char_ok in Ha. apply int_of_char_ok in Hb.
  destruct Ha as (_ & _ & Ha). destruct Hb as (_ & _ & Hb).
  rewrite <- (Ascii.ascii_nat_embedding a), <- (Ascii.ascii_nat_embedding b).
  f_equal. lia.
Qed.

Lemma char_of_digit_int (v : Z) :
  0 <= v <= 9 ->
  ascii_digit (char_of_digit v) /\ int_of_char (char_of_digit v) = Ok v.
Proof.
  intros Hv.
  assert (Hn : Ascii.nat_of_ascii (char_of_digit v) = (48 + Z.to_nat v)%nat)
    by (unfold char_of_digit; apply Ascii.nat_ascii_embedding; lia).
  assert (Hd : ascii_digit (char_of_digit v))
    by (unfold ascii_digit; rewrite Hn; lia).
  split; [ exact Hd | ].
  rewrite (proj2 (ascii_digit_int _ Hd)), Hn. f_equal. lia.
Qed.

Lemma ints_of_chars_nth (cs : list Ascii.ascii) (ds : list Z) :
  ints_of_chars cs = Ok ds ->
  List.length ds = List.length cs
  /\ (forall j, (j < List.length cs)%nat ->
                int_of_char (nth j cs Ascii.zero) = Ok (nth j ds 0)).
Proof.
  revert ds. induction cs as [ | c cs IH ]; intros ds H; cbn in H.
  - injection H as <-. split; [ reflexivity | ]. cbn. lia.
  - destruct (int_of_char c) as [ x | ] eqn:Ec; [ | discriminate H ].
    cbn [bind] in H.
    destruct (ints_of_chars cs) as [ xs | ] eqn:Ecs; [ | discriminate H ].
    cbn [bind] in H. injection H as <-.
    destruct (IH xs eq_refl) as [Hlen Hnth].
    split; [ cbn; rewrite Hlen; reflexivity | ].
    intros [ | j ] Hj; cbn [nth]; [ exact Ec | ].
    apply Hnth. cbn in Hj. lia.
Qed.

Lemma ints_of_digit_chars (cs : list Ascii.ascii) :
  Forall ascii_digit cs ->
  forallb isdigit_char cs = true /\ exists ds, ints_of_chars cs = Ok ds.
Proof.
  induction 1 as [ | c cs Hc _ [IHb [ds IHd]] ]; cbn.
  - split; [ reflexivity | eexists; reflexivity ].
  - destruct (ascii_digit_int c Hc) as [Hb Hi].
    rewrite Hb, IHb, Hi, IHd. cbn [bind andb].
    split; [ reflexivity | eexists; reflexivity ].
Qed.

Lemma ints_of_chars_snoc (cs : list Ascii.ascii) (c : Ascii.ascii)
    (ds : list Z) :
  ints_of_chars cs = Ok ds ->
  ints_of_chars (cs ++ [c])
  = (v <- int_of_char c ;; Ok (ds ++ [v])).
Proof.
  revert ds. induction cs as [ | a cs IH ]; intros ds H; cbn in H |- *.
  - injection H as <-. destruct (int_of_char c); reflexivity.
  - destruct (int_of_char a) as [ x | ]; [ | discriminate H ].
    cbn [bind] in H |- *.
    destruct (ints_of_chars cs) as [ xs | ]; [ | discriminate H ].
    cbn [bind] in H. injection H as <-.
    rewrite (IH xs eq_refl).
    destruct (int_of_char c); reflexivity.
Qed.

Lemma chars_app (s1 s2 : string) :
  list_ascii_of_string (s1 ++ s2)
  = list_ascii_of_string s1 ++ list_ascii_of_string s2.
Proof.
  induction s1 as [ | c s1 IH ]; cbn; [ reflexivity | ].
  rewrite IH. reflexivity.
Qed.

Lemma validate_true_inv (s : string) :
  validate_south_african_id s = Ok true ->
  List.length (list_ascii_of_string s) = 13%nat
  /\ exists ds, ints_of_chars (list_ascii_of_string s) = Ok ds
                /\ check_digit ds = nth 12 ds 0.
Proof.
  unfold validate_south_african_id. cbv zeta.
  set (cs := list_ascii_of_string s).
  destruct (Nat.eqb (List.length cs) 13) eqn:El; cbn [negb];
    [ | discriminate ].
  destruct (forallb isdigit_char cs); cbn [negb]; [ | discriminate ].
  destruct (date_check cs) as [ [ | ] | e ];
    [ | discriminate | destruct e; discriminate ].
  destruct (ints_of_chars cs) as [ ds | ]; [ | discriminate ].
  cbn [bind]. intros H. injection H as H.
  apply Z.eqb_eq in H. apply Nat.eqb_eq in El.
  split; [ exact El | ]. exists ds. split; [ reflexivity | exact H ].
Qed.

(** X30: the check digit detects every single wrong digit: of two
    identity numbers written in the digits '0' to '9' that differ in
    exactly one of the thirteen positions, at most one is accepted. *)
Theorem X30_identity_number_detects_single_error (s s' : string) (i : nat) :
  Forall ascii_digit (list_ascii_of_string s) ->
  Forall ascii_digit (list_ascii_of_string s') ->
  (i < 13)%nat ->
  nth i (list_ascii_of_string s) Ascii.zero
  <> nth i (list_ascii_of_string s') Ascii.zero ->
  (forall j, (j < 13)%nat -> j <> i ->
             nth j (list_ascii_of_string s) Ascii.zero
             = nth j (list_ascii_of_string s') Ascii.zero) ->
  validate_south_african_id s = Ok true ->
  validate_south_african_id s' = Ok true ->
  False.
Proof.
  intros _ _ Hi Hne Hsame Hv Hv'.
  apply validate_true_inv in Hv. apply validate_true_inv in Hv'.
  destruct Hv as (Hl & ds & Hds & Hc).
  destruct Hv' as (Hl' & ds' & Hds' & Hc').
  destruct (ints_of_chars_nth _ _ Hds) as [_ Hn].
  destruct (ints_of_chars_nth _ _ Hds') as [_ Hn'].
  rewrite Hl in Hn. rewrite Hl' in Hn'.
  apply (luhn_detects_single_error ds ds' i).
  - intros j Hj. apply (int_of_char_ok _ _ (Hn j Hj)).
  - intros j Hj. apply (int_of_char_ok _ _ (Hn' j Hj)).
  - exact Hi.
  - intros Heq. apply Hne.
    apply (int_of_char_inj _ _ (nth i ds 0)); [ apply Hn; exact Hi | ].
    rewrite Heq. apply Hn'. exact Hi.
  - intros j Hj Hji.
    pose proof (Hn j Hj) as H1. pose proof (Hn' j Hj) as H2.
    rewrite (Hsame j Hj Hji) in H1. congruence.
  - exact Hc.
  - exact Hc'.
Qed.

Lemma X30_identity_number_witness :
  validate_south_african_id "8001015009087" = Ok true
  /\ (validate_south_african_id "8001015009097" = Ok true -> False).
Proof.
  split; [ reflexivity | ].
  intros H.
  apply (X30_identity_number_detects_single_error
           "8001015009087" "8001015009097" 11).
  - cbn. repeat constructor; unfold ascii_digit; cbn; lia.
  - cbn. repeat constructor; unfold ascii_digit; cbn; lia.
  - lia.
  - cbn. discriminate.
  - intros j Hj Hji.
    do 13 (destruct j as [ | j ]; [ try reflexivity; lia | ]). lia.
  - reflexivity.
  - exact H.
Defined.

Lemma date_check_app (cs l : list Ascii.ascii) :
  (6 <= List.length cs)%nat -> date_check (cs ++ l) = date_check cs.
Proof.
  intros Hl. unfold date_check. cbv zeta.
  rewrite !app_nth1 by lia. reflexivity.
Qed.

Lemma check_digit_app (ds l : list Z) :
  (12 <= List.length ds)%nat -> check_digit (ds ++ l) = check_digit ds.
Proof.
  intros Hl. unfold check_digit. rewrite !checksum_as_sum.
  f_equal. f_equal. f_equal.
  apply sum_agree. intros j Hj. apply in_seq in Hj.
  rewrite app_nth1 by lia. reflexivity.
Qed.

Lemma validate_snoc (prefix : string) (ds : list Z) (c : Ascii.ascii) :
  List.length (list_ascii_of_string prefix) = 12%nat ->
  forallb isdigit_char (list_ascii_of_string prefix) = true ->
  date_check (list_ascii_of_string prefix) = Ok true ->
  ints_of_chars (list_ascii_of_string prefix) = Ok ds ->
  validate_south_african_id (prefix ++ String c EmptyString)
  = if isdigit_char c
    then (v <- int_of_char c ;; Ok (check_digit ds =? v))
    else Ok false.
Proof.
  intros Hl Hb Hd Hi.
  pose proof (proj1 (ints_of_chars_nth _ _ Hi)) as Hlen. rewrite Hl in Hlen.
  unfold validate_south_african_id. cbv zeta.
  rewrite chars_app. cbn [list_ascii_of_string].
  set (cs := list_ascii_of_string prefix) in *.
  rewrite length_app, Hl. cbn [List.length Nat.add Nat.eqb negb].
  rewrite forallb_app, Hb. cbn [forallb andb].
  rewrite Bool.andb_true_r.
  destruct (isdigit_char c); cbn [negb]; [ | reflexivity ].
  rewrite date_check_app by lia. rewrite Hd.
  rewrite (ints_of_chars_snoc cs c ds Hi).
  destruct (int_of_char c) as [ v | e ]; cbn [bind]; [ | reflexivity ].
  rewrite check_digit_app by lia.
  rewrite app_nth2 by lia. rewrite Hlen. cbn [Nat.sub nth]. reflexivity.
Qed.

(** X29: twelve digits '0' to '9' that pass the date check have exactly
    one check digit: one of the digits '0' to '9' completes them to an
    accepted identity number, and no other of these digits does. *)
Theorem X29_identity_number_has_one_check_digit (prefix : string) :
  List.length (list_ascii_of_string prefix) = 12%nat ->
  Forall ascii_digit (list_ascii_of_string prefix) ->
  date_check (list_ascii_of_string prefix) = Ok true ->
  exists c,
    ascii_digit c
    /\ validate_south_african_id (prefix ++ String c EmptyString) = Ok true
    /\ (forall c',
          ascii_digit c' ->
          validate_south_african_id (prefix ++ String c' EmptyString)
          = Ok true ->
          c' = c).
Proof.
  intros Hl Hdig Hd.
  destruct (ints_of_digit_chars _ Hdig) as [Hb [ds Hi]].
  assert (Hv : 0 <= check_digit ds <= 9).
  { unfold check_digit.
    pose proof (Z.mod_pos_bound (10 - checksum ds mod 10) 10). lia. }
  destruct (char_of_digit_int _ Hv) as [Hc Hci].
  exists (char_of_digit (check_digit ds)).
  split; [ exact Hc | ]. split.
  - rewrite (validate_snoc prefix ds _ Hl Hb Hd Hi).
    rewrite (proj1 (ascii_digit_int _ Hc)), Hci. cbn [bind].
    rewrite Z.eqb_refl. reflexivity.
  - intros c' _ H.
    rewrite (validate_snoc prefix ds _ Hl Hb Hd Hi) in H.
    destruct (isdigit_char c'); [ | discriminate H ].
    destruct (int_of_char c') as [ v | e ] eqn:Ev; [ | discriminate H ].
    cbn [bind] in H. injection H as H. apply Z.eqb_eq in H. subst v.
    exact (int_of_char_inj _ _ _ Ev Hci).
Qed.

Lemma X29_identity_number_witness :
  exists c,
    ascii_digit c
    /\ validate_south_african_id ("800101500908" ++ String c EmptyString)
       = Ok true
    /\ (forall c',
          ascii_digit c' ->
          validate_south_african_id ("800101500908" ++ String c' EmptyString)
          = Ok true ->
          c' = c).
Proof.
  apply (X29_identity_number_has_one_check_digit "800101500908").
  - reflexivity.
  - cbn. repeat constructor; unfold ascii_digit; cbn; lia.
  - reflexivity.
Defined.

End IdentityNumberFacts.
